(** * Expense manager: edge functions, upload flow and row policies

    A shallow embedding of the parts of the expense-management application
    that carry behaviour of their own:

    - [RateLimiter]: [supabase/functions/rate-limiter/index.ts], the
      fixed-window request counter held in a process-wide [Map];
    - [AnalyzeReceipt]: [supabase/functions/analyze-receipt/index.ts], the
      request validation, the upstream call and the post-processing of the
      extracted fields;
    - [AnalyzeReceiptAnswers]: the shapes of its answers and the fields it
      leaves as the model gave them;
    - [SecurityUtils]: the input sanitization of the security utilities;
    - [Auth]: the sign-up handler of the authentication page;
    - [AuthRuns]: sign-up submissions in a row, with the client-side limiter;
    - [ExpenseUpload]: the upload component (analysis, form, save), and
      what it gets from the receipt analysis function;
    - [UploadChecks]: the file tests of the component and of the function;
    - [Expenses]: the approval handlers of the expense list and the row-level
      policies of the [expenses] table;
    - [RateLimiterRuns]: runs of the request counter and the responses of
      its handler.

    Stateful code is written in state-passing style: a function takes the
    state it reads and returns the state it leaves.  An asynchronous
    function is written as its parts between two [await]s, with what it
    holds on to in between.  Calls to the outside (the clock, the generative
    model, the JSON parser and the stack of the runtime) are arguments of
    the functions that use them.  Numbers are IEEE 754 binary64 values. *)

From Stdlib Require Import ZArith String Ascii List Lia Bool.
From Stdlib Require Import Floats.SpecFloat.
From stdpp Require Import base option list gmap strings.

Local Open Scope string_scope.
Local Open Scope Z_scope.

(** ** The request-rate limiter *)

Module RateLimiter.

Record RateLimitRule := {
  windowMs : Z;
  maxRequests : Z;
  message : string
}.

Definition rule_analyze_receipt : RateLimitRule :=
  {| windowMs := 60000; maxRequests := 10;
     message := "Demasiados análisis de recibos. Intenta en 1 minuto." |}.

Definition rule_auth_signup : RateLimitRule :=
  {| windowMs := 300000; maxRequests := 3;
     message := "Demasiados intentos de registro. Intenta en 5 minutos." |}.

Definition rule_auth_signin : RateLimitRule :=
  {| windowMs := 300000; maxRequests := 5;
     message := "Demasiados intentos de login. Intenta en 5 minutos." |}.

Definition rule_default : RateLimitRule :=
  {| windowMs := 60000; maxRequests := 30;
     message := "Demasiadas solicitudes. Intenta más tarde." |}.

(** [rateLimitConfig[endpoint]]: the own properties of the configuration
    object.  Endpoints are URL pathnames, which begin with a slash, so the
    properties an object inherits from its prototype are never named. *)
Definition rateLimitConfig (endpoint : string) : option RateLimitRule :=
  if decide (endpoint = "/analyze-receipt") then Some rule_analyze_receipt
  else if decide (endpoint = "/auth/signup") then Some rule_auth_signup
  else if decide (endpoint = "/auth/signin") then Some rule_auth_signin
  else if decide (endpoint = "default") then Some rule_default
  else None.

(** [rateLimitConfig[endpoint] || rateLimitConfig.default] *)
Definition config_for (endpoint : string) : RateLimitRule :=
  match rateLimitConfig endpoint with
  | Some rule => rule
  | None => rule_default
  end.

Record Entry := { count : Z; resetTime : Z }.

(** The result object of [isRateLimited]; the two optional fields are set
    on the limited branch only. *)
Record RateLimitResult := {
  limited : bool;
  res_message : option string;
  res_resetTime : option Z
}.

Definition not_limited : RateLimitResult :=
  {| limited := false; res_message := None; res_resetTime := None |}.

Definition getRateLimitKey (clientIP endpoint : string) : string :=
  clientIP +:+ ":" +:+ endpoint.

(** [isRateLimited], with [Date.now()] and the module-level
    [rateLimitStore] passed in; the store it leaves is returned. *)
Definition isRateLimited (clientIP endpoint : string) (now : Z)
    (rateLimitStore : gmap string Entry)
  : RateLimitResult * gmap string Entry :=
  let config := config_for endpoint in
  let key := getRateLimitKey clientIP endpoint in
  let fresh := {| count := 1; resetTime := now + windowMs config |} in
  match rateLimitStore !! key with
  | None => (not_limited, <[key := fresh]> rateLimitStore)
  | Some entry =>
      if resetTime entry <? now then
        (not_limited, <[key := fresh]> rateLimitStore)
      else if count entry <? maxRequests config then
        (not_limited,
         <[key := {| count := count entry + 1;
                     resetTime := resetTime entry |}]> rateLimitStore)
      else
        ({| limited := true;
            res_message := Some (message config);
            res_resetTime := Some (resetTime entry) |},
         rateLimitStore)
  end.

(** The parts of a request the handler can see, and some it never reads. *)
Record Request := {
  x_forwarded_for : option string;
  x_real_ip : option string;
  (** the URL pathname is a slash followed by [path_tail] *)
  path_tail : string;
  method : string;
  remote_addr : string;
  other_headers : list (string * string)
}.

Definition pathname (req : Request) : string := "/" +:+ path_tail req.

(** [a || b] on a header value: [null] and the empty string are falsy. *)
Definition or_else (a : option string) (b : string) : string :=
  match a with
  | Some s => if decide (s = "") then b else s
  | None => b
  end.

Definition clientIP_of (req : Request) : string :=
  or_else (x_forwarded_for req) (or_else (x_real_ip req) "unknown").

(** [Math.ceil((resetTime - Date.now()) / 1000)] on integer milliseconds. *)
Definition retryAfter (reset now : Z) : Z := - ((- (reset - now)) / 1000).

(** The successive readings of [Date.now()] during one invocation: inside
    [isRateLimited], for the body of a 429 and for its header. *)
Record Clock := { t_check : Z; t_body : Z; t_header : Z }.

Inductive Response :=
| Allowed
  (** status 200, body [{allowed: true}] *)
| TooManyRequests (msg : option string) (retryAfter_body : Z)
    (retryAfter_header : Z) (limit_header : Z) (reset_header : Z)
  (** status 429 *).

Definition status (r : Response) : Z :=
  match r with Allowed => 200 | TooManyRequests _ _ _ _ _ => 429 end.

Definition limit_header_of (endpoint : string) : Z :=
  match rateLimitConfig endpoint with
  | Some rule => maxRequests rule
  | None => 30
  end.

(** The handler.  Nothing in its [try] block throws on a request with a
    well-formed URL, so the [catch] block and its 500 are left out. *)
Definition serve (req : Request) (clock : Clock)
    (rateLimitStore : gmap string Entry)
  : Response * gmap string Entry :=
  let endpoint := pathname req in
  let clientIP := clientIP_of req in
  let '(rateLimitResult, store') :=
    isRateLimited clientIP endpoint (t_check clock) rateLimitStore in
  if limited rateLimitResult then
    let reset := default 0 (res_resetTime rateLimitResult) in
    (TooManyRequests (res_message rateLimitResult)
       (retryAfter reset (t_body clock))
       (retryAfter reset (t_header clock))
       (limit_header_of endpoint)
       reset,
     store')
  else (Allowed, store').

(** *** Runs of calls *)

Record Call := { c_ip : string; c_endpoint : string; c_now : Z }.

Definition call_key (c : Call) : string :=
  getRateLimitKey (c_ip c) (c_endpoint c).

(** The calls of a list, one after the other, each paired with what it
    returned. *)
Fixpoint run (calls : list Call) (st : gmap string Entry)
  : list (Call * RateLimitResult) * gmap string Entry :=
  match calls with
  | [] => ([], st)
  | c :: rest =>
      let '(r, st1) := isRateLimited (c_ip c) (c_endpoint c) (c_now c) st in
      let '(rs, st2) := run rest st1 in
      ((c, r) :: rs, st2)
  end.

(** The calls of a trace that hit a given key. *)
Definition on_key (k : string) (tr : list (Call * RateLimitResult))
  : list (Call * RateLimitResult) :=
  filter (fun cr => call_key cr.1 = k) tr.

(** The stores the handler can leave behind: the empty one, and whatever a
    call for a client-IP string and a URL pathname makes of a reachable
    one. *)
Inductive reachable : gmap string Entry -> Prop :=
| reachable_empty : reachable ∅
| reachable_call st clientIP tail now :
    reachable st ->
    reachable (isRateLimited clientIP ("/" +:+ tail) now st).2.

(** The endpoint a key carries: the key from its first slash on.  A client
    IP has no slash and a pathname begins with one, so this is the pathname
    the key was built from (lemma [endpoint_of_key_plain]). *)
Fixpoint endpoint_of_key (key : string) : string :=
  match key with
  | EmptyString => EmptyString
  | String c rest =>
      if Ascii.eqb c "/"%char then key else endpoint_of_key rest
  end.

Fixpoint has_char (x : ascii) (s : string) : bool :=
  match s with
  | EmptyString => false
  | String c rest => Ascii.eqb c x || has_char x rest
  end.

(** The client IP as the words "first header present" describe it: a
    header counts as soon as it is there, whatever it holds. *)
Definition first_present (req : Request) : string :=
  match x_forwarded_for req with
  | Some s => s
  | None =>
      match x_real_ip req with
      | Some s => s
      | None => "unknown"
      end
  end.

(** *** Facts about one call *)

Lemma config_for_cases endpoint :
  config_for endpoint = rule_analyze_receipt \/
  config_for endpoint = rule_auth_signup \/
  config_for endpoint = rule_auth_signin \/
  config_for endpoint = rule_default.
Proof.
  unfold config_for, rateLimitConfig.
  repeat case_decide; auto.
Qed.

Lemma maxRequests_bounds endpoint :
  3 <= maxRequests (config_for endpoint) <= 30.
Proof.
  destruct (config_for_cases endpoint) as [-> | [-> | [-> | ->]]];
    simpl; lia.
Qed.

Lemma windowMs_whole_seconds endpoint :
  exists s, 0 < s /\ windowMs (config_for endpoint) = 1000 * s.
Proof.
  destruct (config_for_cases endpoint) as [-> | [-> | [-> | ->]]]; simpl;
    [exists 60 | exists 300 | exists 300 | exists 60]; lia.
Qed.

(** A call leaves every other key of the store alone. *)
Lemma isRateLimited_other clientIP endpoint now st k :
  getRateLimitKey clientIP endpoint <> k ->
  (isRateLimited clientIP endpoint now st).2 !! k = st !! k.
Proof.
  intros Hne. unfold isRateLimited.
  destruct (st !! getRateLimitKey clientIP endpoint) as [e|]; simpl.
  - destruct (resetTime e <? now); simpl.
    + by rewrite lookup_insert_ne.
    + destruct (count e <? maxRequests (config_for endpoint)); simpl;
        [by rewrite lookup_insert_ne | done].
  - by rewrite lookup_insert_ne.
Qed.

(** The three things a call can do to the store. *)
Lemma isRateLimited_store clientIP endpoint now st :
  let k := getRateLimitKey clientIP endpoint in
  let rule := config_for endpoint in
  let st' := (isRateLimited clientIP endpoint now st).2 in
  st' = <[k := {| count := 1; resetTime := now + windowMs rule |}]> st
  \/ (exists e, st !! k = Some e /\ count e + 1 <= maxRequests rule /\
        st' = <[k := {| count := count e + 1;
                        resetTime := resetTime e |}]> st)
  \/ st' = st.
Proof.
  simpl. unfold isRateLimited.
  destruct (st !! getRateLimitKey clientIP endpoint) as [e|] eqn:Hk;
    simpl; [| by left].
  destruct (resetTime e <? now); simpl; [by left |].
  destruct (count e <? maxRequests (config_for endpoint)) eqn:Hc; simpl.
  - right; left. exists e. apply Z.ltb_lt in Hc.
    split; [done | split; [lia | done]].
  - by right; right.
Qed.

Lemma retryAfter_le_window reset now w s :
  w = 1000 * s -> reset - now <= w -> retryAfter reset now * 1000 <= w.
Proof.
  intros -> Hle. unfold retryAfter.
  assert (- s <= (- (reset - now)) / 1000)
    by (apply Z.div_le_lower_bound; lia).
  lia.
Qed.

(** *** Runs inside one window *)

(** No other pair of client IP and endpoint of the run is written to the
    key of [clientIP] and [endpoint]. *)
Definition unaliased (clientIP endpoint : string) (c : Call) : Prop :=
  call_key c = getRateLimitKey clientIP endpoint ->
  c_ip c = clientIP /\ c_endpoint c = endpoint.

Lemma run_cons c rest st :
  run (c :: rest) st =
    ((c, (isRateLimited (c_ip c) (c_endpoint c) (c_now c) st).1)
       :: (run rest (isRateLimited (c_ip c) (c_endpoint c) (c_now c) st).2).1,
     (run rest (isRateLimited (c_ip c) (c_endpoint c) (c_now c) st).2).2).
Proof.
  simpl. destruct (isRateLimited _ _ _ st) as [r st1]. simpl.
  by destruct (run rest st1).
Qed.

(** Once the entry of the key exists and no call for the key comes after
    its [resetTime], the calls for the key are let through until the count
    reaches the maximum and refused from then on. *)
Lemma run_in_window clientIP endpoint R calls :
  forall st c,
    st !! getRateLimitKey clientIP endpoint
      = Some {| count := c; resetTime := R |} ->
    c <= maxRequests (config_for endpoint) ->
    Forall (unaliased clientIP endpoint) calls ->
    Forall (fun cl => call_key cl = getRateLimitKey clientIP endpoint ->
                      c_now cl <= R) calls ->
    forall j cl r,
      on_key (getRateLimitKey clientIP endpoint) (run calls st).1 !! j
        = Some (cl, r) ->
      limited r
        = bool_decide (maxRequests (config_for endpoint) <= c + Z.of_nat j)
      /\ (limited r = true -> res_resetTime r = Some R).
Proof.
  induction calls as [| c0 rest IH]; intros st c Hst Hc Hal Hin j cl r Hj.
  { simpl in Hj. unfold on_key in Hj. rewrite filter_nil in Hj.
    by rewrite lookup_nil in Hj. }
  apply Forall_cons in Hal as [Hal0 Hal].
  apply Forall_cons in Hin as [Hin0 Hin].
  rewrite run_cons in Hj. simpl in Hj. unfold on_key in Hj.
  rewrite filter_cons in Hj. simpl in Hj.
  destruct (decide (call_key c0 = getRateLimitKey clientIP endpoint))
    as [Hk | Hk].
  - destruct (Hal0 Hk) as [Hip Hep]. specialize (Hin0 Hk).
    rewrite Hip, Hep in Hj. unfold isRateLimited in Hj. rewrite Hst in Hj.
    simpl in Hj.
    destruct (R <? c_now c0) eqn:Hexp; [apply Z.ltb_lt in Hexp; lia |].
    destruct (c <? maxRequests (config_for endpoint)) eqn:Hlt; simpl in Hj.
    + apply Z.ltb_lt in Hlt.
      destruct j as [| j]; simpl in Hj.
      * inversion Hj; subst. simpl. split; [| done].
        symmetry. apply bool_decide_eq_false. lia.
      * eapply (IH _ (c + 1)) in Hj; [| by rewrite lookup_insert_eq | lia
                                       | done | done].
        destruct Hj as [Hl Hr]. split; [| done].
        rewrite Hl. apply bool_decide_ext. lia.
    + apply Z.ltb_ge in Hlt.
      destruct j as [| j]; simpl in Hj.
      * inversion Hj; subst. simpl. split; [| done].
        symmetry. apply bool_decide_eq_true. lia.
      * eapply (IH _ c) in Hj; [| done | lia | done | done].
        destruct Hj as [Hl Hr]. split; [| done].
        rewrite Hl. rewrite !bool_decide_eq_true_2; [done | lia | lia].
  - eapply (IH _ c) in Hj; [done | | lia | done | done].
    rewrite isRateLimited_other; done.
Qed.

(** Before the first call for the key there is no entry; that call makes
    one, and the rest of the run is inside its window. *)
Lemma run_from_absent clientIP endpoint c1 calls :
  forall st,
    st !! getRateLimitKey clientIP endpoint = None ->
    Forall (unaliased clientIP endpoint) calls ->
    head (filter (fun cl => call_key cl = getRateLimitKey clientIP endpoint)
            calls) = Some c1 ->
    Forall (fun cl => call_key cl = getRateLimitKey clientIP endpoint ->
                      c_now cl <= c_now c1 + windowMs (config_for endpoint))
      calls ->
    forall j cl r,
      on_key (getRateLimitKey clientIP endpoint) (run calls st).1 !! j
        = Some (cl, r) ->
      limited r
        = bool_decide (maxRequests (config_for endpoint) <= Z.of_nat j)
      /\ (limited r = true ->
          res_resetTime r
            = Some (c_now c1 + windowMs (config_for endpoint))).
Proof.
  induction calls as [| c0 rest IH]; intros st Hst Hal Hhd Hin j cl r Hj.
  { simpl in Hj. unfold on_key in Hj. rewrite filter_nil in Hj.
    by rewrite lookup_nil in Hj. }
  apply Forall_cons in Hal as [Hal0 Hal].
  apply Forall_cons in Hin as [Hin0 Hin].
  rewrite run_cons in Hj. simpl in Hj. unfold on_key in Hj.
  rewrite filter_cons in Hj. rewrite filter_cons in Hhd. simpl in Hj.
  destruct (decide (call_key c0 = getRateLimitKey clientIP endpoint))
    as [Hk | Hk].
  - destruct (Hal0 Hk) as [Hip Hep].
    simpl in Hhd. inversion Hhd; subst c0. clear Hhd.
    rewrite Hip, Hep in Hj. unfold isRateLimited in Hj. rewrite Hst in Hj.
    simpl in Hj.
    pose proof (maxRequests_bounds endpoint) as Hmax.
    destruct j as [| j]; simpl in Hj.
    + inversion Hj; subst. simpl. split; [| done].
      symmetry. apply bool_decide_eq_false. lia.
    + eapply (run_in_window _ _ _ _ _ 1) in Hj;
        [| by rewrite lookup_insert_eq | lia | done | done].
      destruct Hj as [Hl Hr]. split; [| done].
      rewrite Hl. apply bool_decide_ext. lia.
  - eapply IH in Hj; [done | | done | done | done].
    rewrite isRateLimited_other; done.
Qed.

(** *** The endpoint of a key *)

Lemma has_char_app x s t :
  has_char x (s +:+ t) = has_char x s || has_char x t.
Proof.
  induction s as [| c s IH]; simpl; [done |].
  by rewrite IH, orb_assoc.
Qed.

Lemma endpoint_of_key_app_r s t :
  has_char "/" s = false -> endpoint_of_key (s +:+ t) = endpoint_of_key t.
Proof.
  induction s as [| c s IH]; simpl; [done |].
  intros H. apply orb_false_iff in H as [Hc Hs].
  rewrite Hc. by apply IH.
Qed.

Lemma endpoint_of_key_app_l s t :
  has_char "/" s = true ->
  endpoint_of_key (s +:+ t) = endpoint_of_key s +:+ t.
Proof.
  induction s as [| c s IH]; simpl; [done |].
  destruct (Ascii.eqb c "/") eqn:Hc; simpl; [done |].
  apply IH.
Qed.

(** For a client IP without a slash, the key gives back the pathname. *)
Lemma endpoint_of_key_plain clientIP tail :
  has_char "/" clientIP = false ->
  endpoint_of_key (getRateLimitKey clientIP ("/" +:+ tail)) = "/" +:+ tail.
Proof.
  intros H. unfold getRateLimitKey.
  rewrite endpoint_of_key_app_r by done. reflexivity.
Qed.

(** No configured endpoint has a colon in its name. *)
Lemma config_for_colon endpoint :
  has_char ":" endpoint = true -> config_for endpoint = rule_default.
Proof.
  intros H. unfold config_for, rateLimitConfig.
  repeat case_decide; subst; try done; discriminate H.
Qed.

(** The rule found through the key allows at least as much as the rule of
    the pathname the call was made for. *)
Lemma endpoint_of_key_max clientIP tail :
  maxRequests (config_for ("/" +:+ tail))
  <= maxRequests
       (config_for
          (endpoint_of_key (getRateLimitKey clientIP ("/" +:+ tail)))).
Proof.
  destruct (has_char "/" clientIP) eqn:Hs.
  - unfold getRateLimitKey. rewrite endpoint_of_key_app_l by done.
    rewrite (config_for_colon (endpoint_of_key clientIP +:+ _)).
    + pose proof (maxRequests_bounds ("/" +:+ tail)).
      change (maxRequests rule_default) with 30. lia.
    + rewrite has_char_app. simpl. apply orb_true_r.
  - rewrite endpoint_of_key_plain by done. lia.
Qed.

Definition entry_ok (k : string) (e : Entry) : Prop :=
  1 <= count e <= maxRequests (config_for (endpoint_of_key k)).

Lemma reachable_entries_ok st :
  reachable st -> forall k e, st !! k = Some e -> entry_ok k e.
Proof.
  induction 1 as [| st clientIP tail now Hreach IH]; intros k e Hk.
  { by rewrite lookup_empty in Hk. }
  destruct (decide (getRateLimitKey clientIP ("/" +:+ tail) = k))
    as [<- | Hne]; [| rewrite isRateLimited_other in Hk by done; eauto].
  pose proof (endpoint_of_key_max clientIP tail) as Hmax.
  pose proof (maxRequests_bounds ("/" +:+ tail)) as Hb.
  destruct (isRateLimited_store clientIP ("/" +:+ tail) now st)
    as [Hs | [(e0 & He0 & Hc & Hs) | Hs]]; rewrite Hs in Hk.
  - rewrite lookup_insert_eq in Hk. inversion Hk; subst.
    unfold entry_ok; simpl. lia.
  - rewrite lookup_insert_eq in Hk. inversion Hk; subst.
    specialize (IH _ _ He0). unfold entry_ok in *; simpl. lia.
  - eauto.
Qed.

(** *** The window *)

(** C2.  Start from the empty store and take any run of calls in which the
    calls that hit the key of [clientIP] and [endpoint] are calls for that
    very pair and lie in one window: none of them comes after the
    [resetTime] stored by the first of them, [c1].  Then the calls for the
    key are answered in order: the first [maxRequests] with [limited: false],
    every later one with [limited: true] and the [resetTime] of the window;
    and the Retry-After computed from that [resetTime] at a reading of the
    clock that is not earlier than the start of the window, in seconds, is
    no longer than the window. *)
Theorem window_allows_exactly_max clientIP endpoint calls c1 :
  Forall (unaliased clientIP endpoint) calls ->
  head (filter (fun cl => call_key cl = getRateLimitKey clientIP endpoint)
          calls) = Some c1 ->
  Forall (fun cl => call_key cl = getRateLimitKey clientIP endpoint ->
                    c_now cl <= c_now c1 + windowMs (config_for endpoint))
    calls ->
  forall j cl r,
    on_key (getRateLimitKey clientIP endpoint) (run calls ∅).1 !! j
      = Some (cl, r) ->
    limited r
      = bool_decide (maxRequests (config_for endpoint) <= Z.of_nat j)
    /\ (limited r = true ->
        exists reset,
          res_resetTime r = Some reset
          /\ reset = c_now c1 + windowMs (config_for endpoint)
          /\ forall now', c_now c1 <= now' ->
               retryAfter reset now' * 1000
               <= windowMs (config_for endpoint)).
Proof.
  intros Hal Hhd Hin j cl r Hj.
  destruct (run_from_absent clientIP endpoint c1 calls ∅
              (lookup_empty _) Hal Hhd Hin j cl r Hj) as [Hl Hr].
  split; [exact Hl |].
  intros Hlim. eexists. split; [by apply Hr |]. split; [done |].
  intros now' Hnow.
  destruct (windowMs_whole_seconds endpoint) as (s & Hs & Hw).
  apply (retryAfter_le_window _ _ _ s); [done | lia].
Qed.

(** C10, as the code has it.  In every reachable store every entry has a
    count of at least one and at most the [maxRequests] of the rule of the
    endpoint its key carries from its first slash on (the default rule when
    that endpoint is not configured).  For the key of a client IP without a
    slash and a pathname, that is the rule of the pathname.  And a call
    either writes an entry with count one, or adds one to the count of the
    entry of its key while staying within the [maxRequests] of its own rule,
    or leaves the store as it is. *)
Theorem store_counts_bounded :
  (forall st, reachable st ->
     forall k e, st !! k = Some e ->
       1 <= count e <= maxRequests (config_for (endpoint_of_key k)))
  /\ (forall st, reachable st ->
        forall clientIP tail e,
          has_char "/" clientIP = false ->
          st !! getRateLimitKey clientIP ("/" +:+ tail) = Some e ->
          1 <= count e <= maxRequests (config_for ("/" +:+ tail)))
  /\ (forall clientIP endpoint now st,
        let k := getRateLimitKey clientIP endpoint in
        let rule := config_for endpoint in
        let st' := (isRateLimited clientIP endpoint now st).2 in
        st' = <[k := {| count := 1; resetTime := now + windowMs rule |}]> st
        \/ (exists e, st !! k = Some e /\ count e + 1 <= maxRequests rule /\
              st' = <[k := {| count := count e + 1;
                              resetTime := resetTime e |}]> st)
        \/ st' = st).
Proof.
  split; [| split].
  - intros st Hst k e Hk. exact (reachable_entries_ok st Hst k e Hk).
  - intros st Hst clientIP tail e Hip Hk.
    pose proof (reachable_entries_ok st Hst _ e Hk) as Hok.
    unfold entry_ok in Hok. by rewrite endpoint_of_key_plain in Hok.
  - exact isRateLimited_store.
Qed.

(** *** What a decision depends on *)

Lemma serve_same_key r1 r2 clock st :
  clientIP_of r1 = clientIP_of r2 -> path_tail r1 = path_tail r2 ->
  serve r1 clock st = serve r2 clock st.
Proof.
  intros Hip Hpath. unfold serve, pathname. by rewrite Hip, Hpath.
Qed.

Lemma serve_other_keys r clock st k :
  getRateLimitKey (clientIP_of r) (pathname r) <> k ->
  (serve r clock st).2 !! k = st !! k.
Proof.
  intros Hne. unfold serve.
  pose proof (isRateLimited_other (clientIP_of r) (pathname r)
                (t_check clock) st k Hne) as Hother.
  destruct (isRateLimited (clientIP_of r) (pathname r) (t_check clock) st)
    as [res st'].
  simpl in Hother. by destruct (limited res).
Qed.

(** The 429 carries the Retry-After computed from the [resetTime] of the
    refusal, at the reading of the clock taken for the header. *)
Lemma serve_refusal req clock st msg reset :
  isRateLimited (clientIP_of req) (pathname req) (t_check clock) st
  = ({| limited := true; res_message := msg; res_resetTime := Some reset |},
     st) ->
  serve req clock st
  = (TooManyRequests msg (retryAfter reset (t_body clock))
       (retryAfter reset (t_header clock))
       (limit_header_of (pathname req)) reset,
     st).
Proof. intros H. unfold serve. by rewrite H. Qed.

(** C9, as the code has it.  The response and the store a request leaves
    are determined by the client IP the handler derives (the first of
    [x-forwarded-for] and [x-real-ip] that is present and not empty, else
    ["unknown"]), the pathname, the store and the clock: requests that
    agree on the derived IP and the pathname, and so requests that agree on
    the two headers and the pathname, are answered alike whatever else they
    carry.  The derived IP is the first header present unless a header is
    present and empty.  A request with neither header is counted under
    ["unknown:<pathname>"] and touches no other key. *)
Theorem decision_depends_on_key_only :
  (forall r1 r2 clock st,
     clientIP_of r1 = clientIP_of r2 -> pathname r1 = pathname r2 ->
     serve r1 clock st = serve r2 clock st)
  /\ (forall r1 r2 clock st,
        x_forwarded_for r1 = x_forwarded_for r2 ->
        x_real_ip r1 = x_real_ip r2 ->
        pathname r1 = pathname r2 ->
        serve r1 clock st = serve r2 clock st)
  /\ (forall r,
        x_forwarded_for r <> Some "" -> x_real_ip r <> Some "" ->
        clientIP_of r = first_present r)
  /\ (forall r clock st,
        x_forwarded_for r = None -> x_real_ip r = None ->
        getRateLimitKey (clientIP_of r) (pathname r)
        = "unknown:" +:+ pathname r
        /\ forall k, k <> "unknown:" +:+ pathname r ->
             (serve r clock st).2 !! k = st !! k).
Proof.
  assert (Htail : forall r1 r2, pathname r1 = pathname r2 ->
                                path_tail r1 = path_tail r2).
  { unfold pathname. intros r1 r2 H. by inversion H. }
  split; [| split; [| split]].
  - intros r1 r2 clock st Hip Hp. apply serve_same_key; auto.
  - intros r1 r2 clock st Hf Hr Hp. apply serve_same_key; auto.
    unfold clientIP_of. by rewrite Hf, Hr.
  - intros r Hf Hr. unfold clientIP_of, first_present, or_else.
    destruct (x_forwarded_for r) as [s |].
    + case_decide; [by subst | done].
    + destruct (x_real_ip r) as [s |]; [| done].
      case_decide; [by subst | done].
  - intros r clock st Hf Hr.
    assert (Hkey : getRateLimitKey (clientIP_of r) (pathname r)
                   = "unknown:" +:+ pathname r).
    { unfold clientIP_of. rewrite Hf, Hr. reflexivity. }
    split; [exact Hkey |].
    intros k Hk. apply serve_other_keys. rewrite Hkey. congruence.
Qed.

(** *** Concrete runs *)

Definition signup_call (t : Z) : Call :=
  {| c_ip := "203.0.113.7"; c_endpoint := "/auth/signup"; c_now := t |}.

(** Four sign-up calls of one client within five minutes, and one of
    another client in between. *)
Definition signup_burst : list Call :=
  [ signup_call 0;
    {| c_ip := "198.51.100.2"; c_endpoint := "/auth/signup"; c_now := 5 |};
    signup_call 1000; signup_call 2000; signup_call 3000 ].

Definition signup_refusal : RateLimitResult :=
  {| limited := true;
     res_message := Some (message rule_auth_signup);
     res_resetTime := Some 300000 |}.

Lemma window_allows_exactly_max_witness :
  limited signup_refusal
    = bool_decide (maxRequests (config_for "/auth/signup") <= Z.of_nat 3)
  /\ (limited signup_refusal = true ->
      exists reset,
        res_resetTime signup_refusal = Some reset
        /\ reset = c_now (signup_call 0)
                    + windowMs (config_for "/auth/signup")
        /\ forall now', c_now (signup_call 0) <= now' ->
             retryAfter reset now' * 1000
             <= windowMs (config_for "/auth/signup")).
Proof.
  apply (window_allows_exactly_max "203.0.113.7" "/auth/signup"
           signup_burst (signup_call 0))
    with (j := 3%nat) (cl := signup_call 3000).
  - unfold signup_burst, unaliased.
    repeat apply List.Forall_cons; try apply List.Forall_nil;
      simpl; intros H; first [discriminate H | split; reflexivity].
  - reflexivity.
  - unfold signup_burst.
    repeat apply List.Forall_cons; try apply List.Forall_nil;
      simpl; intros H; first [discriminate H | lia].
  - reflexivity.
Defined.

(** The burst, call by call: three let through, the other client let
    through, the fourth refused. *)
Example signup_burst_answers :
  map (fun cr => limited cr.2) (run signup_burst ∅).1
  = [false; false; false; false; true].
Proof. reflexivity. Qed.

(** After the [resetTime] a new window starts. *)
Example signup_after_window :
  map (fun cr => limited cr.2)
    (run (signup_burst ++ [signup_call 300000; signup_call 300001])%list ∅).1
  = [false; false; false; false; true; true; false].
Proof. reflexivity. Qed.

Example retryAfter_values :
  retryAfter 300000 3000 = 297 /\ retryAfter 300000 299001 = 1
  /\ retryAfter 300000 300000 = 0 /\ retryAfter 300000 300500 = 0.
Proof. repeat split; reflexivity. Qed.

Definition one_signin_store : gmap string Entry :=
  (isRateLimited "10.0.0.1" ("/" +:+ "auth/signin") 0 ∅).2.

Lemma store_counts_bounded_witness :
  1 <= count {| count := 1; resetTime := 300000 |}
    <= maxRequests (config_for ("/" +:+ "auth/signin")).
Proof.
  apply (proj1 (proj2 store_counts_bounded) one_signin_store
           (reachable_call ∅ "10.0.0.1" "auth/signin" 0 reachable_empty)
           "10.0.0.1" "auth/signin").
  - reflexivity.
  - reflexivity.
Defined.

(** A client-IP value with a colon and a slash in it: the pair of
    ["x:/foo"] and ["/auth/signin"] and the pair of ["x"] and
    ["/foo:/auth/signin"] are written to the same key. *)
Definition aliased_store : gmap string Entry :=
  let other ms st := (isRateLimited "x" ("/" +:+ "foo:/auth/signin") ms st).2 in
  other 5 (other 4 (other 3 (other 2 (other 1
    (isRateLimited "x:/foo" ("/" +:+ "auth/signin") 0 ∅).2)))).

(** C10, as stated, fails: the entry made by a sign-in request, whose rule
    allows 5, has reached a count of 6 in a reachable store. *)
Lemma aliased_key_exceeds_rule :
  reachable aliased_store
  /\ getRateLimitKey "x:/foo" "/auth/signin"
     = getRateLimitKey "x" "/foo:/auth/signin"
  /\ aliased_store !! getRateLimitKey "x:/foo" "/auth/signin"
     = Some {| count := 6; resetTime := 300000 |}
  /\ maxRequests (config_for "/auth/signin") = 5.
Proof.
  split; [repeat apply reachable_call; apply reachable_empty |].
  repeat split; reflexivity.
Qed.

(** Two requests with an empty [x-forwarded-for]: the first header present
    is the same, the derived client IPs are not. *)
Definition empty_forwarded (real_ip : string) : Request :=
  {| x_forwarded_for := Some ""; x_real_ip := Some real_ip;
     path_tail := "auth/signup"; method := "POST";
     remote_addr := real_ip; other_headers := [] |}.

Definition spent_store : gmap string Entry :=
  (isRateLimited "10.0.0.1" ("/" +:+ "auth/signup") 0
     (isRateLimited "10.0.0.1" ("/" +:+ "auth/signup") 0
        (isRateLimited "10.0.0.1" ("/" +:+ "auth/signup") 0 ∅).2).2).2.

Definition at_one_second : Clock :=
  {| t_check := 1000; t_body := 1000; t_header := 1000 |}.

(** C9, as stated, fails: with the key made of the first header
    present, two requests with the same key, the same store and the same
    clock are answered differently. *)
Lemma first_present_does_not_decide :
  reachable spent_store
  /\ first_present (empty_forwarded "10.0.0.1")
     = first_present (empty_forwarded "10.0.0.2")
  /\ pathname (empty_forwarded "10.0.0.1")
     = pathname (empty_forwarded "10.0.0.2")
  /\ status (serve (empty_forwarded "10.0.0.1") at_one_second spent_store).1
     = 429
  /\ status (serve (empty_forwarded "10.0.0.2") at_one_second spent_store).1
     = 200.
Proof.
  split; [repeat apply reachable_call; apply reachable_empty |].
  repeat split; reflexivity.
Qed.

Lemma decision_depends_on_key_only_witness :
  serve (empty_forwarded "10.0.0.1") at_one_second spent_store
  = serve {| x_forwarded_for := None; x_real_ip := Some "10.0.0.1";
             path_tail := "auth/signup"; method := "GET";
             remote_addr := "192.0.2.9";
             other_headers := [("user-agent", "curl")] |}
      at_one_second spent_store.
Proof.
  apply (proj1 decision_depends_on_key_only); reflexivity.
Defined.

End RateLimiter.


(** ** Values of the runtime *)

Module Js.

(** A string is its sequence of UTF-16 code units; [length] counts them, as
    the [length] property does. *)
Definition of_string (s : string) : list N :=
  map N_of_ascii (list_ascii_of_string s).

(** [\w] without the unicode flag: ASCII letters, digits and the underscore. *)
Definition is_word (c : N) : bool :=
  ((48 <=? c) && (c <=? 57) || (65 <=? c) && (c <=? 90)
   || (c =? 95) || (97 <=? c) && (c <=? 122))%N.


Definition is_digit (c : N) : bool := ((48 <=? c) && (c <=? 57))%N.

(** [\s], which is also what [trim] removes: white space and line
    terminators. *)
Definition is_space (c : N) : bool :=
  ((9 <=? c) && (c <=? 13) || (c =? 32) || (c =? 160) || (c =? 5760)
   || (8192 <=? c) && (c <=? 8202) || (c =? 8232) || (c =? 8233)
   || (c =? 8239) || (c =? 8287) || (c =? 12288) || (c =? 65279))%N.

Fixpoint trimStart (s : list N) : list N :=
  match s with
  | c :: rest => if is_space c then trimStart rest else s
  | [] => []
  end.

Definition trimEnd (s : list N) : list N := rev (trimStart (rev s)).

Definition trim (s : list N) : list N := trimEnd (trimStart s).

(** [s.substring(0, n)] for a natural [n]. *)
Definition substring0 (n : nat) (s : list N) : list N := take n s.

(** The two halves of a character outside the Basic Multilingual Plane. *)
Definition is_high_surrogate (c : N) : bool :=
  ((55296 <=? c) && (c <=? 56319))%N.

Definition is_low_surrogate (c : N) : bool :=
  ((56320 <=? c) && (c <=? 57343))%N.

(** The number of characters (code points) of a string, as [[...s].length]
    counts them: a high surrogate followed by a low one is one character of
    two code units. *)
Fixpoint code_points (s : list N) : nat :=
  match s with
  | [] => 0%nat
  | c :: rest =>
      match rest with
      | d :: rest' =>
          if is_high_surrogate c && is_low_surrogate d
          then S (code_points rest')
          else S (code_points rest)
      | [] => 1%nat
      end
  end.

(** A number is an IEEE 754 binary64 value; the arithmetic is that of the
    format (round to nearest, ties to even), as the standard library
    specifies it. *)
Definition number : Type := spec_float.

Definition prec : Z := 53.

Definition emax : Z := 1024.

Definition NaN : number := S754_nan.

Definition zero : number := S754_zero false.

Definition add (x y : number) : number := SFadd prec emax x y.

Definition sub (x y : number) : number := SFsub prec emax x y.

Definition div (x y : number) : number := SFdiv prec emax x y.

(** [Math.abs] *)
Definition abs (x : number) : number := SFabs x.

(** [x > y]; false as soon as one side is [NaN]. *)
Definition gt (x y : number) : bool := SFltb y x.

(** [x <= y]; false as soon as one side is [NaN]. *)
Definition le (x y : number) : bool := SFleb x y.

Definition is_finite (x : number) : bool :=
  match x with
  | S754_zero _ | S754_finite _ _ _ => true
  | S754_infinity _ | S754_nan => false
  end.

Definition is_nan (x : number) : bool :=
  match x with S754_nan => true | _ => false end.

Definition is_zero (x : number) : bool :=
  match x with S754_zero _ => true | _ => false end.

(** The number an integer literal denotes: the integer itself up to 2^53,
    the nearest number of the format beyond. *)
Definition of_Z (n : Z) : number := binary_normalize prec emax n 0 false.

(** The number a decimal literal [n / 10^k] denotes, for [n] and [10^k]
    below 2^53: the quotient of two integers the format holds, rounded
    once. *)
Definition decimal (n : Z) (k : nat) : number :=
  div (of_Z n) (of_Z (10 ^ Z.of_nat k)).

(** The literal [0.01]: [0x1.47ae147ae147bp-7]. *)
Definition cent : number := S754_finite false 5764607523034235 (-59).

(** The values a field of a parsed JSON object can hold, [undefined] standing
    for a field that is not there.  A nested object or array comes with the
    text [String] turns it into, which is all the code below gets to see of
    it. *)
Inductive JsVal :=
| VUndefined
| VNull
| VBool (b : bool)
| VNum (x : number)
| VStr (s : list N)
| VObject (text : list N).

(** Truthiness: what [!v] and [v || w] look at. *)
Definition truthy (v : JsVal) : bool :=
  match v with
  | VUndefined | VNull => false
  | VBool b => b
  | VNum x => negb (is_nan x || is_zero x)
  | VStr [] => false
  | VStr _ => true
  | VObject _ => true
  end.

Section Conversions.

(** The conversion of a string to a number belongs to the runtime. *)
Variable StringToNumber : list N -> number.

(** [Number(v)]; an object or an array is turned into its text first. *)
Definition Number (v : JsVal) : number :=
  match v with
  | VUndefined => NaN
  | VNull => zero
  | VBool true => of_Z 1
  | VBool false => zero
  | VNum x => x
  | VStr s => StringToNumber s
  | VObject text => StringToNumber text
  end.

End Conversions.


Example cent_is_the_literal : cent = decimal 1 2.
Proof. reflexivity. Qed.

(** When [x > y] does not hold and neither side is [NaN], [x <= y] holds. *)
Lemma not_gt_le x y :
  gt x y = false -> is_nan x = false -> is_nan y = false -> le x y = true.
Proof.
  unfold gt, le, SFltb, SFleb.
  destruct x as [sx | sx | | sx mx ex], y as [sy | sy | | sy my ey];
    simpl; try done.
  - by destruct sy.
  - by destruct sy.
  - by destruct sx.
  - by destruct sx, sy.
  - by destruct sx.
  - by destruct sx.
  - by destruct sy.
  - intros H _ _. destruct sx, sy; try done.
    + rewrite (Z.compare_antisym ey ex).
      destruct (ey ?= ex)%Z; simpl in *; try done.
      rewrite Pos.compare_cont_spec in H |- *. simpl in *.
      rewrite (Pos.compare_antisym my mx).
      by destruct (my ?= mx)%positive.
    + rewrite (Z.compare_antisym ey ex).
      destruct (ey ?= ex)%Z; simpl in *; try done.
      rewrite Pos.compare_cont_spec in H |- *. simpl in *.
      rewrite (Pos.compare_antisym my mx).
      by destruct (my ?= mx)%positive.
Qed.


(** Taking a zero away from a finite number, or adding one to it, gives the
    number back, up to the sign of a zero. *)
Lemma sub_zero x y :
  is_finite x = true -> is_zero y = true ->
  sub x y = x \/ is_zero x = true /\ is_zero (sub x y) = true.
Proof.
  destruct x as [sx | sx | | sx mx ex], y as [sy | sy | | sy my ey];
    try done; intros _ _; [| by left].
  right. split; [done |]. by destruct sx, sy.
Qed.

Lemma add_zero x y :
  is_finite x = true -> is_zero y = true ->
  add x y = x \/ is_zero x = true /\ is_zero (add x y) = true.
Proof.
  destruct x as [sx | sx | | sx mx ex], y as [sy | sy | | sy my ey];
    try done; intros _ _; [| by left].
  right. split; [done |]. by destruct sx, sy.
Qed.

(** Rounding a mantissa gives a zero, a finite number or an infinity. *)
Lemma shr_1_nonneg mrs : 0 <= shr_m mrs -> 0 <= shr_m (shr_1 mrs).
Proof.
  destruct mrs as [m r s]. destruct m as [| [p | p |] | [p | p |]]; simpl; lia.
Qed.

Lemma iter_pos_shr_1_nonneg p mrs :
  0 <= shr_m mrs -> 0 <= shr_m (SpecFloat.iter_pos shr_1 p mrs).
Proof.
  revert mrs. induction p as [p IH | p IH |]; intros mrs Hm; simpl.
  - apply IH, IH. by apply shr_1_nonneg.
  - by apply IH, IH.
  - by apply shr_1_nonneg.
Qed.

Lemma shr_fexp_nonneg m e l :
  0 <= m -> 0 <= shr_m (shr_fexp prec emax m e l).1.
Proof.
  intros Hm. unfold shr_fexp, shr.
  assert (H0 : 0 <= shr_m (shr_record_of_loc m l)).
  { by destruct l as [| []]. }
  destruct (fexp prec emax (Zdigits2 m + e) - e); simpl; try done.
  by apply iter_pos_shr_1_nonneg.
Qed.

Lemma round_nearest_even_nonneg m l :
  0 <= m -> 0 <= round_nearest_even m l.
Proof.
  intros Hm. unfold round_nearest_even.
  destruct l as [| []]; try done; [destruct (Z.even m) |]; lia.
Qed.

Lemma binary_round_aux_not_nan sx mx ex lx :
  0 <= mx -> is_nan (binary_round_aux prec emax sx mx ex lx) = false.
Proof.
  intros Hm. unfold binary_round_aux.
  pose proof (shr_fexp_nonneg mx ex lx Hm) as H1.
  destruct (shr_fexp prec emax mx ex lx) as [mrs' e']. simpl in H1.
  pose proof (shr_fexp_nonneg
                (round_nearest_even (shr_m mrs') (loc_of_shr_record mrs'))
                e' loc_Exact (round_nearest_even_nonneg _ _ H1)) as H2.
  destruct (shr_fexp prec emax _ e' loc_Exact) as [mrs'' e'']. simpl in H2.
  destruct (shr_m mrs'') as [| m | m]; [done | | lia].
  by destruct (e'' <=? emax - prec).
Qed.

Lemma binary_normalize_not_nan m e szero :
  is_nan (binary_normalize prec emax m e szero) = false.
Proof.
  unfold binary_normalize, binary_round.
  destruct m as [| m | m]; [done | |];
    destruct (shl_align m e _) as [mz ez];
    by apply binary_round_aux_not_nan.
Qed.

(** The sum and the difference of two numbers are numbers when one of them
    is finite. *)
Lemma add_not_nan x y :
  is_nan x = false -> is_finite y = true -> is_nan (add x y) = false.
Proof.
  destruct x as [sx | sx | | sx mx ex], y as [sy | sy | | sy my ey];
    try done; intros _ _.
  - by destruct sx, sy.
  - apply binary_normalize_not_nan.
Qed.

Lemma sub_not_nan x y :
  is_nan x = false -> is_finite y = true -> is_nan (sub x y) = false.
Proof.
  destruct x as [sx | sx | | sx mx ex], y as [sy | sy | | sy my ey];
    try done; intros _ _.
  - by destruct sx, sy.
  - apply binary_normalize_not_nan.
Qed.

Lemma abs_not_nan x : is_nan (abs x) = is_nan x.
Proof. by destruct x. Qed.

End Js.

(** ** Facts on the string operations *)

Module JsText.
Import Js.

Lemma trimStart_no_space c rest :
  is_space c = false -> trimStart (c :: rest) = c :: rest.
Proof. intros H. simpl. by rewrite H. Qed.

Lemma trimStart_sublist s : sublist (trimStart s) s.
Proof.
  induction s as [| c rest IH]; simpl; [done |].
  destruct (is_space c); [by apply sublist_cons | done].
Qed.

Lemma trimStart_head s c rest :
  trimStart s = c :: rest -> is_space c = false.
Proof.
  induction s as [| c0 rest0 IH]; simpl; [done |].
  destruct (is_space c0) eqn:Hc; [done |].
  intros H. by inversion H; subst.
Qed.

Lemma trimStart_idemp s : trimStart (trimStart s) = trimStart s.
Proof.
  destruct (trimStart s) as [| c rest] eqn:H; [done |].
  apply trimStart_no_space. by apply trimStart_head in H.
Qed.

Lemma sublist_rev (l1 l2 : list N) :
  sublist l1 l2 -> sublist (rev l1) (rev l2).
Proof.
  induction 1 as [| x l1 l2 _ IH | x l1 l2 _ IH]; simpl.
  - done.
  - by apply sublist_app.
  - by apply sublist_inserts_r.
Qed.

Lemma trimEnd_sublist s : sublist (trimEnd s) s.
Proof.
  unfold trimEnd. rewrite <- (rev_involutive s) at 2.
  apply sublist_rev, trimStart_sublist.
Qed.

Lemma trim_sublist s : sublist (trim s) s.
Proof.
  unfold trim. etrans; [apply trimEnd_sublist | apply trimStart_sublist].
Qed.

(** A text without white space is left as it is. *)
Lemma trim_no_space s :
  Forall (fun c => is_space c = false) s -> trim s = s.
Proof.
  intros Hs. unfold trim.
  assert (H1 : trimStart s = s).
  { destruct Hs as [| c rest Hc _]; [done | by apply trimStart_no_space]. }
  rewrite H1. unfold trimEnd.
  assert (H2 : trimStart (rev s) = rev s).
  { assert (Hr : Forall (fun c => is_space c = false) (rev s)).
    { by apply Forall_rev. }
    destruct Hr as [| c rest Hc _]; [done | by apply trimStart_no_space]. }
  rewrite H2. apply rev_involutive.
Qed.

Lemma trimStart_suffix s : exists pre, s = (pre ++ trimStart s)%list.
Proof.
  induction s as [| c rest [pre IH]]; simpl; [by exists [] |].
  destruct (is_space c).
  - exists (c :: pre). simpl. by rewrite <- IH.
  - by exists [].
Qed.

(** Trimming a trimmed text changes nothing. *)
Lemma trim_idemp s : trim (trim s) = trim s.
Proof.
  unfold trim, trimEnd.
  set (t := trimStart s).
  assert (Ht : trimStart t = t) by apply trimStart_idemp.
  set (u := trimStart (rev t)).
  assert (Hu : trimStart u = u) by apply trimStart_idemp.
  assert (Hr : trimStart (rev u) = rev u).
  { destruct (trimStart_suffix (rev t)) as [pre Hpre]. fold u in Hpre.
    assert (Ht' : t = (rev u ++ rev pre)%list).
    { rewrite <- (rev_involutive t), Hpre. apply rev_app_distr. }
    destruct (rev u) as [| c w] eqn:Hw; [done |].
    apply trimStart_no_space.
    apply (trimStart_head t c (w ++ rev pre)%list).
    by rewrite Ht, Ht'. }
  rewrite Hr, rev_involutive. by rewrite Hu.
Qed.

End JsText.

(** ** The receipt analysis function *)

Module AnalyzeReceipt.
Import Js.

(** The object the generative model is asked for, as [JSON.parse] hands it
    over: any field may hold any value or be missing.  Properties other than
    these ten are not looked at and travel with the object. *)
Record AnalysisResult := {
  vendor : JsVal;
  expense_date : JsVal;
  amount_gross : JsVal;
  tax_vat : JsVal;
  amount_net : JsVal;
  currency : JsVal;
  category_suggestion : JsVal;
  payment_method_guess : JsVal;
  project_code_guess : JsVal;
  notes : JsVal
}.

(** What [JSON.parse] can return: [null], a number, string or boolean, an
    array, or an object.  An array has none of the ten properties, takes the
    ones the handler sets on it, and is written out by [JSON.stringify]
    without them: it comes with the text it is written out as. *)
Inductive Parsed :=
| PNull
| PPrimitive
| PArray (json : list N)
| PObject (r : AnalysisResult).

(** An uploaded file; its [size] is the number of its bytes. *)
Record File := {
  name : string;
  type : string;
  content : list N
}.

Definition size (file : File) : Z := Z.of_nat (length (content file)).

(** [formData.get('file')]: an uploaded file or a text field. *)
Inductive FormEntry :=
| FormFile (f : File)
| FormText (s : string).

Record Request := {
  method : string;
  (** [None] when [req.formData()] rejects, [Some None] when the form has no
      [file] entry *)
  formData : option (option FormEntry)
}.

(** The [message] of what the [catch] block receives. *)
Inductive ErrorText :=
| GeminiStatus (http_status : Z)
  (** [Error de Gemini API: <status>] *)
| NoContent
  (** [No se pudo generar contenido desde Gemini] *)
| Unparseable
  (** [Error al interpretar la respuesta de IA] *)
| Runtime
  (** the message of an error the runtime raised itself *).

(** The [data] of a response with [success: true]: the object after the
    post-processing, or the array the model answered. *)
Inductive Data :=
| DObject (r : AnalysisResult)
| DArray (json : list N).

Inductive Body :=
| NoBody
| ErrorBody (error : string)
  (** [{error}] *)
| FailureBody (error : ErrorText)
  (** [{success: false, error}] *)
| SuccessBody (data : Data)
  (** [{success: true, data}] *).

Record Response := { status : Z; body : Body }.

(** The call to the generative model: the key in the URL, and the inline
    data of the one content part (the base64 text is determined by the
    content of the file). *)
Record GeminiRequest := {
  api_key : string;
  mimeType : string;
  data : list N
}.

(** The body of the answer as far as the handler looks into it:
    [geminiResult?.candidates?.[0]?.content?.parts?.[0]?.text], a string or
    [undefined]. *)
Inductive GeminiBody :=
| NotJson
| Candidates (generatedText : option (list N)).

Inductive FetchResult :=
| NetworkError
| HttpResponse (ok : bool) (http_status : Z) (answer : GeminiBody).

(** One step of the handler: go on, return a response, or throw. *)
Inductive step (A : Type) :=
| Next (a : A)
| Return (r : Response)
| Throw (e : ErrorText).
Arguments Next {A} a.
Arguments Return {A} r.
Arguments Throw {A} e.

(** A computation of the handler, threading the calls made to the model. *)
Definition M (A : Type) : Type :=
  list GeminiRequest -> step A * list GeminiRequest.

Definition ret {A} (a : A) : M A := fun log => (Next a, log).

Definition respond {A} (r : Response) : M A := fun log => (Return r, log).

Definition throw {A} (e : ErrorText) : M A := fun log => (Throw e, log).

Definition bind {A B} (m : M A) (k : A -> M B) : M B :=
  fun log =>
    match m log with
    | (Next a, log') => k a log'
    | (Return r, log') => (Return r, log')
    | (Throw e, log') => (Throw e, log')
    end.

Notation "'let*' x ':=' m 'in' k" := (bind m (fun x => k))
  (at level 10, x name, m at level 100, k at level 200).
Notation "'pass' m 'in' k" := (bind m (fun _ => k))
  (at level 10, m at level 100, k at level 200).

(** [if (cond) return r] and [if (cond) throw e] *)
Definition return_if (cond : bool) (r : Response) : M unit :=
  if cond then respond r else ret tt.

Definition throw_if (cond : bool) (e : ErrorText) : M unit :=
  if cond then throw e else ret tt.

Definition allowedTypes : list string :=
  ["image/jpeg"; "image/jpg"; "image/png"; "application/pdf"].

Definition maxSize : Z := 10 * 1024 * 1024.

(** [allowedTypes.includes(file.type)] *)
Definition includes (l : list string) (s : string) : bool :=
  bool_decide (s ∈ l).

Definition is_empty (s : string) : bool := bool_decide (s = "").

Definition bad_request (error : string) : Response :=
  {| status := 400; body := ErrorBody error |}.

(** [/[^\w\s\-\.]/g] removes every code unit this does not keep. *)
Definition kept (c : N) : bool :=
  (is_word c || is_space c || (c =? 45) || (c =? 46))%N.


Definition unidentified : list N := of_string "Comercio no identificado".

(** [/^\d{4}-\d{2}-\d{2}$/.test(s)] *)
Definition dateRegex_test (s : list N) : bool :=
  match s with
  | [y1; y2; y3; y4; h1; m1; m2; h2; d1; d2] =>
      is_digit y1 && is_digit y2 && is_digit y3 && is_digit y4
      && (h1 =? 45)%N && is_digit m1 && is_digit m2
      && (h2 =? 45)%N && is_digit d1 && is_digit d2
  | _ => false
  end.

(** [!v || v.trim().length === 0]; [None] is the [TypeError] of calling
    [trim] on a value that has none. *)
Definition blank (v : JsVal) : option bool :=
  if negb (truthy v) then Some true
  else match v with
       | VStr s => Some (bool_decide (length (trim s) = 0%nat))
       | _ => None
       end.

Section Handler.

Variable StringToNumber : list N -> number.
Variable JSON_parse : list N -> option Parsed.
Variable fetch : GeminiRequest -> FetchResult.
(** [new Date().toISOString().split('T')[0]] *)
Variable today : list N.
(** Whether a call with that many arguments fits the stack of the runtime:
    [String.fromCharCode(...bytes)] passes every byte of the file as an
    argument of its own, and throws a [RangeError] when they do not fit. *)
Variable arguments_fit : Z -> bool.

Abbreviation Number := (Js.Number StringToNumber).

Definition netPlusVat (r : AnalysisResult) : number :=
  add (Number (amount_net r)) (Number (tax_vat r)).

Definition difference (r : AnalysisResult) : number :=
  abs (sub (netPlusVat r) (Number (amount_gross r))).

Definition with_amount_net (r : AnalysisResult) (v : JsVal) : AnalysisResult :=
  {| vendor := vendor r; expense_date := expense_date r;
     amount_gross := amount_gross r; tax_vat := tax_vat r;
     amount_net := v; currency := currency r;
     category_suggestion := category_suggestion r;
     payment_method_guess := payment_method_guess r;
     project_code_guess := project_code_guess r; notes := notes r |}.

Definition with_vendor (r : AnalysisResult) (v : JsVal) : AnalysisResult :=
  {| vendor := v; expense_date := expense_date r;
     amount_gross := amount_gross r; tax_vat := tax_vat r;
     amount_net := amount_net r; currency := currency r;
     category_suggestion := category_suggestion r;
     payment_method_guess := payment_method_guess r;
     project_code_guess := project_code_guess r; notes := notes r |}.

Definition with_expense_date (r : AnalysisResult) (v : JsVal)
  : AnalysisResult :=
  {| vendor := vendor r; expense_date := v;
     amount_gross := amount_gross r; tax_vat := tax_vat r;
     amount_net := amount_net r; currency := currency r;
     category_suggestion := category_suggestion r;
     payment_method_guess := payment_method_guess r;
     project_code_guess := project_code_guess r; notes := notes r |}.

Definition with_currency (r : AnalysisResult) (v : JsVal) : AnalysisResult :=
  {| vendor := vendor r; expense_date := expense_date r;
     amount_gross := amount_gross r; tax_vat := tax_vat r;
     amount_net := amount_net r; currency := v;
     category_suggestion := category_suggestion r;
     payment_method_guess := payment_method_guess r;
     project_code_guess := project_code_guess r; notes := notes r |}.

(** "Validate financial coherence" *)
Definition coherence (r : AnalysisResult) : AnalysisResult :=
  if gt (difference r) cent then
    with_amount_net r
      (VNum (sub (Number (amount_gross r)) (Number (tax_vat r))))
  else r.

(** "Additional validations" and "Clean vendor name" *)
Definition clean (s : list N) : list N :=
  substring0 100 (filter (fun c => kept c = true) (trim s)).

Definition vendor_step (r : AnalysisResult) : M AnalysisResult :=
  match blank (vendor r) with
  | None => throw Runtime
  | Some true => ret (with_vendor r (VStr (clean unidentified)))
  | Some false =>
      match vendor r with
      | VStr s => ret (with_vendor r (VStr (clean s)))
      | _ => throw Runtime
      end
  end.

(** "Validate date format"; a value that is not a string is turned into
    text first, and the text of [undefined], [null], a boolean or a number
    never has the shape of a date. *)
Definition date_step (r : AnalysisResult) : AnalysisResult :=
  match expense_date r with
  | VStr s | VObject s =>
      if dateRegex_test s then r else with_expense_date r (VStr today)
  | _ => with_expense_date r (VStr today)
  end.

(** "Ensure currency is EUR if not specified" *)
Definition currency_step (r : AnalysisResult) : M AnalysisResult :=
  match blank (currency r) with
  | None => throw Runtime
  | Some true => ret (with_currency r (VStr (of_string "EUR")))
  | Some false => ret r
  end.

(** The part of the handler between [JSON.parse] and the response, for an
    object. *)
Definition postProcess (r : AnalysisResult) : M AnalysisResult :=
  let* analysisResult := vendor_step (coherence r) in
  currency_step (date_step analysisResult).

(** The same part for whatever [JSON.parse] returned.  Reading a property of
    [null] throws, and so does writing one to a number, a string or a
    boolean, which the vendor default does.  An array goes through: its
    amounts are [undefined], the vendor, the date and the currency are set
    on it, and none of them is written out. *)
Definition finish (parsed : Parsed) : M Response :=
  match parsed with
  | PNull | PPrimitive => throw Runtime
  | PArray json => ret {| status := 200; body := SuccessBody (DArray json) |}
  | PObject r =>
      let* analysisResult := postProcess r in
      ret {| status := 200; body := SuccessBody (DObject analysisResult) |}
  end.

(** The request the handler sends for a file. *)
Definition request_for (key : string) (file : File) : GeminiRequest :=
  {| api_key := key; mimeType := type file; data := content file |}.

Definition call_gemini (request : GeminiRequest) : M FetchResult :=
  fun log =>
    match fetch request with
    | NetworkError => (Throw Runtime, (log ++ [request])%list)
    | response => (Next response, (log ++ [request])%list)
    end.

(** [formData.get('file')] followed by the checks on it *)
Definition read_file (req : Request) : M File :=
  match formData req with
  | None => throw Runtime
  | Some None => respond (bad_request "No se recibió ningún archivo")
  | Some (Some (FormText s)) =>
      if is_empty s then
        respond (bad_request "No se recibió ningún archivo")
      else
        respond (bad_request
          "Tipo de archivo no válido. Solo se permiten JPG, PNG y PDF")
  | Some (Some (FormFile file)) =>
      pass return_if (negb (includes allowedTypes (type file)))
        (bad_request
           "Tipo de archivo no válido. Solo se permiten JPG, PNG y PDF") in
      pass return_if (maxSize <? size file)
        (bad_request "El archivo es demasiado grande. Máximo 10MB") in
      ret file
  end.

(** "Convert file to base64": the bytes are spread into one call. *)
Definition to_base64 (file : File) : M unit :=
  throw_if (negb (arguments_fit (size file))) Runtime.

(** From the response of the model to the response of the function. *)
Definition interpret (geminiResponse : FetchResult) : M Response :=
  match geminiResponse with
  | NetworkError => throw Runtime
  | HttpResponse ok http_status answer =>
      pass throw_if (negb ok) (GeminiStatus http_status) in
      match answer with
      | NotJson => throw Runtime
      | Candidates None => throw NoContent
      | Candidates (Some generatedText) =>
          pass throw_if (bool_decide (generatedText = [])) NoContent in
          match JSON_parse generatedText with
          | None => throw Unparseable
          | Some parsed => finish parsed
          end
      end
  end.

(** The body of the [try] block. *)
Definition analyze (geminiApiKey : option string) (req : Request)
  : M Response :=
  match geminiApiKey with
  | None =>
      respond {| status := 500;
                 body := ErrorBody "API key de Gemini no configurada" |}
  | Some key =>
      pass return_if (is_empty key)
        {| status := 500;
           body := ErrorBody "API key de Gemini no configurada" |} in
      let* file := read_file req in
      pass to_base64 file in
      let* geminiResponse := call_gemini (request_for key file) in
      interpret geminiResponse
  end.

(** The function served: the preflight answer, the [try] block, and the
    [catch] block that turns whatever was thrown into a 500.  The calls made
    to the model come with the response. *)
Definition serve (geminiApiKey : option string) (req : Request)
  : Response * list GeminiRequest :=
  if bool_decide (method req = "OPTIONS") then
    ({| status := 200; body := NoBody |}, [])
  else
    match analyze geminiApiKey req [] with
    | (Next r, log) | (Return r, log) => (r, log)
    | (Throw e, log) => ({| status := 500; body := FailureBody e |}, log)
    end.

Definition valid_file (file : File) : bool :=
  includes allowedTypes (type file) && negb (maxSize <? size file).

(** An answer of the model the handler gives up on: the call failed, the
    response is not OK, its body is not JSON, there is no generated text, or
    the text does not parse. *)
Definition upstream_failed (r : FetchResult) : Prop :=
  match r with
  | NetworkError => True
  | HttpResponse false _ _ => True
  | HttpResponse true _ NotJson => True
  | HttpResponse true _ (Candidates None) => True
  | HttpResponse true _ (Candidates (Some text)) =>
      text = [] \/ JSON_parse text = None
  end.

(** The message the handler attaches to each of them. *)
Definition failure_text (r : FetchResult) : ErrorText :=
  match r with
  | NetworkError => Runtime
  | HttpResponse false http_status _ => GeminiStatus http_status
  | HttpResponse true _ NotJson => Runtime
  | HttpResponse true _ (Candidates None) => NoContent
  | HttpResponse true _ (Candidates (Some text)) =>
      if bool_decide (text = []) then NoContent else Unparseable
  end.

(** **** How the handler runs *)

Lemma read_file_log req log :
  (read_file req log).2 = log.
Proof.
  unfold read_file.
  destruct (formData req) as [[[f | s] |] |]; simpl; try done.
  - unfold bind, return_if.
    destruct (negb (includes allowedTypes (type f))); simpl; [done |].
    destruct (maxSize <? size f); done.
  - by destruct (is_empty s).
Qed.

Lemma read_file_next req log f log' :
  read_file req log = (Next f, log') ->
  formData req = Some (Some (FormFile f)) /\ valid_file f = true.
Proof.
  unfold read_file, valid_file.
  destruct (formData req) as [[[f0 | s] |] |]; simpl; try done.
  - unfold bind, return_if.
    destruct (includes allowedTypes (type f0)) eqn:Ht; simpl; [| done].
    destruct (maxSize <? size f0) eqn:Hs; simpl; [done |].
    intros H. inversion H; subst. by rewrite Ht, Hs.
  - by destruct (is_empty s).
Qed.

Lemma read_file_valid req f log :
  formData req = Some (Some (FormFile f)) -> valid_file f = true ->
  read_file req log = (Next f, log).
Proof.
  unfold read_file, valid_file. intros -> Hv.
  apply andb_true_iff in Hv as [Ht Hs]. apply negb_true_iff in Hs.
  unfold bind, return_if. by rewrite Ht, Hs.
Qed.

Lemma read_file_invalid req f log :
  formData req = Some (Some (FormFile f)) -> valid_file f = false ->
  exists error, read_file req log = (Return (bad_request error), log).
Proof.
  unfold read_file, valid_file. intros -> Hv.
  unfold bind, return_if.
  destruct (includes allowedTypes (type f)) eqn:Ht; simpl in *.
  - apply negb_false_iff in Hv. rewrite Hv. by eexists.
  - by eexists.
Qed.

Lemma postProcess_log r log :
  (postProcess r log).2 = log.
Proof.
  unfold postProcess, bind, vendor_step, currency_step.
  destruct (blank (vendor (coherence r))) as [[|] |]; simpl; try done.
  - by destruct (blank (currency _)) as [[|] |].
  - destruct (vendor (coherence r)); simpl; try done.
    by destruct (blank (currency _)) as [[|] |].
Qed.

Lemma postProcess_not_return r log resp log' :
  postProcess r log <> (Return resp, log').
Proof.
  unfold postProcess, bind, vendor_step, currency_step.
  destruct (blank (vendor (coherence r))) as [[|] |]; simpl; try done.
  - by destruct (blank (currency _)) as [[|] |].
  - destruct (vendor (coherence r)); simpl; try done.
    by destruct (blank (currency _)) as [[|] |].
Qed.

Lemma finish_log parsed log :
  (finish parsed log).2 = log.
Proof.
  destruct parsed as [| | json | obj]; simpl; try done.
  unfold bind.
  pose proof (postProcess_log obj log) as Hlog.
  destruct (postProcess obj log) as [[d | resp | e] log']; simpl in *;
    by subst.
Qed.

(** What a completed post-processing answers: the array as it came, or the
    object the post-processing made. *)
Lemma finish_next parsed log resp log' :
  finish parsed log = (Next resp, log') ->
  (exists obj d,
     parsed = PObject obj
     /\ postProcess obj log = (Next d, log)
     /\ resp = {| status := 200; body := SuccessBody (DObject d) |})
  \/ (exists json,
        parsed = PArray json
        /\ resp = {| status := 200; body := SuccessBody (DArray json) |}).
Proof.
  destruct parsed as [| | json | obj]; simpl; try done.
  - intros H. inversion H; subst. right. by exists json.
  - unfold bind.
    pose proof (postProcess_log obj log) as Hlog.
    destruct (postProcess obj log) as [[d | resp0 | e] log0] eqn:Hpost;
      simpl in *; try done.
    intros H. inversion H; subst. left. by exists obj, d.
Qed.

Lemma finish_not_return parsed log resp log' :
  finish parsed log <> (Return resp, log').
Proof.
  destruct parsed as [| | json | obj]; simpl; try done.
  unfold bind.
  pose proof (postProcess_not_return obj log) as Hno.
  destruct (postProcess obj log) as [[d | resp0 | e] log0]; try done.
  by specialize (Hno resp0 log0).
Qed.

Lemma interpret_log r log :
  (interpret r log).2 = log.
Proof.
  unfold interpret.
  destruct r as [| [|] http_status [| [text |]]]; simpl; try done.
  unfold bind, throw_if.
  destruct (bool_decide (text = [])); simpl; [done |].
  destruct (JSON_parse text) as [parsed |]; simpl; [| done].
  apply finish_log.
Qed.

Lemma interpret_failed r log :
  upstream_failed r -> interpret r log = (Throw (failure_text r), log).
Proof.
  unfold interpret, upstream_failed, failure_text.
  destruct r as [| [|] http_status [| [text |]]]; simpl; try done.
  intros [-> | Hparse]; [done |].
  unfold bind, throw_if.
  destruct (bool_decide (text = [])); simpl; [done |].
  by rewrite Hparse.
Qed.

Lemma interpret_next r log resp log' :
  interpret r log = (Next resp, log') ->
  exists http_status text parsed,
    r = HttpResponse true http_status (Candidates (Some text))
    /\ text <> []
    /\ JSON_parse text = Some parsed
    /\ finish parsed log = (Next resp, log').
Proof.
  unfold interpret.
  destruct r as [| [|] http_status [| [text |]]]; simpl; try done.
  unfold bind, throw_if.
  destruct (bool_decide (text = [])) eqn:Hnil; simpl; [done |].
  apply bool_decide_eq_false in Hnil.
  destruct (JSON_parse text) as [parsed |] eqn:Hparse; simpl; [| done].
  intros H. by exists http_status, text, parsed.
Qed.

Lemma interpret_not_return r log resp log' :
  interpret r log <> (Return resp, log').
Proof.
  unfold interpret.
  destruct r as [| [|] http_status [| [text |]]]; simpl; try done.
  unfold bind, throw_if.
  destruct (bool_decide (text = [])); simpl; [done |].
  destruct (JSON_parse text) as [parsed |]; simpl; [| done].
  apply finish_not_return.
Qed.

Lemma call_gemini_interpret request log :
  (let* geminiResponse := call_gemini request in interpret geminiResponse) log
  = ((interpret (fetch request) (log ++ [request])%list).1,
     (log ++ [request])%list).
Proof.
  unfold bind, call_gemini.
  destruct (fetch request) as [| ok http_status answer] eqn:Hf; [done |].
  pose proof (interpret_log (HttpResponse ok http_status answer)
                (log ++ [request])%list) as Hlog.
  destruct (interpret _ _) as [st log']; simpl in *. by subst.
Qed.

Lemma analyze_no_key req :
  analyze None req []
  = (Return {| status := 500;
               body := ErrorBody "API key de Gemini no configurada" |}, []).
Proof. reflexivity. Qed.

Lemma analyze_empty_key req :
  analyze (Some "") req []
  = (Return {| status := 500;
               body := ErrorBody "API key de Gemini no configurada" |}, []).
Proof. reflexivity. Qed.

Lemma analyze_key key req :
  key <> "" ->
  analyze (Some key) req []
  = match read_file req [] with
    | (Next file, _) =>
        if arguments_fit (size file) then
          ((interpret (fetch (request_for key file))
              [request_for key file]).1,
           [request_for key file])
        else (Throw Runtime, [])
    | (Return r, _) => (Return r, [])
    | (Throw e, _) => (Throw e, [])
    end.
Proof.
  intros Hkey. unfold analyze.
  unfold bind at 1, return_if, is_empty.
  rewrite bool_decide_eq_false_2 by done.
  change (ret () []) with (Next (), @nil GeminiRequest). cbv beta iota.
  unfold bind at 1.
  pose proof (read_file_log req []) as Hlog.
  destruct (read_file req []) as [[file | resp | e] log];
    simpl in Hlog; subst log; [| done | done].
  unfold bind at 1, to_base64, throw_if.
  destruct (arguments_fit (size file)); simpl; [| done].
  apply (call_gemini_interpret (request_for key file) []).
Qed.

Lemma read_file_cases req log :
  (exists file, read_file req log = (Next file, log))
  \/ (exists error, read_file req log = (Return (bad_request error), log))
  \/ read_file req log = (Throw Runtime, log).
Proof.
  unfold read_file.
  destruct (formData req) as [[[f | s] |] |]; simpl; eauto.
  - unfold bind, return_if.
    destruct (negb (includes allowedTypes (type f))); simpl; [eauto |].
    destruct (maxSize <? size f); simpl; eauto.
  - destruct (is_empty s); eauto.
Qed.

(** Either no call was made and the [try] block was left by returning an
    error response or by a throw, or the key is configured, the file passed
    the checks and fitted the encoding call, exactly one call was made for
    it, and what comes back is what [interpret] makes of the answer. *)
Lemma analyze_calls geminiApiKey req :
  (analyze geminiApiKey req []).2 = []
  /\ ((exists code error,
         (analyze geminiApiKey req []).1
         = Return {| status := code; body := ErrorBody error |})
      \/ (analyze geminiApiKey req []).1 = Throw Runtime)
  \/ exists key file,
       geminiApiKey = Some key /\ key <> ""
       /\ formData req = Some (Some (FormFile file))
       /\ valid_file file = true
       /\ arguments_fit (size file) = true
       /\ analyze geminiApiKey req []
          = ((interpret (fetch (request_for key file))
                [request_for key file]).1,
             [request_for key file]).
Proof.
  destruct geminiApiKey as [key |];
    [| left; rewrite analyze_no_key; simpl; eauto].
  destruct (decide (key = "")) as [-> | Hkey];
    [left; rewrite analyze_empty_key; simpl; eauto |].
  rewrite (analyze_key key req Hkey).
  destruct (read_file_cases req []) as [[file Hr] | [[error Hr] | Hr]];
    rewrite Hr.
  - apply read_file_next in Hr as [Hform Hvalid].
    destruct (arguments_fit (size file)) eqn:Hfit.
    + right. by exists key, file.
    + left. simpl. eauto.
  - left. simpl. unfold bad_request. eauto.
  - left. simpl. eauto.
Qed.

Lemma analyze_valid key req file :
  key <> "" -> formData req = Some (Some (FormFile file)) ->
  valid_file file = true ->
  analyze (Some key) req []
  = if arguments_fit (size file) then
      ((interpret (fetch (request_for key file)) [request_for key file]).1,
       [request_for key file])
    else (Throw Runtime, []).
Proof.
  intros Hkey Hform Hvalid. rewrite (analyze_key key req Hkey).
  by rewrite (read_file_valid req file).
Qed.

(** **** The fields after post-processing *)

Lemma coherence_net r :
  amount_net (coherence r)
  = if gt (difference r) cent then
      VNum (sub (Number (amount_gross r)) (Number (tax_vat r)))
    else amount_net r.
Proof. unfold coherence. by destruct (gt _ _). Qed.

Lemma coherence_others r :
  vendor (coherence r) = vendor r
  /\ amount_gross (coherence r) = amount_gross r
  /\ tax_vat (coherence r) = tax_vat r.
Proof. unfold coherence. by destruct (gt _ _). Qed.

(** The vendor text the clean-up starts from: the default when the vendor of
    the model is missing or blank, the string of the model otherwise. *)
Definition vendor_text (r : AnalysisResult) (s : list N) : Prop :=
  blank (vendor r) = Some true /\ s = unidentified
  \/ vendor r = VStr s /\ trim s <> [].

Lemma date_step_others r :
  vendor (date_step r) = vendor r
  /\ amount_gross (date_step r) = amount_gross r
  /\ tax_vat (date_step r) = tax_vat r
  /\ amount_net (date_step r) = amount_net r
  /\ currency (date_step r) = currency r.
Proof.
  unfold date_step.
  destruct (expense_date r) as [| | | | s | s]; try done;
    by destruct (dateRegex_test s).
Qed.

Lemma currency_step_next r log d log' :
  currency_step r log = (Next d, log') ->
  vendor d = vendor r
  /\ amount_gross d = amount_gross r
  /\ tax_vat d = tax_vat r
  /\ amount_net d = amount_net r.
Proof.
  unfold currency_step.
  destruct (blank (currency r)) as [[|] |]; simpl; [| | done];
    intros H; inversion H; subst; done.
Qed.

Lemma vendor_step_next r log d log' :
  vendor_step r log = (Next d, log') ->
  amount_gross d = amount_gross r
  /\ tax_vat d = tax_vat r
  /\ amount_net d = amount_net r
  /\ exists s, vendor_text r s /\ vendor d = VStr (clean s).
Proof.
  unfold vendor_step, vendor_text.
  destruct (blank (vendor r)) as [[|] |] eqn:Hblank; simpl; [| | done].
  - intros H; inversion H; subst; simpl. repeat split; eauto.
  - destruct (vendor r) as [| | | | s |] eqn:Hvendor; simpl; try done.
    assert (Hs : trim s <> []).
    { unfold blank in Hblank.
      destruct (negb (truthy (VStr s))); [done |].
      inversion Hblank as [Hb]. apply bool_decide_eq_false in Hb.
      intros Hnil. apply Hb. by rewrite Hnil. }
    intros H; inversion H; subst; simpl. repeat split; eauto.
Qed.

Lemma postProcess_next r log d log' :
  postProcess r log = (Next d, log') ->
  amount_gross d = amount_gross r
  /\ tax_vat d = tax_vat r
  /\ amount_net d = amount_net (coherence r)
  /\ exists s, vendor_text r s /\ vendor d = VStr (clean s).
Proof.
  destruct (coherence_others r) as (Hv & Hg & Ht).
  unfold postProcess, bind.
  destruct (vendor_step (coherence r) log) as [[r1 | resp | e] log1] eqn:H1;
    try done.
  intros H2.
  apply vendor_step_next in H1 as (Hg1 & Ht1 & Hn1 & s & Hs & Hv1).
  apply currency_step_next in H2 as (Hv2 & Hg2 & Ht2 & Hn2).
  destruct (date_step_others r1) as (Hv3 & Hg3 & Ht3 & Hn3 & _).
  split; [congruence |]. split; [congruence |]. split; [congruence |].
  exists s. split; [| congruence].
  unfold vendor_text in *. by rewrite Hv in Hs.
Qed.





(** **** The shape of a run *)

Lemma serve_success geminiApiKey req resp log data :
  serve geminiApiKey req = (resp, log) ->
  body resp = SuccessBody data ->
  exists key file http_status text parsed,
    geminiApiKey = Some key
    /\ formData req = Some (Some (FormFile file))
    /\ arguments_fit (size file) = true
    /\ fetch (request_for key file)
       = HttpResponse true http_status (Candidates (Some text))
    /\ JSON_parse text = Some parsed
    /\ match data with
       | DObject d =>
           exists r,
             parsed = PObject r
             /\ postProcess r [request_for key file]
                = (Next d, [request_for key file])
       | DArray json => parsed = PArray json
       end
    /\ resp = {| status := 200; body := SuccessBody data |}
    /\ log = [request_for key file].
Proof.
  unfold serve. intros Hserve Hbody.
  destruct (bool_decide (method req = "OPTIONS"));
    [inversion Hserve; subst; done |].
  destruct (analyze_calls geminiApiKey req)
    as [[Hlog [(code & error & Hret) | Hthrow]]
       | (key & file & Hk & Hne & Hform & Hvalid & Hfit & Hrun)].
  - destruct (analyze geminiApiKey req []) as [st log0]; simpl in *.
    subst. inversion Hserve; subst. done.
  - destruct (analyze geminiApiKey req []) as [st log0]; simpl in *.
    subst. inversion Hserve; subst. done.
  - rewrite Hrun in Hserve.
    destruct (interpret (fetch (request_for key file)) [request_for key file])
      as [[resp0 | resp0 | e] log0] eqn:Hint; simpl in Hserve;
      inversion Hserve; subst; [| | done].
    + apply interpret_next in Hint
        as (http_status & text & parsed & Hf & Hnil & Hp & Hfinish).
      exists key, file, http_status, text, parsed.
      do 5 (split; [done |]).
      apply finish_next in Hfinish
        as [(r & d & -> & Hpost & ->) | (json & -> & ->)];
        simpl in Hbody; inversion Hbody; subst; eauto.
    + by apply interpret_not_return in Hint.
Qed.

(** **** Properties of the function *)



(** C4, as the code has it.  For a request that is not a preflight, with the
    API key configured, a file of a type outside the four allowed ones or of
    more than 10*1024*1024 bytes is answered with status 400 and a JSON error
    body.  Whatever the method and the key, no call is made to the model for
    such a file.  A file of an allowed type and of at most that size passes
    the validation.  With the key configured and no preflight, the one call
    to the model is then made for it when its bytes fit the one call that
    encodes them, and when they do not the answer is status 500 with
    [success: false] and no call is made. *)
Theorem file_validation geminiApiKey req file :
  formData req = Some (Some (FormFile file)) ->
  (valid_file file = true
   <-> type file ∈ allowedTypes /\ size file <= 10 * 1024 * 1024)
  /\ (valid_file file = false -> (serve geminiApiKey req).2 = [])
  /\ (forall key,
        method req <> "OPTIONS" -> geminiApiKey = Some key -> key <> "" ->
        (valid_file file = false ->
           exists error,
             serve geminiApiKey req
             = ({| status := 400; body := ErrorBody error |}, []))
        /\ (valid_file file = true -> arguments_fit (size file) = true ->
              (serve geminiApiKey req).2 = [request_for key file])
        /\ (valid_file file = true -> arguments_fit (size file) = false ->
              serve geminiApiKey req
              = ({| status := 500; body := FailureBody Runtime |}, []))).
Proof.
  intros Hform.
  split; [| split].
  - unfold valid_file, includes, maxSize.
    rewrite andb_true_iff, bool_decide_eq_true, negb_true_iff, Z.ltb_ge.
    done.
  - intros Hinvalid. unfold serve.
    destruct (bool_decide (method req = "OPTIONS")); [done |].
    destruct (analyze_calls geminiApiKey req)
      as [[Hlog _] | (key & file' & _ & _ & Hform' & Hvalid & _)].
    + by destruct (analyze geminiApiKey req []) as [[? | ? | ?] ?].
    + rewrite Hform in Hform'. inversion Hform'; subst. congruence.
  - intros key Hmethod -> Hkey. unfold serve.
    rewrite bool_decide_eq_false_2 by done.
    split; [| split].
    + intros Hv. rewrite (analyze_key key req Hkey).
      destruct (read_file_invalid req file [] Hform Hv) as [error ->].
      by exists error.
    + intros Hv Hfit.
      rewrite (analyze_valid key req file Hkey Hform Hv), Hfit.
      by destruct (interpret _ _).1.
    + intros Hv Hfit.
      by rewrite (analyze_valid key req file Hkey Hform Hv), Hfit.
Qed.

(** C7.  The handler calls the model at most once.  When the call it made
    failed, came back with a response that is not OK, with a body that is
    not JSON, without generated text, or with text that does not parse, the
    handler answers with status 500 and the body [{success: false, error}],
    the error being the message for that failure, and made that one call
    only. *)
Theorem upstream_failure_is_one_500 geminiApiKey req resp log request :
  serve geminiApiKey req = (resp, log) ->
  request ∈ log ->
  upstream_failed (fetch request) ->
  log = [request]
  /\ resp = {| status := 500;
               body := FailureBody (failure_text (fetch request)) |}.
Proof.
  unfold serve. intros Hserve Hin Hfailed.
  destruct (bool_decide (method req = "OPTIONS")).
  { inversion Hserve; subst. by apply elem_of_nil in Hin. }
  destruct (analyze_calls geminiApiKey req)
    as [[Hlog _] | (key & file & _ & _ & _ & _ & _ & Hrun)].
  - destruct (analyze geminiApiKey req []) as [[? | ? | ?] log0];
      simpl in Hlog; inversion Hserve; subst; by apply elem_of_nil in Hin.
  - rewrite Hrun in Hserve.
    assert (Hreq : request = request_for key file).
    { destruct (interpret _ _).1; inversion Hserve; subst;
        by apply list_elem_of_singleton in Hin. }
    subst request. rewrite (interpret_failed _ _ Hfailed) in Hserve.
    simpl in Hserve. by inversion Hserve.
Qed.

Lemma serve_calls_at_most_once geminiApiKey req :
  (length (serve geminiApiKey req).2 <= 1)%nat.
Proof.
  unfold serve.
  destruct (bool_decide (method req = "OPTIONS")); [simpl; lia |].
  destruct (analyze_calls geminiApiKey req)
    as [[Hlog _] | (key & file & _ & _ & _ & _ & _ & Hrun)].
  - destruct (analyze geminiApiKey req []) as [[? | ? | ?] log0];
      simpl in *; subst; simpl; lia.
  - rewrite Hrun. destruct (interpret _ _).1; simpl; lia.
Qed.

End Handler.

(** **** Concrete runs *)


Definition ticket : File :=
  {| name := "ticket.jpg"; type := "image/jpeg";
     content := [255; 216; 255; 224]%N |}.

Definition notes_txt : File :=
  {| name := "notes.txt"; type := "text/plain";
     content := [104; 111; 108; 97]%N |}.

(** A photograph of 200 KiB. *)
Definition photo : File :=
  {| name := "photo.jpg"; type := "image/jpeg";
     content := replicate (Z.to_nat 204800) 0%N |}.

Definition post (file : File) : Request :=
  {| method := "POST"; formData := Some (Some (FormFile file)) |}.

(** A model that answers every call with status 200 and a text that parses
    to the object [r]. *)
Definition answers (r : AnalysisResult) (_ : GeminiRequest) : FetchResult :=
  HttpResponse true 200 (Candidates (Some (of_string "{...}"))).

Definition parses_to (r : AnalysisResult) (_ : list N) : option Parsed :=
  Some (PObject r).

(** No amount of the examples is a string, so the conversion of strings is
    never asked. *)
Definition unused (_ : list N) : number := NaN.

Definition a_day : list N := of_string "2025-09-12".

(** A runtime with room for a call of any size, and one whose calls take
    125000 arguments. *)
Definition roomy (_ : Z) : bool := true.

Definition stack_of_125000 (n : Z) : bool := n <=? 125000.

Definition run_with (r : AnalysisResult) (file : File)
  : Response * list GeminiRequest :=
  serve unused (parses_to r) (answers r) a_day roomy (Some "secret")
    (post file).


(** The same lunch with the VAT, and a net amount that does not fit. *)
Definition lunch_wrong_net : AnalysisResult :=
  {| vendor := VStr (of_string "  Caf" ++ [233%N]
                      ++ of_string "-Bar S.L. #3 ")%list;
     expense_date := VStr (of_string "01/05/2024");
     amount_gross := VNum (of_Z 121);
     tax_vat := VNum (of_Z 21);
     amount_net := VNum (of_Z 90);
     currency := VStr [];
     category_suggestion := VStr (of_string "Dietas");
     payment_method_guess := VStr (of_string "CARD");
     project_code_guess := VUndefined;
     notes := VUndefined |}.

Definition lunch_cleaned : AnalysisResult :=
  {| vendor := VStr (of_string "Caf-Bar S.L. 3");
     expense_date := VStr a_day;
     amount_gross := VNum (of_Z 121);
     tax_vat := VNum (of_Z 21);
     amount_net := VNum (of_Z 100);
     currency := VStr (of_string "EUR");
     category_suggestion := VStr (of_string "Dietas");
     payment_method_guess := VStr (of_string "CARD");
     project_code_guess := VUndefined;
     notes := VUndefined |}.

Example run_lunch_wrong_net :
  run_with lunch_wrong_net ticket
  = ({| status := 200; body := SuccessBody (DObject lunch_cleaned) |},
     [request_for "secret" ticket]).
Proof. reflexivity. Qed.

(** The receipt of the example scenario: gross 100, no VAT on it, and the net
    amount the prompt asks for in that case. *)
Definition receipt_of_100 (net : JsVal) : AnalysisResult :=
  {| vendor := VStr (of_string "Bar Pepe");
     expense_date := VStr (of_string "2024-05-01");
     amount_gross := VNum (of_Z 100);
     tax_vat := VNum (of_Z 0);
     amount_net := net;
     currency := VStr (of_string "EUR");
     category_suggestion := VStr (of_string "Dietas");
     payment_method_guess := VStr (of_string "CARD");
     project_code_guess := VUndefined;
     notes := VUndefined |}.

(** A net amount of 100 is kept, one of 82 is recomputed, and one of 99.995
    is within a cent and kept. *)
Example run_receipt_of_100 :
  (run_with (receipt_of_100 (VNum (of_Z 100))) ticket).1
  = {| status := 200;
       body := SuccessBody (DObject (receipt_of_100 (VNum (of_Z 100)))) |}
  /\ (run_with (receipt_of_100 (VNum (of_Z 82))) ticket).1
     = {| status := 200;
          body := SuccessBody (DObject (receipt_of_100 (VNum (of_Z 100)))) |}
  /\ (run_with (receipt_of_100 (VNum (decimal 99995 3))) ticket).1
     = {| status := 200;
          body := SuccessBody
                    (DObject (receipt_of_100 (VNum (decimal 99995 3)))) |}.
Proof. repeat split; reflexivity. Qed.

(** Amounts in cents.  0.99 + 0.02 is 1.01 and 1.01 - 1 is a little more
    than 0.01, so a net amount of 0.99 for a gross amount of 1 and a VAT of
    0.02 is recomputed, to 0.98. *)
Definition cents (net : number) : AnalysisResult :=
  {| vendor := VStr (of_string "Bar Pepe");
     expense_date := VStr (of_string "2024-05-01");
     amount_gross := VNum (of_Z 1);
     tax_vat := VNum (decimal 2 2);
     amount_net := VNum net;
     currency := VStr (of_string "EUR");
     category_suggestion := VStr (of_string "Dietas");
     payment_method_guess := VStr (of_string "CARD");
     project_code_guess := VUndefined;
     notes := VUndefined |}.

Example run_cents :
  gt (difference unused (cents (decimal 99 2))) cent = true
  /\ (run_with (cents (decimal 99 2)) ticket).1
     = {| status := 200;
          body := SuccessBody (DObject (cents (decimal 98 2))) |}.
Proof. split; reflexivity. Qed.


(** A model that answers the empty array. *)
Definition parses_to_array (_ : list N) : option Parsed :=
  Some (PArray (of_string "[]")).

Example run_array :
  serve unused parses_to_array (answers lunch_cleaned) a_day roomy
    (Some "secret") (post ticket)
  = ({| status := 200; body := SuccessBody (DArray (of_string "[]")) |},
     [request_for "secret" ticket]).
Proof. reflexivity. Qed.

Example run_unparseable :
  serve unused (fun _ => None) (answers lunch_cleaned) a_day roomy
    (Some "secret") (post ticket)
  = ({| status := 500; body := FailureBody Unparseable |},
     [request_for "secret" ticket]).
Proof. reflexivity. Qed.

(** The photograph does not fit a call of 125000 arguments: no call is made
    to the model. *)
Example run_photo :
  valid_file photo = true
  /\ serve unused (parses_to lunch_cleaned) (answers lunch_cleaned) a_day
       stack_of_125000 (Some "secret") (post photo)
     = ({| status := 500; body := FailureBody Runtime |}, []).
Proof. split; vm_compute; reflexivity. Qed.



(** C4, as stated, fails: a text file is answered with 500 when the API key
    is not configured, and with 200 when the request is a preflight. *)
Lemma invalid_file_is_not_always_400 :
  valid_file notes_txt = false
  /\ serve unused (parses_to lunch_cleaned) (answers lunch_cleaned) a_day
       roomy None (post notes_txt)
     = ({| status := 500;
           body := ErrorBody "API key de Gemini no configurada" |}, [])
  /\ serve unused (parses_to lunch_cleaned) (answers lunch_cleaned) a_day
       roomy (Some "secret")
       {| method := "OPTIONS";
          formData := Some (Some (FormFile notes_txt)) |}
     = ({| status := 200; body := NoBody |}, []).
Proof. repeat split; reflexivity. Qed.



Lemma file_validation_witness :
  ((serve unused (parses_to lunch_cleaned) (answers lunch_cleaned) a_day
      roomy (Some "secret") (post notes_txt)).2 = []
   /\ (exists error,
         serve unused (parses_to lunch_cleaned) (answers lunch_cleaned) a_day
           roomy (Some "secret") (post notes_txt)
         = ({| status := 400; body := ErrorBody error |}, []))
   /\ (serve unused (parses_to lunch_cleaned) (answers lunch_cleaned) a_day
         roomy (Some "secret") (post ticket)).2
      = [request_for "secret" ticket])
  /\ serve unused (parses_to lunch_cleaned) (answers lunch_cleaned) a_day
       stack_of_125000 (Some "secret") (post photo)
     = ({| status := 500; body := FailureBody Runtime |}, []).
Proof.
  destruct (file_validation unused (parses_to lunch_cleaned)
              (answers lunch_cleaned) a_day roomy (Some "secret")
              (post notes_txt) notes_txt eq_refl) as (_ & Hnone & Hkey).
  destruct (file_validation unused (parses_to lunch_cleaned)
              (answers lunch_cleaned) a_day roomy (Some "secret")
              (post ticket) ticket eq_refl) as (_ & _ & Hkey').
  destruct (file_validation unused (parses_to lunch_cleaned)
              (answers lunch_cleaned) a_day stack_of_125000 (Some "secret")
              (post photo) photo eq_refl) as (_ & _ & Hkey'').
  split; [split; [apply Hnone; reflexivity | split] |].
  - apply (Hkey "secret"); [discriminate | reflexivity | discriminate
                            | reflexivity].
  - apply (Hkey' "secret"); [discriminate | reflexivity | discriminate
                             | reflexivity | reflexivity].
  - apply (Hkey'' "secret"); [discriminate | reflexivity | discriminate
                              | vm_compute; reflexivity
                              | vm_compute; reflexivity].
Defined.

(** A model that is down. *)
Definition unavailable (_ : GeminiRequest) : FetchResult :=
  HttpResponse false 503 NotJson.

Lemma upstream_failure_is_one_500_witness :
  [request_for "secret" ticket] = [request_for "secret" ticket]
  /\ {| status := 500; body := FailureBody (GeminiStatus 503) |}
     = {| status := 500;
          body := FailureBody
                    (failure_text (unavailable (request_for "secret" ticket)))
       |}.
Proof.
  apply (upstream_failure_is_one_500 unused (parses_to lunch_cleaned)
           unavailable a_day roomy (Some "secret") (post ticket)).
  - reflexivity.
  - apply list_elem_of_singleton. reflexivity.
  - exact I.
Defined.

End AnalyzeReceipt.

(** ** The receipt analysis: what its answers carry *)

Module AnalyzeReceiptAnswers.
Import Js AnalyzeReceipt.

Section Answers.

Variable StringToNumber : list N -> number.
Variable JSON_parse : list N -> option Parsed.
Variable fetch : GeminiRequest -> FetchResult.
Variable today : list N.
Variable arguments_fit : Z -> bool.

Abbreviation serve :=
  (AnalyzeReceipt.serve StringToNumber JSON_parse fetch today arguments_fit).
Abbreviation postProcess :=
  (AnalyzeReceipt.postProcess StringToNumber today).
Abbreviation coherence := (AnalyzeReceipt.coherence StringToNumber).

(** The date the handler leaves in the object: the one it found when its
    text has the shape of a date, the current day otherwise. *)
Definition date_kept (r : AnalysisResult) : JsVal :=
  match expense_date r with
  | VStr s => if dateRegex_test s then VStr s else VStr today
  | VObject s => if dateRegex_test s then VObject s else VStr today
  | _ => VStr today
  end.

Lemma coherence_rest r :
  expense_date (coherence r) = expense_date r
  /\ currency (coherence r) = currency r
  /\ category_suggestion (coherence r) = category_suggestion r
  /\ payment_method_guess (coherence r) = payment_method_guess r
  /\ project_code_guess (coherence r) = project_code_guess r
  /\ notes (coherence r) = notes r.
Proof.
  unfold AnalyzeReceipt.coherence.
  by destruct (gt _ _).
Qed.

Lemma vendor_step_rest r log d log' :
  vendor_step r log = (Next d, log') ->
  expense_date d = expense_date r
  /\ currency d = currency r
  /\ category_suggestion d = category_suggestion r
  /\ payment_method_guess d = payment_method_guess r
  /\ project_code_guess d = project_code_guess r
  /\ notes d = notes r.
Proof.
  unfold vendor_step.
  destruct (blank (vendor r)) as [[|] |]; simpl; [| | done].
  - intros H; inversion H; subst; done.
  - destruct (vendor r); simpl; try done.
    intros H; inversion H; subst; done.
Qed.

Lemma date_step_rest r :
  expense_date (date_step today r) = date_kept r
  /\ category_suggestion (date_step today r) = category_suggestion r
  /\ payment_method_guess (date_step today r) = payment_method_guess r
  /\ project_code_guess (date_step today r) = project_code_guess r
  /\ notes (date_step today r) = notes r.
Proof.
  unfold date_step, date_kept.
  destruct (expense_date r) as [| | | | s | s] eqn:Hd; try done;
    destruct (dateRegex_test s); by rewrite ?Hd.
Qed.

Lemma currency_step_rest r log d log' :
  currency_step r log = (Next d, log') ->
  expense_date d = expense_date r
  /\ category_suggestion d = category_suggestion r
  /\ payment_method_guess d = payment_method_guess r
  /\ project_code_guess d = project_code_guess r
  /\ notes d = notes r
  /\ (blank (currency r) = Some true /\ currency d = VStr (of_string "EUR")
      \/ blank (currency r) = Some false /\ currency d = currency r).
Proof.
  unfold currency_step.
  destruct (blank (currency r)) as [[|] |]; simpl; [| | done];
    intros H; inversion H; subst; simpl; repeat split; auto.
Qed.

Lemma postProcess_rest r log d log' :
  postProcess r log = (Next d, log') ->
  expense_date d = date_kept r
  /\ category_suggestion d = category_suggestion r
  /\ payment_method_guess d = payment_method_guess r
  /\ project_code_guess d = project_code_guess r
  /\ notes d = notes r
  /\ (blank (currency r) = Some true /\ currency d = VStr (of_string "EUR")
      \/ blank (currency r) = Some false /\ currency d = currency r).
Proof.
  destruct (coherence_rest r) as (Hd0 & Hc0 & Hs0 & Hp0 & Hj0 & Hn0).
  unfold AnalyzeReceipt.postProcess, bind.
  destruct (vendor_step (coherence r) log) as [[r1 | resp | e] log1] eqn:H1;
    try done.
  intros H2.
  apply vendor_step_rest in H1 as (Hd1 & Hc1 & Hs1 & Hp1 & Hj1 & Hn1).
  apply currency_step_rest in H2 as (Hd2 & Hs2 & Hp2 & Hj2 & Hn2 & Hc2).
  destruct (date_step_rest r1) as (Hd3 & Hs3 & Hp3 & Hj3 & Hn3).
  destruct (date_step_others today r1) as (_ & _ & _ & _ & Hc3).
  assert (Hk : date_kept r1 = date_kept r).
  { unfold date_kept. by rewrite Hd1, Hd0. }
  rewrite Hc3, Hc1, Hc0 in Hc2.
  split; [congruence |]. split; [congruence |]. split; [congruence |].
  split; [congruence |]. split; [congruence |]. done.
Qed.

(** A request the handler takes as far as the model, and an answer of the
    model that parses to an object: the response is what the
    post-processing of the object gives. *)
Lemma serve_parsed key req file http_status text r :
  method req <> "OPTIONS" -> key <> "" ->
  formData req = Some (Some (FormFile file)) -> valid_file file = true ->
  arguments_fit (size file) = true ->
  fetch (request_for key file)
  = HttpResponse true http_status (Candidates (Some text)) ->
  text <> [] ->
  JSON_parse text = Some (PObject r) ->
  serve (Some key) req
  = (match (postProcess r [request_for key file]).1 with
     | Next d => {| status := 200; body := SuccessBody (DObject d) |}
     | Return resp => resp
     | Throw e => {| status := 500; body := FailureBody e |}
     end, [request_for key file]).
Proof.
  intros Hmethod Hkey Hform Hvalid Hfit Hfetch Htext Hparse.
  unfold AnalyzeReceipt.serve.
  rewrite bool_decide_eq_false_2 by done.
  rewrite (analyze_valid _ _ _ _ _ key req file Hkey Hform Hvalid), Hfit.
  unfold interpret. rewrite Hfetch. unfold bind at 1. simpl.
  unfold bind at 1. unfold throw_if.
  rewrite bool_decide_eq_false_2 by done. simpl.
  rewrite Hparse. unfold finish, bind.
  pose proof (postProcess_log StringToNumber today r [request_for key file])
    as Hlog.
  destruct (AnalyzeReceipt.postProcess _ _ r _) as [[d | resp | e] log1];
    simpl in *; by subst.
Qed.

Lemma postProcess_throws r log :
  blank (vendor r) = None \/ blank (currency r) = None ->
  postProcess r log = (Throw Runtime, log).
Proof.
  destruct (coherence_others StringToNumber r) as (Hv & _).
  destruct (coherence_rest r) as (_ & Hc & _).
  unfold AnalyzeReceipt.postProcess, bind, vendor_step. rewrite Hv.
  intros [Hb | Hb].
  - by rewrite Hb.
  - destruct (blank (vendor r)) as [[|] |] eqn:Hbv; simpl; [| | done].
    + unfold currency_step.
      destruct (date_step_others today
                  (with_vendor (coherence r) (VStr (clean unidentified))))
        as (_ & _ & _ & _ & Hc3).
      rewrite Hc3. simpl. rewrite Hc, Hb. done.
    + destruct (vendor r) as [| | | | s |] eqn:Hvr; simpl; try done.
      unfold currency_step.
      destruct (date_step_others today
                  (with_vendor (coherence r) (VStr (clean s))))
        as (_ & _ & _ & _ & Hc3).
      rewrite Hc3. simpl. rewrite Hc, Hb. done.
Qed.

(** A value that is neither falsy nor a string: [true], a number other than
    zero, an object or an array. *)
Definition truthy_non_string (v : JsVal) : Prop :=
  truthy v = true /\ forall s, v <> VStr s.

Lemma blank_truthy_non_string v :
  truthy_non_string v -> blank v = None.
Proof.
  intros [Ht Hs]. unfold blank. rewrite Ht. simpl.
  destruct v; try done. by destruct (Hs s).
Qed.

(** **** Properties of the answers *)

(** X5.  Every answer of the function has one of four shapes.  An empty body
    is the preflight answer, with status 200.  A body [{error}] has status
    500 when the API key is missing or empty and status 400 otherwise, and
    comes before any call to the model.  A body [{success: false, error}]
    has status 500; when no call was made for it the message is the
    runtime's, and either the form data could not be read or the valid file
    could not be put in base64.  A body [{success: true, data}] has status
    200 and comes after exactly one call to the model, made for a valid
    file. *)
Theorem answers_by_stage geminiApiKey req :
  let resp := (serve geminiApiKey req).1 in
  let log := (serve geminiApiKey req).2 in
  match body resp with
  | NoBody => method req = "OPTIONS" /\ status resp = 200 /\ log = []
  | ErrorBody _ =>
      method req <> "OPTIONS" /\ log = []
      /\ (status resp = 500
          /\ (geminiApiKey = None \/ geminiApiKey = Some "")
          \/ status resp = 400
             /\ exists key, geminiApiKey = Some key /\ key <> "")
  | FailureBody e =>
      method req <> "OPTIONS" /\ status resp = 500
      /\ (log = [] ->
          e = Runtime
          /\ (formData req = None
              \/ exists file,
                   formData req = Some (Some (FormFile file))
                   /\ valid_file file = true
                   /\ arguments_fit (size file) = false))
  | SuccessBody _ =>
      method req <> "OPTIONS" /\ status resp = 200
      /\ exists key file,
           geminiApiKey = Some key /\ key <> ""
           /\ formData req = Some (Some (FormFile file))
           /\ valid_file file = true
           /\ arguments_fit (size file) = true
           /\ log = [request_for key file]
  end.
Proof.
  unfold AnalyzeReceipt.serve.
  destruct (bool_decide (method req = "OPTIONS")) eqn:Hm.
  { apply bool_decide_eq_true in Hm. done. }
  apply bool_decide_eq_false in Hm.
  destruct geminiApiKey as [key |];
    [| rewrite analyze_no_key; simpl; by auto 7].
  destruct (decide (key = "")) as [-> | Hkey];
    [rewrite analyze_empty_key; simpl; by auto 7 |].
  rewrite (analyze_key _ _ _ _ _ key req Hkey).
  destruct (read_file req []) as [[file | resp | e] log0] eqn:Hr.
  - apply read_file_next in Hr as [Hform Hvalid].
    destruct (arguments_fit (size file)) eqn:Hfit.
    + destruct (interpret _ _ _ (fetch (request_for key file))
                  [request_for key file])
        as [[resp | resp | e] log1] eqn:Hint; simpl.
      * apply interpret_next in Hint
          as (http_status & text & parsed & _ & _ & _ & Hfinish).
        apply finish_next in Hfinish
          as [(r & d & _ & _ & ->) | (json & _ & ->)]; simpl;
          (split; [done |]); (split; [done |]); by exists key, file.
      * by apply interpret_not_return in Hint.
      * done.
    + simpl. split; [done |]. split; [done |]. intros _.
      split; [done |]. right. by exists file.
  - destruct (read_file_cases req []) as [[file H] | [[error H] | H]];
      rewrite H in Hr; inversion Hr; subst. simpl.
    split; [done |]. split; [done |]. right. split; [done |].
    by exists key.
  - simpl. split; [done |]. split; [done |]. intros _.
    unfold read_file in Hr.
    destruct (formData req) as [[[f | s] |] |]; simpl in Hr.
    + unfold bind, return_if in Hr.
      destruct (negb (includes allowedTypes (type f))); simpl in Hr;
        [done |].
      destruct (maxSize <? size f); done.
    + by destruct (is_empty s).
    + done.
    + inversion Hr. auto.
Qed.

(** X6.  In a response with [success: true] whose data is an object, the
    date is the date of the model when that is a string, or an array whose
    text is one, of the shape dddd-dd-dd (four digits, a hyphen, two
    digits, a hyphen, two digits), and the current day in every other case.
    Only the shape is looked at, not whether the month and the day exist. *)
Theorem date_after_post_processing geminiApiKey req resp log d :
  serve geminiApiKey req = (resp, log) ->
  body resp = SuccessBody (DObject d) ->
  exists key file http_status text r,
    fetch (request_for key file)
    = HttpResponse true http_status (Candidates (Some text))
    /\ JSON_parse text = Some (PObject r)
    /\ (forall s, expense_date r = VStr s \/ expense_date r = VObject s ->
          dateRegex_test s = true -> expense_date d = expense_date r)
    /\ ((forall s, expense_date r = VStr s \/ expense_date r = VObject s ->
           dateRegex_test s = false) ->
          expense_date d = VStr today)
    /\ (forall s, expense_date d = VStr s ->
          dateRegex_test s = true \/ s = today).
Proof.
  intros Hserve Hbody.
  destruct (serve_success _ _ _ _ _ _ _ _ _ _ Hserve Hbody)
    as (key & file & http_status & text & parsed
        & _ & _ & _ & Hfetch & Hparse & (r & -> & Hpost) & _ & _).
  apply postProcess_rest in Hpost as (Hd & _).
  exists key, file, http_status, text, r.
  split; [done |]. split; [done |].
  rewrite Hd. unfold date_kept.
  split; [| split].
  - intros s [-> | ->] Hs; by rewrite Hs.
  - intros Hno. destruct (expense_date r) as [| | | | s | s]; try done;
      rewrite (Hno s); auto.
  - intros s0.
    destruct (expense_date r) as [| | | | s | s];
      try (intros H; inversion H; by right);
      destruct (dateRegex_test s) eqn:Hs; intros H; inversion H; subst;
      auto.
Qed.

(** X7.  In a response with [success: true] whose data is an object, the
    currency is a string that is not blank: ["EUR"] when the model gave none
    or a blank one, and the string of the model, as it came, otherwise. *)
Theorem currency_after_post_processing geminiApiKey req resp log d :
  serve geminiApiKey req = (resp, log) ->
  body resp = SuccessBody (DObject d) ->
  exists key file http_status text r,
    fetch (request_for key file)
    = HttpResponse true http_status (Candidates (Some text))
    /\ JSON_parse text = Some (PObject r)
    /\ (blank (currency r) = Some true ->
          currency d = VStr (of_string "EUR"))
    /\ (blank (currency r) = Some false -> currency d = currency r)
    /\ exists c, currency d = VStr c /\ trim c <> [].
Proof.
  intros Hserve Hbody.
  destruct (serve_success _ _ _ _ _ _ _ _ _ _ Hserve Hbody)
    as (key & file & http_status & text & parsed
        & _ & _ & _ & Hfetch & Hparse & (r & -> & Hpost) & _ & _).
  apply postProcess_rest in Hpost as (_ & _ & _ & _ & _ & Hc).
  exists key, file, http_status, text, r.
  split; [done |]. split; [done |].
  destruct Hc as [[Hb Hc] | [Hb Hc]]; rewrite Hb, Hc.
  - split; [done |]. split; [done |].
    exists (of_string "EUR"). split; [done |]. by vm_compute.
  - split; [done |]. split; [done |].
    unfold blank in Hb.
    destruct (truthy (currency r)); simpl in Hb; [| done].
    destruct (currency r) as [| | | | c |]; try done.
    exists c. split; [done |].
    inversion Hb as [Hlen]. apply bool_decide_eq_false in Hlen.
    intros Hnil. apply Hlen. by rewrite Hnil.
Qed.

(** X8.  In a response with [success: true] whose data is an object, the
    category, the payment method, the project code and the notes are those
    of the model, whatever they are: the handler does not hold them against
    the lists of categories and payment methods of its prompt. *)
Theorem guesses_pass_through geminiApiKey req resp log d :
  serve geminiApiKey req = (resp, log) ->
  body resp = SuccessBody (DObject d) ->
  exists key file http_status text r,
    fetch (request_for key file)
    = HttpResponse true http_status (Candidates (Some text))
    /\ JSON_parse text = Some (PObject r)
    /\ category_suggestion d = category_suggestion r
    /\ payment_method_guess d = payment_method_guess r
    /\ project_code_guess d = project_code_guess r
    /\ notes d = notes r.
Proof.
  intros Hserve Hbody.
  destruct (serve_success _ _ _ _ _ _ _ _ _ _ Hserve Hbody)
    as (key & file & http_status & text & parsed
        & _ & _ & _ & Hfetch & Hparse & (r & -> & Hpost) & _ & _).
  apply postProcess_rest in Hpost as (_ & Hs & Hp & Hj & Hn & _).
  by exists key, file, http_status, text, r.
Qed.

(** X9.  A vendor or a currency of the model that is neither falsy nor a
    string ([true], a number other than 0 and NaN, an object or an array)
    makes the handler fail: for a request that reaches the model, the
    answer is status 500 with [success: false] and the message of the
    runtime, after the one call. *)
Theorem non_string_vendor_or_currency_is_500 key req file http_status text r :
  method req <> "OPTIONS" -> key <> "" ->
  formData req = Some (Some (FormFile file)) -> valid_file file = true ->
  arguments_fit (size file) = true ->
  fetch (request_for key file)
  = HttpResponse true http_status (Candidates (Some text)) ->
  text <> [] ->
  JSON_parse text = Some (PObject r) ->
  truthy_non_string (vendor r) \/ truthy_non_string (currency r) ->
  serve (Some key) req
  = ({| status := 500; body := FailureBody Runtime |},
     [request_for key file]).
Proof.
  intros Hmethod Hkey Hform Hvalid Hfit Hfetch Htext Hparse Hbad.
  rewrite (serve_parsed key req file http_status text r) by done.
  rewrite postProcess_throws; [done |].
  destruct Hbad as [H | H]; [left | right]; by apply blank_truthy_non_string.
Qed.

(** X10.  The default vendor is put in before the clean-up, not after it: a
    vendor of the model that is not empty and made only of code units the
    clean-up removes comes out, in a response with [success: true], as the
    empty string. *)
Theorem vendor_of_removed_characters_is_empty geminiApiKey req resp log d :
  serve geminiApiKey req = (resp, log) ->
  body resp = SuccessBody (DObject d) ->
  exists key file http_status text r,
    fetch (request_for key file)
    = HttpResponse true http_status (Candidates (Some text))
    /\ JSON_parse text = Some (PObject r)
    /\ (forall s, vendor r = VStr s -> s <> [] ->
          Forall (fun c => kept c = false) s ->
          vendor d = VStr []).
Proof.
  intros Hserve Hbody.
  destruct (serve_success _ _ _ _ _ _ _ _ _ _ Hserve Hbody)
    as (key & file & http_status & text & parsed
        & _ & _ & _ & Hfetch & Hparse & (r & -> & Hpost) & _ & _).
  apply postProcess_next in Hpost as (_ & _ & _ & s' & Hs' & Hv).
  exists key, file, http_status, text, r.
  split; [done |]. split; [done |].
  intros s Hvendor Hne Hall.
  assert (Htrim : trim s = s).
  { apply JsText.trim_no_space. eapply Forall_impl; [exact Hall |].
    intros c Hc. unfold kept in Hc.
    destruct (is_space c); [| done].
    by rewrite orb_true_r in Hc. }
  assert (Hs : s' = s).
  { destruct Hs' as [[Hb _] | [Hv' _]]; [| congruence].
    rewrite Hvendor in Hb. unfold blank in Hb.
    destruct s as [| c rest]; [done |]. simpl in Hb.
    inversion Hb as [Hlen]. apply bool_decide_eq_true in Hlen.
    rewrite Htrim in Hlen. done. }
  subst s'. rewrite Hv. f_equal.
  unfold clean, substring0. rewrite Htrim.
  assert (Hf : filter (fun c => kept c = true) s = []).
  { clear -Hall. induction Hall as [| c rest Hc _ IH]; [done |].
    rewrite filter_cons_False by congruence. done. }
  by rewrite Hf.
Qed.

End Answers.

(** **** Concrete runs *)

(** A receipt whose date has the shape of a date and names no day, whose
    category is none of the prompt, and whose vendor is all punctuation. *)
Definition odd_receipt : AnalysisResult :=
  {| vendor := VStr (of_string "***");
     expense_date := VStr (of_string "9999-99-99");
     amount_gross := VNum (of_Z 10);
     tax_vat := VNum (of_Z 0);
     amount_net := VNum (of_Z 10);
     currency := VStr (of_string "usd");
     category_suggestion := VStr (of_string "Ocio");
     payment_method_guess := VStr (of_string "BIZUM");
     project_code_guess := VNum (of_Z 7);
     notes := VNull |}.

Definition odd_receipt_answered : AnalysisResult :=
  {| vendor := VStr [];
     expense_date := VStr (of_string "9999-99-99");
     amount_gross := VNum (of_Z 10);
     tax_vat := VNum (of_Z 0);
     amount_net := VNum (of_Z 10);
     currency := VStr (of_string "usd");
     category_suggestion := VStr (of_string "Ocio");
     payment_method_guess := VStr (of_string "BIZUM");
     project_code_guess := VNum (of_Z 7);
     notes := VNull |}.

(** The model gave a number as the vendor. *)
Definition numbered_vendor : AnalysisResult :=
  {| vendor := VNum (of_Z 42);
     expense_date := VStr (of_string "2024-05-01");
     amount_gross := VNum (of_Z 10);
     tax_vat := VNum (of_Z 0);
     amount_net := VNum (of_Z 10);
     currency := VStr (of_string "EUR");
     category_suggestion := VStr (of_string "Otros");
     payment_method_guess := VStr (of_string "CARD");
     project_code_guess := VUndefined;
     notes := VUndefined |}.

Example run_odd_receipt :
  run_with odd_receipt ticket
  = ({| status := 200; body := SuccessBody (DObject odd_receipt_answered) |},
     [request_for "secret" ticket]).
Proof. by vm_compute. Qed.

Lemma date_after_post_processing_witness :
  expense_date odd_receipt_answered = VStr (of_string "9999-99-99")
  /\ expense_date lunch_cleaned = VStr a_day.
Proof.
  destruct (date_after_post_processing unused
              (parses_to odd_receipt) (answers odd_receipt) a_day roomy
              (Some "secret") (post ticket)
              {| status := 200;
                 body := SuccessBody (DObject odd_receipt_answered) |}
              [request_for "secret" ticket] odd_receipt_answered
              eq_refl eq_refl)
    as (key & file & http_status & text & r & _ & Hparse & Hkept & _).
  destruct (date_after_post_processing unused
              (parses_to lunch_wrong_net) (answers lunch_wrong_net) a_day
              roomy (Some "secret") (post ticket)
              {| status := 200; body := SuccessBody (DObject lunch_cleaned) |}
              [request_for "secret" ticket] lunch_cleaned
              eq_refl eq_refl)
    as (key' & file' & http_status' & text' & r' & _ & Hparse' & _ & Hday & _).
  inversion Hparse; subst r. inversion Hparse'; subst r'.
  split.
  - apply (Hkept (of_string "9999-99-99")); [by left | reflexivity].
  - apply Hday. intros s [Hs | Hs]; inversion Hs; subst s. reflexivity.
Defined.

Lemma currency_after_post_processing_witness :
  currency lunch_cleaned = VStr (of_string "EUR")
  /\ currency odd_receipt_answered = VStr (of_string "usd").
Proof.
  destruct (currency_after_post_processing unused
              (parses_to lunch_wrong_net) (answers lunch_wrong_net) a_day
              roomy (Some "secret") (post ticket)
              {| status := 200; body := SuccessBody (DObject lunch_cleaned) |}
              [request_for "secret" ticket] lunch_cleaned
              eq_refl eq_refl)
    as (key & file & http_status & text & r & _ & Hparse & Hdefault & _).
  destruct (currency_after_post_processing unused
              (parses_to odd_receipt) (answers odd_receipt) a_day roomy
              (Some "secret") (post ticket)
              {| status := 200;
                 body := SuccessBody (DObject odd_receipt_answered) |}
              [request_for "secret" ticket] odd_receipt_answered
              eq_refl eq_refl)
    as (key' & file' & http_status' & text' & r' & _ & Hparse' & _ & Hsame & _).
  inversion Hparse; subst r. inversion Hparse'; subst r'.
  split.
  - apply Hdefault. reflexivity.
  - apply Hsame. reflexivity.
Defined.

Lemma guesses_pass_through_witness :
  category_suggestion odd_receipt_answered = VStr (of_string "Ocio")
  /\ payment_method_guess odd_receipt_answered = VStr (of_string "BIZUM")
  /\ project_code_guess odd_receipt_answered = VNum (of_Z 7)
  /\ notes odd_receipt_answered = VNull.
Proof.
  destruct (guesses_pass_through unused
              (parses_to odd_receipt) (answers odd_receipt) a_day roomy
              (Some "secret") (post ticket)
              {| status := 200;
                 body := SuccessBody (DObject odd_receipt_answered) |}
              [request_for "secret" ticket] odd_receipt_answered
              eq_refl eq_refl)
    as (key & file & http_status & text & r & _ & Hparse & Hc & Hp & Hj & Hn).
  inversion Hparse; subst r.
  rewrite Hc, Hp, Hj, Hn. repeat split; reflexivity.
Defined.

Lemma non_string_vendor_or_currency_is_500_witness :
  run_with numbered_vendor ticket
  = ({| status := 500; body := FailureBody Runtime |},
     [request_for "secret" ticket]).
Proof.
  apply (non_string_vendor_or_currency_is_500 unused
           (parses_to numbered_vendor) (answers numbered_vendor) a_day roomy
           "secret" (post ticket) ticket 200 (of_string "{...}")
           numbered_vendor).
  - discriminate.
  - discriminate.
  - reflexivity.
  - reflexivity.
  - reflexivity.
  - reflexivity.
  - discriminate.
  - reflexivity.
  - left. split; [reflexivity | discriminate].
Defined.

Lemma vendor_of_removed_characters_is_empty_witness :
  vendor odd_receipt_answered = VStr [].
Proof.
  destruct (vendor_of_removed_characters_is_empty unused
              (parses_to odd_receipt) (answers odd_receipt) a_day roomy
              (Some "secret") (post ticket)
              {| status := 200;
                 body := SuccessBody (DObject odd_receipt_answered) |}
              [request_for "secret" ticket] odd_receipt_answered
              eq_refl eq_refl)
    as (key & file & http_status & text & r & _ & Hparse & Hempty).
  inversion Hparse; subst r.
  apply (Hempty (of_string "***")).
  - reflexivity.
  - discriminate.
  - repeat apply List.Forall_cons; try apply List.Forall_nil; reflexivity.
Defined.

End AnalyzeReceiptAnswers.

(** ** Input sanitization *)

Module SecurityUtils.
Import Js.

(** Matching under the [i] flag, without the [u] flag: a code unit matches
    an ASCII letter of a pattern when it is the letter in lower or in upper
    case, and no code unit outside ASCII does. *)
Definition toLowerASCII (c : N) : N :=
  if ((65 <=? c) && (c <=? 90))%N then (c + 32)%N else c.

(** [pattern], written in lower case, matches at the start of [s]. *)
Fixpoint starts_with_ci (pattern s : list N) : bool :=
  match pattern, s with
  | [], _ => true
  | p :: pattern', c :: s' =>
      (toLowerASCII c =? p)%N && starts_with_ci pattern' s'
  | _ :: _, [] => false
  end.

(** [s.replace(re, '')] for a global [re] that matches no empty text:
    [match_at s] is the length of the match of [re] at the start of [s], if
    there is one.  The text is gone through from left to right; after a
    match the search resumes behind it, and [skip] counts the code units of
    a match still to be dropped. *)
Fixpoint remove_matches (match_at : list N -> option nat) (skip : nat)
    (s : list N) : list N :=
  match s with
  | [] => []
  | c :: rest =>
      match skip with
      | S k => remove_matches match_at k rest
      | O =>
          match match_at s with
          | Some (S k) => remove_matches match_at k rest
          | _ => c :: remove_matches match_at O rest
          end
      end
  end.

(** [/[<>]/] *)
Definition is_angle (c : N) : bool := ((c =? 60) || (c =? 62))%N.

(** [/javascript:/i] *)
Definition javascript_at (s : list N) : option nat :=
  if starts_with_ci (of_string "javascript:") s then Some 11%nat else None.

(** The length of the longest run of [\w] at the start of [s]. *)
Fixpoint word_run (s : list N) : nat :=
  match s with
  | c :: rest => if is_word c then S (word_run rest) else O
  | [] => O
  end.

(** [/on\w+=/i]: [=] is not a word character, so the only run of word
    characters that [=] can follow is the longest one. *)
Definition handler_at (s : list N) : option nat :=
  match s with
  | o :: n :: rest =>
      if ((toLowerASCII o =? 111) && (toLowerASCII n =? 110))%N then
        match word_run rest with
        | O => None
        | S k =>
            match drop (S k) rest with
            | c :: _ => if (c =? 61)%N then Some (2 + S k + 1)%nat else None
            | [] => None
            end
        end
      else None
  | _ => None
  end.

Definition sanitizeInput (input : list N) : list N :=
  trim
    (remove_matches handler_at 0
       (remove_matches javascript_at 0
          (filter (fun c => is_angle c = false) input))).

(** **** Facts on the passes *)

Lemma remove_matches_sublist match_at skip s :
  sublist (remove_matches match_at skip s) s.
Proof.
  revert skip. induction s as [| c rest IH]; intros skip; simpl; [done |].
  destruct skip as [| k]; [| by apply sublist_cons].
  destruct (match_at (c :: rest)) as [[| k] |].
  - by apply sublist_skip.
  - by apply sublist_cons.
  - by apply sublist_skip.
Qed.

Lemma sanitizeInput_sublist_filtered input :
  sublist (sanitizeInput input) (filter (fun c => is_angle c = false) input).
Proof.
  unfold sanitizeInput.
  etrans; [apply JsText.trim_sublist |].
  etrans; apply remove_matches_sublist.
Qed.

Lemma starts_with_ci_elem p pattern s :
  p ∈ pattern -> starts_with_ci pattern s = true ->
  exists c, c ∈ s /\ toLowerASCII c = p.
Proof.
  revert s. induction pattern as [| q pattern IH]; intros s Hin Hs.
  - by apply elem_of_nil in Hin.
  - destruct s as [| c s]; [done |]. simpl in Hs.
    apply andb_true_iff in Hs as [Hc Hs]. apply N.eqb_eq in Hc.
    apply elem_of_cons in Hin as [-> | Hin].
    + exists c. split; [left | done].
    + destruct (IH s Hin Hs) as (c' & Hc' & Hl). exists c'.
      split; [by right | done].
Qed.

(** A text without a colon holds no [javascript:]. *)
Lemma javascript_at_no_colon s :
  Forall (fun c => c <> 58%N) s -> javascript_at s = None.
Proof.
  intros Hs. unfold javascript_at.
  destruct (starts_with_ci (of_string "javascript:") s) eqn:Hm; [| done].
  destruct (starts_with_ci_elem 58%N (of_string "javascript:") s)
    as (c & Hc & Hl); [| done |].
  - unfold of_string. simpl. set_solver.
  - rewrite Forall_forall in Hs. specialize (Hs c Hc).
    unfold toLowerASCII in Hl.
    destruct ((65 <=? c) && (c <=? 90))%N eqn:Hup; [| done].
    apply andb_true_iff in Hup as [H1 H2].
    apply N.leb_le in H1, H2. lia.
Qed.

(** A text without an equals sign holds no event handler. *)
Lemma handler_at_no_equals s :
  Forall (fun c => c <> 61%N) s -> handler_at s = None.
Proof.
  intros Hs. unfold handler_at.
  destruct s as [| o [| n rest]]; try done.
  destruct ((toLowerASCII o =? 111) && (toLowerASCII n =? 110))%N; [| done].
  destruct (word_run rest) as [| k]; [done |].
  destruct (drop (S k) rest) as [| c tl] eqn:Hd; [done |].
  destruct (c =? 61)%N eqn:Hc; [| done].
  apply N.eqb_eq in Hc. subst c.
  assert (Hin : 61%N ∈ rest).
  { rewrite <- (take_drop (S k) rest), Hd.
    apply elem_of_app. right. by left. }
  rewrite Forall_forall in Hs.
  destruct (Hs 61%N); [by do 2 right | done].
Qed.

Lemma remove_matches_none match_at (P : N -> Prop) s :
  (forall t, Forall P t -> match_at t = None) ->
  Forall P s -> remove_matches match_at 0 s = s.
Proof.
  intros Hnone. induction 1 as [| c rest Hc Hrest IH]; simpl; [done |].
  rewrite (Hnone (c :: rest)) by by constructor.
  by rewrite IH.
Qed.

Lemma filter_all (P : N -> Prop) `{forall c, Decision (P c)} (s : list N) :
  Forall P s -> filter P s = s.
Proof.
  induction 1 as [| c rest Hc _ IH]; [done |].
  rewrite filter_cons_True by done. by rewrite IH.
Qed.

Lemma sanitizeInput_trimmed input :
  trim (sanitizeInput input) = sanitizeInput input.
Proof. unfold sanitizeInput. apply JsText.trim_idemp. Qed.

(** **** Properties of the sanitization *)

(** X11.  What [sanitizeInput] returns is the input with some code units
    left out and none added or reordered; it holds neither [<] nor [>]; and
    it has no white space at either end (trimming it again changes
    nothing). *)
Theorem sanitizeInput_output input :
  sublist (sanitizeInput input) input
  /\ Forall (fun c => c <> 60%N /\ c <> 62%N) (sanitizeInput input)
  /\ trim (sanitizeInput input) = sanitizeInput input.
Proof.
  pose proof (sanitizeInput_sublist_filtered input) as Hsub.
  split; [| split].
  - etrans; [exact Hsub | apply sublist_filter].
  - apply Forall_forall. intros c Hc.
    apply (elem_of_sublist _ _ _ Hc) in Hsub.
    apply list_elem_of_filter in Hsub as [Hangle _].
    unfold is_angle in Hangle. apply orb_false_iff in Hangle as [H1 H2].
    apply N.eqb_neq in H1, H2. done.
  - apply sanitizeInput_trimmed.
Qed.

(** The code units the passes look for. *)
Definition is_plain (c : N) : Prop :=
  c <> 60%N /\ c <> 62%N /\ c <> 58%N /\ c <> 61%N.

Lemma plain_passes s :
  Forall is_plain s ->
  remove_matches handler_at 0
    (remove_matches javascript_at 0
       (filter (fun c => is_angle c = false) s)) = s.
Proof.
  intros Hs.
  rewrite filter_all.
  2: { eapply Forall_impl; [exact Hs |]. intros c (H1 & H2 & _).
       unfold is_angle. apply orb_false_iff.
       split; by apply N.eqb_neq. }
  rewrite (remove_matches_none javascript_at (fun c => c <> 58%N)).
  2: { apply javascript_at_no_colon. }
  2: { eapply Forall_impl; [exact Hs |]. by intros c (_ & _ & H3 & _). }
  apply (remove_matches_none handler_at (fun c => c <> 61%N)).
  - apply handler_at_no_equals.
  - eapply Forall_impl; [exact Hs |]. by intros c (_ & _ & _ & H4).
Qed.

(** X12.  A text that holds none of [<], [>], [:] and [=] and has no white
    space at either end is returned as it is. *)
Theorem plain_text_is_kept s :
  Forall is_plain s -> trim s = s -> sanitizeInput s = s.
Proof.
  intros Hs Htrim. unfold sanitizeInput. by rewrite plain_passes.
Qed.

Lemma remove_matches_keep match_at c rest :
  match_at (c :: rest) = None ->
  remove_matches match_at 0 (c :: rest)
  = c :: remove_matches match_at 0 rest.
Proof. intros H. simpl. by rewrite H. Qed.

Lemma remove_matches_drop match_at c rest k :
  match_at (c :: rest) = Some (S k) ->
  remove_matches match_at 0 (c :: rest) = remove_matches match_at k rest.
Proof. intros H. simpl. by rewrite H. Qed.

Lemma remove_matches_skip match_at k c rest :
  remove_matches match_at (S k) (c :: rest) = remove_matches match_at k rest.
Proof. done. Qed.

(** X13.  Each pattern is removed in one pass, and what the removal brings
    together is not looked at again: whatever [x] without white space and
    without [<], [>], [:] and [=] follows, the text
    [javajavascript:script:x] comes out as [javascript:x]. *)
Theorem javascript_protocol_can_be_reassembled x :
  Forall is_plain x -> Forall (fun c => is_space c = false) x ->
  sanitizeInput (of_string "javajavascript:script:" ++ x)%list
  = (of_string "javascript:" ++ x)%list.
Proof.
  intros Hx Hspace. unfold sanitizeInput.
  assert (Hf : filter (fun c => is_angle c = false)
                 (of_string "javajavascript:script:" ++ x)%list
               = (of_string "javajavascript:script:" ++ x)%list).
  { rewrite filter_app. f_equal.
    apply filter_all. eapply Forall_impl; [exact Hx |].
    intros c (H1 & H2 & _). unfold is_angle. apply orb_false_iff.
    split; by apply N.eqb_neq. }
  rewrite Hf.
  assert (Hj : remove_matches javascript_at 0
                 (of_string "javajavascript:script:" ++ x)%list
               = (of_string "javascript:" ++ x)%list).
  { change (of_string "javajavascript:script:" ++ x)%list
      with ([106; 97; 118; 97; 106; 97; 118; 97; 115; 99; 114; 105; 112;
             116; 58; 115; 99; 114; 105; 112; 116; 58]%N ++ x)%list.
    change (of_string "javascript:" ++ x)%list
      with ([106; 97; 118; 97; 115; 99; 114; 105; 112; 116; 58]%N ++ x)%list.
    unfold app.
    do 4 (rewrite remove_matches_keep by reflexivity).
    rewrite (remove_matches_drop _ _ _ 10) by reflexivity.
    do 10 rewrite remove_matches_skip.
    do 7 (rewrite remove_matches_keep by reflexivity).
    do 11 f_equal.
    apply (remove_matches_none javascript_at (fun c => c <> 58%N)).
    - apply javascript_at_no_colon.
    - eapply Forall_impl; [exact Hx |]. by intros c (_ & _ & H3 & _). }
  rewrite Hj.
  assert (Hh : remove_matches handler_at 0 (of_string "javascript:" ++ x)%list
               = (of_string "javascript:" ++ x)%list).
  { apply (remove_matches_none handler_at (fun c => c <> 61%N)).
    - apply handler_at_no_equals.
    - apply Forall_app. split.
      + change (of_string "javascript:")
          with [106; 97; 118; 97; 115; 99; 114; 105; 112; 116; 58]%N.
        repeat (apply List.Forall_cons; [discriminate |]).
        apply List.Forall_nil.
      + eapply Forall_impl; [exact Hx |]. by intros c (_ & _ & _ & H4). }
  rewrite Hh.
  apply JsText.trim_no_space. apply Forall_app. split; [| done].
  change (of_string "javascript:")
    with [106; 97; 118; 97; 115; 99; 114; 105; 112; 116; 58]%N.
  repeat (apply List.Forall_cons; [reflexivity |]).
  apply List.Forall_nil.
Qed.

(** **** Concrete runs *)

Example sanitize_script_tag :
  sanitizeInput (of_string "<script>alert(1)</script>")
  = of_string "scriptalert(1)/script".
Proof. by vm_compute. Qed.

Example sanitize_event_handler :
  sanitizeInput (of_string "<img src=x onerror=alert(1)>")
  = of_string "img src=x alert(1)".
Proof. by vm_compute. Qed.

Example sanitize_upper_case :
  sanitizeInput (of_string " JavaScript:go() ") = of_string "go()".
Proof. by vm_compute. Qed.

(** The handler pattern is lost in the same way as the protocol. *)
Example sanitize_reassembled_handler :
  sanitizeInput (of_string "oonclick=nclick=go()")
  = of_string "onclick=go()".
Proof. by vm_compute. Qed.

Lemma plain_text_is_kept_witness :
  sanitizeInput (of_string "ana@example.com") = of_string "ana@example.com".
Proof.
  apply plain_text_is_kept.
  - change (of_string "ana@example.com")
      with [97; 110; 97; 64; 101; 120; 97; 109; 112; 108; 101; 46; 99; 111;
            109]%N.
    repeat (apply List.Forall_cons;
            [repeat split; discriminate |]).
    apply List.Forall_nil.
  - reflexivity.
Defined.

Lemma javascript_protocol_can_be_reassembled_witness :
  sanitizeInput (of_string "javajavascript:script:alert(1)")
  = of_string "javascript:alert(1)".
Proof.
  apply (javascript_protocol_can_be_reassembled (of_string "alert(1)")).
  - change (of_string "alert(1)")
      with [97; 108; 101; 114; 116; 40; 49; 41]%N.
    repeat (apply List.Forall_cons;
            [repeat split; discriminate |]).
    apply List.Forall_nil.
  - change (of_string "alert(1)")
      with [97; 108; 101; 114; 116; 40; 49; 41]%N.
    repeat (apply List.Forall_cons; [reflexivity |]).
    apply List.Forall_nil.
Defined.

End SecurityUtils.


(** ** The sign-up handler *)

Module Auth.

(** The client-side limiter, [ClientRateLimiter] of [lib/rate-limiter.ts]:
    the static [storage] is passed in and handed back. *)
Record RateLimitEntry := { count : Z; resetTime : Z }.

Record RateLimitConfig := { maxRequests : Z; windowMs : Z }.

(** [ClientRateLimiter.configs.auth] *)
Definition configs_auth : RateLimitConfig :=
  {| maxRequests := 3; windowMs := 300000 |}.

(** [isAllowed] without a [keyGenerator]: the key is the endpoint. *)
Definition isAllowed (endpoint : string) (finalConfig : RateLimitConfig)
    (now : Z) (storage : gmap string RateLimitEntry)
  : bool * gmap string RateLimitEntry :=
  let fresh := {| count := 1; resetTime := now + windowMs finalConfig |} in
  match storage !! endpoint with
  | None => (true, <[endpoint := fresh]> storage)
  | Some entry =>
      if resetTime entry <? now then (true, <[endpoint := fresh]> storage)
      else if count entry <? maxRequests finalConfig then
        (true,
         <[endpoint := {| count := count entry + 1;
                          resetTime := resetTime entry |}]> storage)
      else (false, storage)
  end.

Definition getRemainingTime (endpoint : string) (now : Z)
    (storage : gmap string RateLimitEntry) : Z :=
  match storage !! endpoint with
  | None => 0
  | Some entry => Z.max 0 (resetTime entry - now)
  end.

(** The fields of the form; a string is its sequence of code units. *)
Record FormData := {
  email : list N;
  password : list N;
  name : list N;
  confirmPassword : list N
}.

(** The texts [setError] is called with. *)
Inductive ErrorMessage :=
| NoError
  (** the empty string *)
| PasswordsDiffer
  (** [Las contraseñas no coinciden] *)
| PasswordTooShort
  (** [La contraseña debe tener al menos 6 caracteres] *)
| TooManyAttempts (minutes : Z)
  (** [Demasiados intentos de registro. Intenta en <minutes> minutos.] *)
| AlreadyRegistered
  (** [Ya existe una cuenta con este email] *)
| FromServer (message : string)
| Unexpected
  (** [Error inesperado. Por favor, inténtalo de nuevo.] *).

(** What [supabase.auth.signUp] resolves to, or that it rejects. *)
Inductive SignUpResult :=
| SignUpError (message : string) (already_registered : bool)
  (** [error] is set; the flag is [message.includes('User already
      registered')] *)
| SignUpData (user : bool) (session : bool)
| SignUpRejects.

(** What the handler does to the world, in order. *)
Inductive Effect :=
| PreventDefault
| SetError (e : ErrorMessage)
| SetLoading (b : bool)
| Log
| SignUp (email password name : list N)
  (** the call to [supabase.auth.signUp], the one that leaves the browser *)
| Toast
| Navigate (path : string).

Definition is_network_call (e : Effect) : bool :=
  match e with SignUp _ _ _ => true | _ => false end.

Section SignUp.

(** [SecurityUtils.sanitizeInput]; what it returns only travels inside the
    sign-up call. *)
Variable sanitizeInput : list N -> list N.
Variable signUp : list N -> list N -> list N -> SignUpResult.

(** The readings of [Date.now()]: inside [isAllowed] and inside
    [getRemainingTime]. *)
Variables (now_allowed now_remaining : Z).

(** [Math.ceil(ms / 1000 / 60)] for a time in milliseconds that is not
    negative *)
Definition minutes_up (ms : Z) : Z := - ((- ms) / 60000).

Definition handleSignUp (formData : FormData)
    (storage : gmap string RateLimitEntry)
  : list Effect * gmap string RateLimitEntry :=
  if negb (bool_decide (password formData = confirmPassword formData)) then
    ([PreventDefault; SetError PasswordsDiffer], storage)
  else if (length (password formData) <? 6)%nat then
    ([PreventDefault; SetError PasswordTooShort], storage)
  else
    let '(allowed, storage') :=
      isAllowed "/auth/signup" configs_auth now_allowed storage in
    if negb allowed then
      let remainingTime :=
        minutes_up (getRemainingTime "/auth/signup" now_remaining storage') in
      ([PreventDefault; SetError (TooManyAttempts remainingTime)], storage')
    else
      let sent := SignUp (sanitizeInput (email formData)) (password formData)
                    (sanitizeInput (name formData)) in
      let begin := [PreventDefault; SetLoading true; SetError NoError;
                    Log; sent] in
      let finally := [SetLoading false] in
      let rest :=
        match signUp (sanitizeInput (email formData)) (password formData)
                (sanitizeInput (name formData)) with
        | SignUpError message already_registered =>
            [Log; SetError (if already_registered then AlreadyRegistered
                            else FromServer message)]
        | SignUpData true false => [Log; Toast]
        | SignUpData _ true => [Log; Toast; Navigate "/dashboard"]
        | SignUpData false false => []
        | SignUpRejects => [Log; SetError Unexpected]
        end in
      ((begin ++ rest ++ finally)%list, storage').

(** C6, as the code has it.  The handler tests the [length] of the
    password, which counts UTF-16 code units.  When the password has fewer
    than 6 code units, the handler sets one of its two validation errors and
    returns: it does nothing else, it does not call [supabase.auth.signUp],
    and it does not even consume an attempt of the client-side limiter. *)
Theorem short_password_rejected_locally formData storage :
  (length (password formData) < 6)%nat ->
  exists e,
    (e = PasswordsDiffer \/ e = PasswordTooShort)
    /\ handleSignUp formData storage = ([PreventDefault; SetError e], storage)
    /\ forallb (fun eff => negb (is_network_call eff))
         (handleSignUp formData storage).1 = true.
Proof.
  intros Hshort. unfold handleSignUp.
  destruct (negb (bool_decide (password formData = confirmPassword formData))).
  - exists PasswordsDiffer. auto.
  - apply Nat.ltb_lt in Hshort. rewrite Hshort.
    exists PasswordTooShort. auto.
Qed.

End SignUp.

Definition five_letters : FormData :=
  {| email := Js.of_string "ana@example.com";
     password := Js.of_string "abcde";
     name := Js.of_string "Ana";
     confirmPassword := Js.of_string "abcde" |}.

Lemma short_password_rejected_locally_witness :
  exists e,
    (e = PasswordsDiffer \/ e = PasswordTooShort)
    /\ handleSignUp (fun s => s) (fun _ _ _ => SignUpData true true) 0 0
         five_letters ∅
       = ([PreventDefault; SetError e], ∅)
    /\ forallb (fun eff => negb (is_network_call eff))
         (handleSignUp (fun s => s) (fun _ _ _ => SignUpData true true) 0 0
            five_letters ∅).1 = true.
Proof.
  apply (short_password_rejected_locally (fun s => s)
           (fun _ _ _ => SignUpData true true) 0 0 five_letters ∅).
  simpl. lia.
Defined.

(** With six code units the call is made. *)
Example six_letters_are_sent :
  (handleSignUp (fun s => s) (fun _ _ _ => SignUpData true true) 0 0
     {| email := Js.of_string "ana@example.com";
        password := Js.of_string "abcdef";
        name := Js.of_string "Ana";
        confirmPassword := Js.of_string "abcdef" |} ∅).1
  = [PreventDefault; SetLoading true; SetError NoError; Log;
     SignUp (Js.of_string "ana@example.com") (Js.of_string "abcdef")
       (Js.of_string "Ana");
     Log; Toast; Navigate "/dashboard"; SetLoading false].
Proof. reflexivity. Qed.

(** Three emoji (U+1F600), each of them one character of two code units. *)
Definition three_emoji : FormData :=
  {| email := Js.of_string "ana@example.com";
     password := [55357; 56832; 55357; 56832; 55357; 56832]%N;
     name := Js.of_string "Ana";
     confirmPassword := [55357; 56832; 55357; 56832; 55357; 56832]%N |}.

(** C6, as stated, fails: a password of three characters, fewer than 6, has
    six code units, passes the test of the handler and is sent to
    [supabase.auth.signUp]. *)
Lemma three_characters_are_sent :
  Js.code_points (password three_emoji) = 3%nat
  /\ length (password three_emoji) = 6%nat
  /\ (handleSignUp (fun s => s) (fun _ _ _ => SignUpData true true) 0 0
        three_emoji ∅).1
     = [PreventDefault; SetLoading true; SetError NoError; Log;
        SignUp (Js.of_string "ana@example.com") (password three_emoji)
          (Js.of_string "Ana");
        Log; Toast; Navigate "/dashboard"; SetLoading false]
  /\ existsb is_network_call
       (handleSignUp (fun s => s) (fun _ _ _ => SignUpData true true) 0 0
          three_emoji ∅).1 = true.
Proof. repeat split; reflexivity. Qed.

End Auth.

(** ** Sign-up submissions in a row *)

Module AuthRuns.
Import Auth.

(** One submission of the sign-up form: the fields at that moment and the
    two readings of the clock the handler may take. *)
Record Submission := {
  form : FormData;
  at_check : Z;
  at_message : Z
}.

(** The two tests the handler makes before it asks the limiter. *)
Definition passes_validation (f : FormData) : bool :=
  bool_decide (password f = confirmPassword f)
  && negb (length (password f) <? 6)%nat.

Definition calls_out (effects : list Effect) : bool :=
  existsb is_network_call effects.

Section Runs.

Variable sanitizeInput : list N -> list N.
Variable signUp : list N -> list N -> list N -> SignUpResult.

Definition submit (s : Submission) (storage : gmap string RateLimitEntry)
  : list Effect * gmap string RateLimitEntry :=
  handleSignUp sanitizeInput signUp (at_check s) (at_message s) (form s)
    storage.

(** The submissions one after the other, the limiter's storage going from
    each to the next. *)
Fixpoint submit_all (subs : list Submission)
    (storage : gmap string RateLimitEntry)
  : list (list Effect) * gmap string RateLimitEntry :=
  match subs with
  | [] => ([], storage)
  | s :: rest =>
      let '(effects, storage') := submit s storage in
      let '(more, final) := submit_all rest storage' in
      (effects :: more, final)
  end.

Definition sign_up_calls (subs : list Submission)
    (storage : gmap string RateLimitEntry) : nat :=
  length (filter (fun effects => calls_out effects = true)
            (submit_all subs storage).1).

Definition valid_submissions (subs : list Submission) : nat :=
  length (filter (fun s => passes_validation (form s) = true) subs).

Lemma submit_invalid s storage :
  passes_validation (form s) = false ->
  calls_out (submit s storage).1 = false /\ (submit s storage).2 = storage.
Proof.
  unfold passes_validation, submit, handleSignUp. intros H.
  destruct (bool_decide (password (form s) = confirmPassword (form s)));
    simpl in *; [| done].
  apply negb_false_iff in H. by rewrite H.
Qed.

Lemma submit_valid s storage :
  passes_validation (form s) = true ->
  let checked := isAllowed "/auth/signup" configs_auth (at_check s) storage in
  (submit s storage).2 = checked.2
  /\ calls_out (submit s storage).1 = checked.1
  /\ (checked.1 = false ->
      (submit s storage).1
      = [PreventDefault;
         SetError (TooManyAttempts
                     (minutes_up (getRemainingTime "/auth/signup"
                                    (at_message s) checked.2)))]).
Proof.
  unfold passes_validation, submit, handleSignUp. intros H.
  apply andb_true_iff in H as [H1 H2]. rewrite H1.
  apply negb_true_iff in H2. rewrite H2. simpl.
  destruct (isAllowed "/auth/signup" configs_auth (at_check s) storage)
    as [[|] storage']; simpl; [| done].
  split; [done |]. split; [| done].
  reflexivity.
Qed.

Lemma isAllowed_in_window endpoint config now storage entry :
  storage !! endpoint = Some entry -> now <= resetTime entry ->
  isAllowed endpoint config now storage
  = if count entry <? maxRequests config then
      (true, <[endpoint := {| count := count entry + 1;
                              resetTime := resetTime entry |}]> storage)
    else (false, storage).
Proof.
  intros Hentry Hnow. unfold isAllowed. rewrite Hentry.
  by rewrite (proj2 (Z.ltb_ge _ _) Hnow).
Qed.

Lemma sign_up_calls_cons s rest storage :
  sign_up_calls (s :: rest) storage
  = ((if calls_out (submit s storage).1 then 1 else 0)
     + sign_up_calls rest (submit s storage).2)%nat.
Proof.
  unfold sign_up_calls. simpl.
  destruct (submit s storage) as [effects storage']. simpl.
  destruct (submit_all rest storage') as [more final]. simpl.
  destruct (calls_out effects) eqn:Hc.
  - by rewrite filter_cons_True.
  - rewrite filter_cons_False; [done |]. by rewrite Hc.
Qed.

Lemma valid_submissions_cons s rest :
  valid_submissions (s :: rest)
  = ((if passes_validation (form s) then 1 else 0)
     + valid_submissions rest)%nat.
Proof.
  unfold valid_submissions.
  destruct (passes_validation (form s)) eqn:Hv.
  - by rewrite filter_cons_True.
  - rewrite filter_cons_False; [done |]. by rewrite Hv.
Qed.

(** Inside the window of an entry, [left] more attempts are let through. *)
Lemma sign_up_calls_in_window subs : forall storage entry (left : nat),
  storage !! "/auth/signup" = Some entry ->
  Forall (fun s => at_check s <= resetTime entry) subs ->
  Z.max 0 (3 - count entry) = Z.of_nat left ->
  sign_up_calls subs storage = Nat.min left (valid_submissions subs).
Proof.
  induction subs as [| s rest IH]; intros storage entry left Hentry Hin Hleft.
  - unfold sign_up_calls, valid_submissions. simpl. lia.
  - apply Forall_cons in Hin as [Hs Hrest].
    rewrite sign_up_calls_cons, valid_submissions_cons.
    destruct (passes_validation (form s)) eqn:Hv.
    + destruct (submit_valid s storage Hv) as (Hst & Hcall & _).
      rewrite Hcall, Hst.
      rewrite (isAllowed_in_window _ _ _ _ entry Hentry Hs).
      change (maxRequests configs_auth) with 3.
      destruct (count entry <? 3) eqn:Hc; simpl.
      * apply Z.ltb_lt in Hc.
        destruct left as [| left']; [lia |].
        rewrite (IH _ {| count := count entry + 1;
                         resetTime := resetTime entry |} left').
        -- done.
        -- by rewrite lookup_insert_eq.
        -- done.
        -- simpl. lia.
      * apply Z.ltb_ge in Hc.
        assert (left = 0%nat) as -> by lia.
        by rewrite (IH storage entry 0%nat).
    + destruct (submit_invalid s storage Hv) as (Hcall & Hst).
      rewrite Hcall, Hst. simpl.
      by apply (IH storage entry left).
Qed.

(** X14.  A submission that passes the two tests of the form, made when the
    limiter holds three attempts for a window that has not ended, is
    refused: the handler sets the error with the minutes left, rounded up,
    leaves the limiter as it is and makes no call.  The minutes are those
    the clock gives when it is read for the message, at most five minutes
    before the window ends. *)
Theorem fourth_attempt_is_refused s storage entry :
  passes_validation (form s) = true ->
  storage !! "/auth/signup" = Some entry ->
  at_check s <= resetTime entry ->
  resetTime entry - at_message s <= windowMs configs_auth ->
  3 <= count entry ->
  submit s storage
  = ([PreventDefault;
      SetError (TooManyAttempts
                  (minutes_up (Z.max 0 (resetTime entry - at_message s))))],
     storage).
Proof.
  intros Hv Hentry Hnow _ Hcount.
  destruct (submit_valid s storage Hv) as (Hst & _ & Hrefused).
  rewrite (isAllowed_in_window _ _ _ _ entry Hentry Hnow) in Hst, Hrefused.
  change (maxRequests configs_auth) with 3 in Hst, Hrefused.
  rewrite (proj2 (Z.ltb_ge _ _) Hcount) in Hst, Hrefused.
  simpl in Hst, Hrefused. specialize (Hrefused eq_refl).
  unfold getRemainingTime in Hrefused. rewrite Hentry in Hrefused.
  destruct (submit s storage) as [effects storage']. simpl in *.
  by subst.
Qed.

(** X15.  From a limiter that holds nothing for the sign-up, submissions
    made within five minutes, whatever their order in time, lead to as many
    calls of [supabase.auth.signUp] as there are submissions that pass the
    two tests of the form, and to three at most: submissions the form
    refuses use up no attempt, and an attempt is used up whether the sign-up
    then succeeds or not. *)
Theorem three_sign_up_calls_in_five_minutes subs storage t0 :
  storage !! "/auth/signup" = None ->
  Forall (fun s => t0 <= at_check s <= t0 + 300000) subs ->
  sign_up_calls subs storage = Nat.min 3 (valid_submissions subs).
Proof.
  intros Hnone Hin.
  induction subs as [| s rest IH].
  - unfold sign_up_calls, valid_submissions. simpl. lia.
  - apply Forall_cons in Hin as [Hs Hrest].
    rewrite sign_up_calls_cons, valid_submissions_cons.
    destruct (passes_validation (form s)) eqn:Hv.
    + destruct (submit_valid s storage Hv) as (Hst & Hcall & _).
      rewrite Hcall, Hst. unfold isAllowed. rewrite Hnone. simpl.
      rewrite (sign_up_calls_in_window rest _
                 {| count := 1;
                    resetTime := at_check s + windowMs configs_auth |}
                 2%nat).
      * done.
      * by rewrite lookup_insert_eq.
      * eapply Forall_impl; [exact Hrest |].
        simpl. intros s' Hs'. lia.
      * done.
    + destruct (submit_invalid s storage Hv) as (Hcall & Hst).
      rewrite Hcall, Hst. simpl. by apply IH.
Qed.

End Runs.

(** **** Concrete runs *)

Definition six_letters : FormData :=
  {| email := Js.of_string "ana@example.com";
     password := Js.of_string "abcdef";
     name := Js.of_string "Ana";
     confirmPassword := Js.of_string "abcdef" |}.

Definition at_time (f : FormData) (t : Z) : Submission :=
  {| form := f; at_check := t; at_message := t |}.

(** The server refuses every sign-up. *)
Definition refusing (e p n : list N) : SignUpResult :=
  SignUpError "Signups not allowed" false.

(** Three attempts were made in the window that ends at 300000. *)
Definition used_up : gmap string RateLimitEntry :=
  {[ "/auth/signup" := {| count := 3; resetTime := 300000 |} ]}.

Lemma fourth_attempt_is_refused_witness :
  submit (fun s => s) refusing (at_time six_letters 200000) used_up
  = ([PreventDefault; SetError (TooManyAttempts 2)], used_up).
Proof.
  apply (fourth_attempt_is_refused (fun s => s) refusing
           (at_time six_letters 200000) used_up
           {| count := 3; resetTime := 300000 |}).
  - reflexivity.
  - reflexivity.
  - simpl. lia.
  - simpl. lia.
  - simpl. lia.
Defined.

(** Five submissions in four minutes, one of them with a short password:
    three calls. *)
Definition a_busy_spell : list Submission :=
  [at_time six_letters 1000; at_time five_letters 2000;
   at_time six_letters 60000; at_time six_letters 120000;
   at_time six_letters 240000].

Lemma three_sign_up_calls_in_five_minutes_witness :
  sign_up_calls (fun s => s) refusing a_busy_spell ∅ = 3%nat.
Proof.
  apply (three_sign_up_calls_in_five_minutes (fun s => s) refusing
           a_busy_spell ∅ 0).
  - reflexivity.
  - unfold a_busy_spell.
    repeat (apply List.Forall_cons; [simpl; lia |]).
    apply List.Forall_nil.
Defined.

Example run_a_busy_spell :
  map calls_out (submit_all (fun s => s) refusing a_busy_spell ∅).1
  = [true; false; true; true; false].
Proof. by vm_compute. Qed.

End AuthRuns.


(** ** The upload component *)

Module ExpenseUpload.
Import Js.

(** [ExtractedData], the [data] of a successful analysis as the component
    declares it; an amount or an optional text that is [null] or missing is
    [None]. *)
Record ExtractedData := {
  vendor : list N;
  expense_date : list N;
  amount_gross : option number;
  tax_vat : option number;
  amount_net : option number;
  currency : list N;
  category_suggestion : option (list N);
  payment_method_guess : list N;
  project_code_guess : option (list N);
  notes : option (list N)
}.

Record Category := { cat_id : list N; cat_name : list N }.

Record ProjectCode := { proj_id : list N; proj_code : list N }.

Record File := { file_name : string; file_type : string; file_size : Z }.

(** The fields of the form, all of them strings. *)
Record FormData := {
  f_vendor : list N;
  f_expense_date : list N;
  f_amount_net : list N;
  f_tax_vat : list N;
  f_amount_gross : list N;
  f_currency : list N;
  f_category_id : list N;
  f_project_code_id : list N;
  f_payment_method : list N;
  f_notes : list N
}.

Definition empty_form : FormData :=
  {| f_vendor := []; f_expense_date := []; f_amount_net := [];
     f_tax_vat := []; f_amount_gross := []; f_currency := of_string "EUR";
     f_category_id := []; f_project_code_id := [];
     f_payment_method := []; f_notes := [] |}.

(** What a call of [saveExpense] holds on to across its [await]s: the
    [file], the [extractedData] and the [formData] of the render in which
    the button was clicked. *)
Record Draft := {
  d_file : option File;
  d_extractedData : option ExtractedData;
  d_formData : FormData
}.

(** What a call of [analyzeReceipt] holds on to across its [await]: the
    [categories] and the [projectCodes] of the render in which the button
    was clicked. *)
Record Lists := {
  l_categories : list Category;
  l_projectCodes : list ProjectCode
}.

(** The state of the component that the save depends on.  [analysis] holds
    the lists of the call of [analyzeReceipt] that waits for its answer, and
    [analyzing] is set exactly then; [saving] holds the draft of the call of
    [saveExpense] that is under way, and [uploading] is set exactly then. *)
Record State := {
  file : option File;
  extractedData : option ExtractedData;
  formData : FormData;
  categories : list Category;
  projectCodes : list ProjectCode;
  analysis : option Lists;
  saving : option Draft
}.

Definition analyzing (st : State) : bool :=
  bool_decide (is_Some (analysis st)).

Definition uploading (st : State) : bool := bool_decide (is_Some (saving st)).

Inductive Source := MANUAL | AI_EXTRACTED.

Inductive Status := PENDING | APPROVED | REJECTED.

(** The object handed to [insert] on the [expenses] table. *)
Record ExpenseData := {
  employee_id : string;
  e_vendor : list N;
  e_expense_date : list N;
  e_amount_net : number;
  e_tax_vat : number;
  e_amount_gross : number;
  e_currency : list N;
  e_category_id : list N;
  e_project_code_id : option (list N);
  e_payment_method : list N;
  e_notes : option (list N);
  receipt_file_id : option string;
  source : Source;
  status : Status
}.

(** What [supabase.functions.invoke] resolves to. *)
Inductive InvokeResult :=
| InvokeError
  (** [response.error] is set *)
| InvokeBody (success : bool) (data : option ExtractedData).

(** What the backend answers during a save: the session, the upload of the
    file, the insert of its row, the insert of the expense. *)
Record Backend := {
  session_user : option string;
  upload_path : option string;
  file_row_id : option string;
  expense_insert_ok : bool
}.

Inductive SaveOutcome :=
| Failed
  (** something threw before or at the insert *)
| Inserted (row : ExpenseData).

Inductive Field :=
| Vendor | ExpenseDate | AmountNet | TaxVat | AmountGross | Currency
| CategoryId | ProjectCodeId | PaymentMethod | Notes.

Definition set_field (fd : FormData) (field : Field) (value : list N)
  : FormData :=
  match field with
  | Vendor =>
      {| f_vendor := value; f_expense_date := f_expense_date fd;
         f_amount_net := f_amount_net fd; f_tax_vat := f_tax_vat fd;
         f_amount_gross := f_amount_gross fd; f_currency := f_currency fd;
         f_category_id := f_category_id fd;
         f_project_code_id := f_project_code_id fd;
         f_payment_method := f_payment_method fd; f_notes := f_notes fd |}
  | ExpenseDate =>
      {| f_vendor := f_vendor fd; f_expense_date := value;
         f_amount_net := f_amount_net fd; f_tax_vat := f_tax_vat fd;
         f_amount_gross := f_amount_gross fd; f_currency := f_currency fd;
         f_category_id := f_category_id fd;
         f_project_code_id := f_project_code_id fd;
         f_payment_method := f_payment_method fd; f_notes := f_notes fd |}
  | AmountNet =>
      {| f_vendor := f_vendor fd; f_expense_date := f_expense_date fd;
         f_amount_net := value; f_tax_vat := f_tax_vat fd;
         f_amount_gross := f_amount_gross fd; f_currency := f_currency fd;
         f_category_id := f_category_id fd;
         f_project_code_id := f_project_code_id fd;
         f_payment_method := f_payment_method fd; f_notes := f_notes fd |}
  | TaxVat =>
      {| f_vendor := f_vendor fd; f_expense_date := f_expense_date fd;
         f_amount_net := f_amount_net fd; f_tax_vat := value;
         f_amount_gross := f_amount_gross fd; f_currency := f_currency fd;
         f_category_id := f_category_id fd;
         f_project_code_id := f_project_code_id fd;
         f_payment_method := f_payment_method fd; f_notes := f_notes fd |}
  | AmountGross =>
      {| f_vendor := f_vendor fd; f_expense_date := f_expense_date fd;
         f_amount_net := f_amount_net fd; f_tax_vat := f_tax_vat fd;
         f_amount_gross := value; f_currency := f_currency fd;
         f_category_id := f_category_id fd;
         f_project_code_id := f_project_code_id fd;
         f_payment_method := f_payment_method fd; f_notes := f_notes fd |}
  | Currency =>
      {| f_vendor := f_vendor fd; f_expense_date := f_expense_date fd;
         f_amount_net := f_amount_net fd; f_tax_vat := f_tax_vat fd;
         f_amount_gross := f_amount_gross fd; f_currency := value;
         f_category_id := f_category_id fd;
         f_project_code_id := f_project_code_id fd;
         f_payment_method := f_payment_method fd; f_notes := f_notes fd |}
  | CategoryId =>
      {| f_vendor := f_vendor fd; f_expense_date := f_expense_date fd;
         f_amount_net := f_amount_net fd; f_tax_vat := f_tax_vat fd;
         f_amount_gross := f_amount_gross fd; f_currency := f_currency fd;
         f_category_id := value;
         f_project_code_id := f_project_code_id fd;
         f_payment_method := f_payment_method fd; f_notes := f_notes fd |}
  | ProjectCodeId =>
      {| f_vendor := f_vendor fd; f_expense_date := f_expense_date fd;
         f_amount_net := f_amount_net fd; f_tax_vat := f_tax_vat fd;
         f_amount_gross := f_amount_gross fd; f_currency := f_currency fd;
         f_category_id := f_category_id fd;
         f_project_code_id := value;
         f_payment_method := f_payment_method fd; f_notes := f_notes fd |}
  | PaymentMethod =>
      {| f_vendor := f_vendor fd; f_expense_date := f_expense_date fd;
         f_amount_net := f_amount_net fd; f_tax_vat := f_tax_vat fd;
         f_amount_gross := f_amount_gross fd; f_currency := f_currency fd;
         f_category_id := f_category_id fd;
         f_project_code_id := f_project_code_id fd;
         f_payment_method := value; f_notes := f_notes fd |}
  | Notes =>
      {| f_vendor := f_vendor fd; f_expense_date := f_expense_date fd;
         f_amount_net := f_amount_net fd; f_tax_vat := f_tax_vat fd;
         f_amount_gross := f_amount_gross fd; f_currency := f_currency fd;
         f_category_id := f_category_id fd;
         f_project_code_id := f_project_code_id fd;
         f_payment_method := f_payment_method fd; f_notes := value |}
  end.

Definition with_file (st : State) (f : option File) : State :=
  {| file := f; extractedData := extractedData st; formData := formData st;
     categories := categories st; projectCodes := projectCodes st;
     analysis := analysis st; saving := saving st |}.

Definition with_form (st : State) (fd : FormData) : State :=
  {| file := file st; extractedData := extractedData st; formData := fd;
     categories := categories st; projectCodes := projectCodes st;
     analysis := analysis st; saving := saving st |}.

Definition with_extracted (st : State) (d : option ExtractedData) : State :=
  {| file := file st; extractedData := d; formData := formData st;
     categories := categories st; projectCodes := projectCodes st;
     analysis := analysis st; saving := saving st |}.

Definition with_categories (st : State) (l : list Category) : State :=
  {| file := file st; extractedData := extractedData st;
     formData := formData st;
     categories := l; projectCodes := projectCodes st;
     analysis := analysis st; saving := saving st |}.

Definition with_projectCodes (st : State) (l : list ProjectCode) : State :=
  {| file := file st; extractedData := extractedData st;
     formData := formData st;
     categories := categories st; projectCodes := l;
     analysis := analysis st; saving := saving st |}.

Definition with_analysis (st : State) (a : option Lists) : State :=
  {| file := file st; extractedData := extractedData st;
     formData := formData st;
     categories := categories st; projectCodes := projectCodes st;
     analysis := a; saving := saving st |}.

Definition with_saving (st : State) (d : option Draft) : State :=
  {| file := file st; extractedData := extractedData st;
     formData := formData st;
     categories := categories st; projectCodes := projectCodes st;
     analysis := analysis st; saving := d |}.

(** [s || fallback] on a string *)
Definition or_text (s fallback : list N) : list N :=
  match s with [] => fallback | _ => s end.

Definition allowedTypes : list string :=
  ["image/jpeg"; "image/jpg"; "image/png"; "application/pdf"].

(** [handleFileSelect] *)
Definition handleFileSelect (st : State) (selectedFile : File) : State :=
  if negb (bool_decide (file_type selectedFile ∈ allowedTypes)) then st
  else if 10 * 1024 * 1024 <? file_size selectedFile then st
  else with_file st (Some selectedFile).

(** **** What the function answers, as the component gets it *)

(** A value written out as JSON and read back: a number that is not finite
    comes back as [null], and a negative zero as zero. *)
Definition through_json (v : JsVal) : JsVal :=
  match v with
  | VNum x =>
      if is_finite x then VNum (if is_zero x then zero else x) else VNull
  | _ => v
  end.

(** [v || ''] where the component expects a string: the string, the empty
    one for a value that is missing or falsy, and nothing the component is
    declared for when the value is of another type. *)
Definition a_text (v : JsVal) : option (list N) :=
  match v with
  | VStr s => Some s
  | _ => if truthy v then None else Some []
  end.

(** An amount, read with [v?.toString() || '']. *)
Definition an_amount (v : JsVal) : option (option number) :=
  match v with
  | VNum x => Some (Some x)
  | VUndefined | VNull => Some None
  | _ => None
  end.

(** The category, read with [v?.toLowerCase()]. *)
Definition a_category (v : JsVal) : option (option (list N)) :=
  match v with
  | VStr s => Some (Some s)
  | VUndefined | VNull => Some None
  | _ => None
  end.

(** The project code and the notes, read behind a test of their truth. *)
Definition an_optional_text (v : JsVal) : option (option (list N)) :=
  match v with
  | VStr (c :: s) => Some (Some (c :: s))
  | _ => if truthy v then None else Some None
  end.

(** The data of a response as the component reads them, when every field
    has the type the component declares for it. *)
Definition received (d : AnalyzeReceipt.AnalysisResult)
  : option ExtractedData :=
  v ← a_text (through_json (AnalyzeReceipt.vendor d));
  date ← a_text (through_json (AnalyzeReceipt.expense_date d));
  gross ← an_amount (through_json (AnalyzeReceipt.amount_gross d));
  vat ← an_amount (through_json (AnalyzeReceipt.tax_vat d));
  net ← an_amount (through_json (AnalyzeReceipt.amount_net d));
  cur ← a_text (through_json (AnalyzeReceipt.currency d));
  cat ← a_category (through_json (AnalyzeReceipt.category_suggestion d));
  pay ← a_text (through_json (AnalyzeReceipt.payment_method_guess d));
  proj ← an_optional_text
            (through_json (AnalyzeReceipt.project_code_guess d));
  nt ← an_optional_text (through_json (AnalyzeReceipt.notes d));
  Some {| vendor := v; expense_date := date; amount_gross := gross;
          tax_vat := vat; amount_net := net; currency := cur;
          category_suggestion := cat; payment_method_guess := pay;
          project_code_guess := proj; notes := nt |}.

(** An array has none of the fields. *)
Definition nothing_extracted : ExtractedData :=
  {| vendor := []; expense_date := []; amount_gross := None;
     tax_vat := None; amount_net := None; currency := [];
     category_suggestion := None; payment_method_guess := [];
     project_code_guess := None; notes := None |}.

(** What [supabase.functions.invoke] makes of a response of the function:
    an error when the status is not one of success, the parsed body
    otherwise. *)
Definition invoke (resp : AnalyzeReceipt.Response) : option InvokeResult :=
  if negb ((200 <=? AnalyzeReceipt.status resp)
           && (AnalyzeReceipt.status resp <? 300))
  then Some InvokeError
  else
    match AnalyzeReceipt.body resp with
    | AnalyzeReceipt.SuccessBody (AnalyzeReceipt.DObject d) =>
        data ← received d; Some (InvokeBody true (Some data))
    | AnalyzeReceipt.SuccessBody (AnalyzeReceipt.DArray _) =>
        Some (InvokeBody true (Some nothing_extracted))
    | _ => Some (InvokeBody false None)
    end.

Section Component.

(** Conversions of the runtime. *)
Variable parseFloat : list N -> number.
Variable NumberToString : number -> list N.
Variable toLowerCase : list N -> list N.

(** [x?.toString() || ''] on an amount *)
Definition amount_text (x : option number) : list N :=
  match x with
  | Some n => NumberToString n
  | None => []
  end.

(** [parseFloat(s) || 0] *)
Definition parseFloat_or_0 (s : list N) : number :=
  if truthy (VNum (parseFloat s)) then parseFloat s else zero.

(** The state updates of the success branch of [analyzeReceipt], with the
    lists the call holds on to. *)
Definition prefill (lists : Lists) (st : State) (data : ExtractedData)
  : State :=
  let fd := formData st in
  let filled :=
    {| f_vendor := vendor data;
       f_expense_date := expense_date data;
       f_amount_net := amount_text (amount_net data);
       f_tax_vat := amount_text (tax_vat data);
       f_amount_gross := amount_text (amount_gross data);
       f_currency := or_text (currency data) (of_string "EUR");
       f_category_id := f_category_id fd;
       f_project_code_id := f_project_code_id fd;
       f_payment_method := payment_method_guess data;
       f_notes := default [] (notes data) |} in
  let matchingCategory :=
    match category_suggestion data with
    | Some suggestion =>
        List.find (fun cat => bool_decide (toLowerCase (cat_name cat)
                                           = toLowerCase suggestion))
          (l_categories lists)
    | None => None
    end in
  let with_category :=
    match matchingCategory with
    | Some cat => set_field filled CategoryId (cat_id cat)
    | None => filled
    end in
  let matchingProject :=
    match project_code_guess data with
    | Some (c :: guess) =>
        List.find (fun proj => bool_decide (toLowerCase (proj_code proj)
                                            = toLowerCase (c :: guess)))
          (l_projectCodes lists)
    | _ => None
    end in
  let with_project :=
    match matchingProject with
    | Some proj => set_field with_category ProjectCodeId (proj_id proj)
    | None => with_category
    end in
  with_form (with_extracted st (Some data)) with_project.

(** [analyzeReceipt] up to its [await]: nothing happens without a file;
    with one, the function is invoked and the component waits. *)
Definition analyzeReceipt (st : State) : State :=
  match file st with
  | None => st
  | Some _ =>
      with_analysis st
        (Some {| l_categories := categories st;
                 l_projectCodes := projectCodes st |})
  end.

(** [analyzeReceipt] from the answer on, given what the invocation resolved
    to.  The [file] tested before the [await] is not looked at again. *)
Definition analyzeReceipt_resumed (st : State) (lists : Lists)
    (response : InvokeResult) : State :=
  with_analysis
    match response with
    | InvokeBody true (Some data) => prefill lists st data
    | _ => st
    end
    None.

(** [validateForm]: whether no error was recorded. *)
Definition validateForm (fd : FormData) : bool :=
  let gross := parseFloat_or_0 (f_amount_gross fd) in
  let net := parseFloat_or_0 (f_amount_net fd) in
  let vat := parseFloat_or_0 (f_tax_vat fd) in
  negb (bool_decide (trim (f_vendor fd) = []))
  && negb (bool_decide (f_expense_date fd = []))
  && negb (bool_decide (f_amount_gross fd = [])
           || le (parseFloat (f_amount_gross fd)) zero)
  && negb (bool_decide (f_category_id fd = []))
  && negb (bool_decide (f_payment_method fd = []))
  && negb (gt (abs (sub (add net vat) gross)) cent).

(** The [expenseData] object of [saveExpense], built from what the call
    holds on to. *)
Definition expenseData (draft : Draft) (user : string)
    (fileId : option string) : ExpenseData :=
  let fd := d_formData draft in
  {| employee_id := user;
     e_vendor := trim (f_vendor fd);
     e_expense_date := f_expense_date fd;
     e_amount_net := parseFloat_or_0 (f_amount_net fd);
     e_tax_vat := parseFloat_or_0 (f_tax_vat fd);
     e_amount_gross := parseFloat (f_amount_gross fd);
     e_currency := f_currency fd;
     e_category_id := f_category_id fd;
     e_project_code_id :=
       if bool_decide (f_project_code_id fd = [])
          || bool_decide (f_project_code_id fd = of_string "none")
       then None else Some (f_project_code_id fd);
     e_payment_method := f_payment_method fd;
     e_notes := match f_notes fd with [] => None | s => Some s end;
     receipt_file_id := fileId;
     source := match d_extractedData draft with
               | Some _ => AI_EXTRACTED
               | None => MANUAL
               end;
     status := PENDING |}.

(** [saveExpense] up to its first [await]: a form that does not validate
    stops it; otherwise the save is under way, with the state of this
    render. *)
Definition saveExpense (st : State) : State :=
  if negb (validateForm (formData st)) then st
  else with_saving st
         (Some {| d_file := file st; d_extractedData := extractedData st;
                  d_formData := formData st |}).

(** What becomes of a save that is under way. *)
Definition save_outcome (draft : Draft) (backend : Backend) : SaveOutcome :=
  match session_user backend with
  | None => Failed
  | Some user =>
      let stored :=
        match d_file draft with
        | None => Some None
        | Some _ =>
            match upload_path backend with
            | None => None
            | Some _ =>
                match file_row_id backend with
                | None => None
                | Some id => Some (Some id)
                end
            end
        end in
      match stored with
      | None => Failed
      | Some fileId =>
          if expense_insert_ok backend then
            Inserted (expenseData draft user fileId)
          else Failed
      end
  end.

(** The state updates after a successful insert. *)
Definition reset (st : State) : State :=
  {| file := None; extractedData := None; formData := empty_form;
     categories := categories st; projectCodes := projectCodes st;
     analysis := analysis st; saving := saving st |}.

(** [saveExpense] from the answers of the backend on. *)
Definition saveExpense_resumed (st : State) (draft : Draft)
    (backend : Backend) : State :=
  with_saving
    match save_outcome draft backend with
    | Inserted _ => reset st
    | Failed => st
    end
    None.

(** What the user and the backend do to the component.  A button that is
    not rendered or is disabled cannot be clicked. *)
Inductive Event :=
| CategoriesLoaded (l : list Category)
| ProjectCodesLoaded (l : list ProjectCode)
| SelectFile (f : File)
| ClickAnalyze
  (** the button "Analizar con IA", rendered with a file and disabled while
      analyzing *)
| AnalysisArrives (response : InvokeResult)
| RemoveFile
  (** the button "Quitar", rendered with a file *)
| ClearForm
  (** the button "Limpiar Formulario" *)
| Edit (field : Field) (value : list N)
| ClickSave
  (** the button "Guardar Gasto", disabled while uploading *)
| SaveSettles (backend : Backend).

Definition step (st : State) (ev : Event) : State :=
  match ev with
  | CategoriesLoaded l => with_categories st l
  | ProjectCodesLoaded l => with_projectCodes st l
  | SelectFile f => handleFileSelect st f
  | ClickAnalyze => if analyzing st then st else analyzeReceipt st
  | AnalysisArrives response =>
      match analysis st with
      | Some lists => analyzeReceipt_resumed st lists response
      | None => st
      end
  | RemoveFile =>
      match file st with
      | Some _ => with_extracted (with_file st None) None
      | None => st
      end
  | ClearForm => with_extracted (with_form st empty_form) None
  | Edit field value => with_form st (set_field (formData st) field value)
  | ClickSave => if uploading st then st else saveExpense st
  | SaveSettles backend =>
      match saving st with
      | Some draft => saveExpense_resumed st draft backend
      | None => st
      end
  end.

(** The row an event inserts into [expenses], if it inserts one. *)
Definition inserted (st : State) (ev : Event) : option ExpenseData :=
  match ev with
  | SaveSettles backend =>
      match saving st with
      | Some draft =>
          match save_outcome draft backend with
          | Inserted row => Some row
          | Failed => None
          end
      | None => None
      end
  | _ => None
  end.

Definition after (st : State) (events : list Event) : State :=
  fold_left step events st.

(** The rows inserted in the course of a run. *)
Fixpoint rows (st : State) (events : list Event) : list ExpenseData :=
  match events with
  | [] => []
  | ev :: rest =>
      match inserted st ev with
      | Some row => row :: rows (step st ev) rest
      | None => rows (step st ev) rest
      end
  end.

Lemma prefill_fields lists st data :
  extractedData (prefill lists st data) = Some data
  /\ file (prefill lists st data) = file st
  /\ saving (prefill lists st data) = saving st
  /\ analysis (prefill lists st data) = analysis st.
Proof. done. Qed.

Lemma prefill_amounts lists st data :
  f_amount_net (formData (prefill lists st data))
  = amount_text (amount_net data)
  /\ f_tax_vat (formData (prefill lists st data))
     = amount_text (tax_vat data)
  /\ f_amount_gross (formData (prefill lists st data))
     = amount_text (amount_gross data).
Proof.
  unfold prefill.
  destruct (match category_suggestion data with
            | Some _ => _ | None => _ end);
    destruct (match project_code_guess data with
              | Some (_ :: _) => _ | _ => _ end); done.
Qed.

Lemma parseFloat_or_0_not_nan s : is_nan (parseFloat_or_0 s) = false.
Proof.
  unfold parseFloat_or_0. simpl.
  by destruct (parseFloat s).
Qed.

(** An amount that came through is finite, and a zero is the positive one;
    it is the amount of the response unless that was a negative zero. *)
Lemma an_amount_through_json v n :
  an_amount (through_json v) = Some (Some n) ->
  is_finite n = true
  /\ (is_zero n = true -> n = zero)
  /\ (v = VNum n \/ exists s, v = VNum (S754_zero s) /\ n = zero).
Proof.
  destruct v as [| | b | x | s | text]; try done. simpl.
  destruct x as [sx | sx | | sx mx ex]; simpl; try done;
    intros H; inversion H; subst.
  - split; [done |]. split; [done |]. right. by exists sx.
  - split; [done |]. split; [done |]. by left.
Qed.

Lemma received_amounts d data :
  received d = Some data ->
  an_amount (through_json (AnalyzeReceipt.amount_gross d))
  = Some (amount_gross data)
  /\ an_amount (through_json (AnalyzeReceipt.tax_vat d))
     = Some (tax_vat data)
  /\ an_amount (through_json (AnalyzeReceipt.amount_net d))
     = Some (amount_net data).
Proof.
  unfold received. intros H.
  destruct (a_text (through_json (AnalyzeReceipt.vendor d))); [| done].
  destruct (a_text (through_json (AnalyzeReceipt.expense_date d))); [| done].
  destruct (an_amount (through_json (AnalyzeReceipt.amount_gross d)));
    [| done].
  destruct (an_amount (through_json (AnalyzeReceipt.tax_vat d))); [| done].
  destruct (an_amount (through_json (AnalyzeReceipt.amount_net d)));
    [| done].
  destruct (a_text (through_json (AnalyzeReceipt.currency d))); [| done].
  destruct (a_category
              (through_json (AnalyzeReceipt.category_suggestion d)));
    [| done].
  destruct (a_text (through_json (AnalyzeReceipt.payment_method_guess d)));
    [| done].
  destruct (an_optional_text
              (through_json (AnalyzeReceipt.project_code_guess d)));
    [| done].
  destruct (an_optional_text (through_json (AnalyzeReceipt.notes d)));
    [| done].
  simpl in H. by inversion H.
Qed.

Lemma inserted_row st ev row :
  inserted st ev = Some row ->
  exists backend draft user fileId,
    ev = SaveSettles backend /\ saving st = Some draft
    /\ row = expenseData draft user fileId.
Proof.
  destruct ev as [l | l | f | | response | | | field value | | backend];
    try done.
  simpl. destruct (saving st) as [draft |]; [| done].
  unfold save_outcome.
  destruct (session_user backend) as [user |]; [| done].
  destruct (d_file draft) as [f |].
  - destruct (upload_path backend); [| done].
    destruct (file_row_id backend) as [id |]; [| done].
    destruct (expense_insert_ok backend); [| done].
    intros H; inversion H; subst. by exists backend, draft, user, (Some id).
  - destruct (expense_insert_ok backend); [| done].
    intros H; inversion H; subst. by exists backend, draft, user, None.
Qed.

(** A click of "Guardar Gasto" with no save under way starts one exactly
    when the form validates, with the state as it is. *)
Lemma click_save st :
  saving st = None ->
  (validateForm (formData st) = true
   /\ saving (step st ClickSave)
      = Some {| d_file := file st; d_extractedData := extractedData st;
                d_formData := formData st |})
  \/ (validateForm (formData st) = false /\ step st ClickSave = st).
Proof.
  intros Hs. simpl. unfold uploading, saveExpense. rewrite Hs.
  rewrite bool_decide_eq_false_2 by (by intros [? ?]).
  destruct (validateForm (formData st)); simpl; [by left | by right].
Qed.

(** The receipt of the example scenario, from the answer of the function to
    the row inserted: the function answers an object with a gross amount of
    100 and a VAT of 0, the component gets it while it waits for it, and the
    form is saved as the answer filled it. *)
Lemma receipt_of_100_saved
    (StringToNumber : list N -> number)
    (JSON_parse : list N -> option AnalyzeReceipt.Parsed)
    (fetch : AnalyzeReceipt.GeminiRequest -> AnalyzeReceipt.FetchResult)
    (today : list N) (arguments_fit : Z -> bool)
    geminiApiKey req resp log d data st lists backend row :
  AnalyzeReceipt.serve StringToNumber JSON_parse fetch today arguments_fit
    geminiApiKey req = (resp, log) ->
  AnalyzeReceipt.body resp
  = AnalyzeReceipt.SuccessBody (AnalyzeReceipt.DObject d) ->
  AnalyzeReceipt.amount_gross d = VNum (of_Z 100) ->
  AnalyzeReceipt.tax_vat d = VNum (of_Z 0) ->
  invoke resp = Some (InvokeBody true (Some data)) ->
  parseFloat (NumberToString (of_Z 100)) = of_Z 100 ->
  parseFloat (NumberToString zero) = zero ->
  (forall n, amount_net data = Some n -> parseFloat (NumberToString n) = n) ->
  is_nan (parseFloat []) = true ->
  analysis st = Some lists -> saving st = None ->
  inserted
    (after st [AnalysisArrives (InvokeBody true (Some data)); ClickSave])
    (SaveSettles backend) = Some row ->
  e_amount_gross row = of_Z 100
  /\ e_tax_vat row = zero
  /\ amount_net data = Some (e_amount_net row)
  /\ le (abs (sub (add (e_amount_net row) zero) (of_Z 100))) cent = true
  /\ (exists key file http_status text r,
        fetch (AnalyzeReceipt.request_for key file)
        = AnalyzeReceipt.HttpResponse true http_status
            (AnalyzeReceipt.Candidates (Some text))
        /\ JSON_parse text = Some (AnalyzeReceipt.PObject r)
        /\ (gt (AnalyzeReceipt.difference StringToNumber r) cent = true ->
            e_amount_net row = of_Z 100)
        /\ (gt (AnalyzeReceipt.difference StringToNumber r) cent = false ->
            AnalyzeReceipt.amount_net r = VNum (e_amount_net row)))
  /\ source row = AI_EXTRACTED
  /\ status row = PENDING.
Proof.
  intros Hserve Hbody Hgross Hvat Hinvoke H100 H0 Hround Hempty
    Hanalysis Hsaving Hrow.
  (* what the component got *)
  destruct (AnalyzeReceipt.serve_success _ _ _ _ _ _ _ _ _ _ Hserve Hbody)
    as (key & file0 & http_status & text & parsed
        & _ & _ & _ & Hfetch & Hparse & (r & -> & Hpost) & Hresp & _).
  assert (Hreceived : received d = Some data).
  { unfold invoke in Hinvoke. rewrite Hresp in Hinvoke. simpl in Hinvoke.
    destruct (received d) as [data' |]; simpl in Hinvoke; [| done].
    by inversion Hinvoke. }
  destruct (received_amounts d data Hreceived) as (Hg & Hv & Hn).
  assert (Hg' : amount_gross data = Some (of_Z 100)).
  { rewrite Hgross in Hg.
    change (an_amount (through_json (VNum (of_Z 100))))
      with (Some (Some (of_Z 100))) in Hg.
    congruence. }
  assert (Hv' : tax_vat data = Some zero).
  { rewrite Hvat in Hv.
    change (an_amount (through_json (VNum (of_Z 0))))
      with (Some (Some zero)) in Hv.
    congruence. }
  clear Hg Hv.
  (* the run of the component *)
  unfold after in Hrow. simpl fold_left in Hrow.
  rewrite Hanalysis in Hrow.
  remember (analyzeReceipt_resumed st lists (InvokeBody true (Some data)))
    as st1 eqn:Hst1.
  assert (Hs1 : saving st1 = None) by (by subst st1).
  assert (He1 : extractedData st1 = Some data) by (by subst st1).
  destruct (prefill_amounts lists st data) as (Hfn & Hfv & Hfg).
  assert (Hform1 : formData st1 = formData (prefill lists st data))
    by (by subst st1).
  clear Hst1.
  destruct (click_save st1 Hs1) as [[Hvalid Hdraft] | [_ Hsame]].
  2: { apply inserted_row in Hrow
         as (backend' & draft & user & fileId & _ & Hsome & _).
       change (if uploading st1 then st1 else saveExpense st1)
         with (step st1 ClickSave) in Hsome.
       rewrite Hsame, Hs1 in Hsome. done. }
  apply inserted_row in Hrow
    as (backend' & draft & user & fileId & _ & Hsome & ->).
  change (if uploading st1 then st1 else saveExpense st1)
    with (step st1 ClickSave) in Hsome.
  rewrite Hdraft in Hsome. inversion Hsome; subst draft. clear Hsome.
  unfold expenseData. cbn [d_formData d_extractedData e_amount_gross
    e_tax_vat e_amount_net source status].
  rewrite He1, Hform1, Hfn, Hfv, Hfg, Hg', Hv'.
  cbn [amount_text].
  (* gross amount and VAT *)
  assert (Hgross_row : parseFloat_or_0 (NumberToString (of_Z 100)) = of_Z 100).
  { unfold parseFloat_or_0. by rewrite H100. }
  assert (Hvat_row : parseFloat_or_0 (NumberToString zero) = zero).
  { unfold parseFloat_or_0. by rewrite H0. }
  rewrite Hvat_row, H100.
  (* the check of the form *)
  unfold validateForm in Hvalid.
  rewrite Hform1, Hfn, Hfv, Hfg, Hg', Hv' in Hvalid.
  cbn [amount_text] in Hvalid.
  rewrite Hgross_row, Hvat_row in Hvalid.
  apply andb_true_iff in Hvalid as [_ Hcheck].
  apply negb_true_iff in Hcheck.
  set (net := parseFloat_or_0 (amount_text (amount_net data))) in *.
  assert (Hle : le (abs (sub (add net zero) (of_Z 100))) cent = true).
  { apply not_gt_le; [done | | done].
    rewrite abs_not_nan. apply sub_not_nan; [| done].
    apply add_not_nan; [apply parseFloat_or_0_not_nan | done]. }
  (* the net amount *)
  assert (Hnet : amount_net data = Some net).
  { destruct (amount_net data) as [n |] eqn:Hdata.
    - destruct (an_amount_through_json _ n Hn) as (Hfin & Hzero & _).
      f_equal. subst net. cbn [amount_text]. unfold parseFloat_or_0.
      rewrite (Hround n eq_refl). simpl.
      destruct n as [[|] | | |]; try done.
      by specialize (Hzero eq_refl).
    - exfalso. subst net. cbn [amount_text] in Hle.
      unfold parseFloat_or_0 in Hle. simpl in Hle.
      rewrite Hempty in Hle. done. }
  split; [done |]. split; [done |]. split; [done |]. split; [done |].
  split; [| done].
  exists key, file0, http_status, text, r.
  split; [done |]. split; [done |].
  apply AnalyzeReceipt.postProcess_next in Hpost as (Hgr & Hvr & Hnr & _).
  rewrite AnalyzeReceipt.coherence_net in Hnr.
  rewrite <- Hgr, <- Hvr, Hgross, Hvat in Hnr.
  rewrite Hnet in Hn.
  destruct (an_amount_through_json _ net Hn) as (_ & _ & Hval).
  assert (Hnz : is_zero net = false).
  { destruct net as [s | | |]; try done. by destruct s. }
  split; intros Hgt; rewrite Hgt in Hnr.
  - destruct Hval as [Hval | (s & Hval & ->)]; [| done].
    rewrite Hnr in Hval. by inversion Hval.
  - destruct Hval as [Hval | (s & Hval & ->)]; [| done].
    by rewrite <- Hnr.
Qed.

(** C8, as the code has it.  A row is inserted when a save that is under
    way settles, with status PENDING, and with source AI_EXTRACTED exactly
    when [extractedData] was set in the state in which the save was clicked,
    MANUAL otherwise: the save holds on to the state of the click of
    "Guardar Gasto", which starts a save when none is under way and the form
    validates.  [extractedData] is set by the arrival of a successful
    analysis while the component waits for one, unset by "Quitar", by
    "Limpiar Formulario" and by a save that settles with an insert, and left
    alone by every other event.  The component waits for an analysis from a
    click of "Analizar con IA" with a file selected, until the answer
    arrives.  In particular, when the function answers an object with a
    gross amount of 100 and a VAT of 0, the component gets it while it waits
    for it and the form is saved as filled, the row inserted has gross 100,
    VAT 0, the net amount of the answer, which is within 0.01 of 100 and is
    100 when the function recomputed it, source AI_EXTRACTED and status
    PENDING; the numbers are taken to read back from their text as
    themselves, and the empty text as no number. *)
Theorem inserted_rows_are_pending :
  (forall st ev row,
     inserted st ev = Some row ->
     exists backend draft,
       ev = SaveSettles backend /\ saving st = Some draft
       /\ status row = PENDING
       /\ (source row = AI_EXTRACTED <-> is_Some (d_extractedData draft))
       /\ (source row = MANUAL <-> d_extractedData draft = None))
  /\ (forall st ev draft,
        saving (step st ev) = Some draft ->
        saving st = Some draft
        \/ (ev = ClickSave /\ saving st = None
            /\ validateForm (formData st) = true
            /\ d_file draft = file st
            /\ d_extractedData draft = extractedData st
            /\ d_formData draft = formData st))
  /\ (forall st ev,
        is_Some (extractedData (step st ev))
        <-> match ev with
            | AnalysisArrives (InvokeBody true (Some _)) =>
                is_Some (analysis st) \/ is_Some (extractedData st)
            | RemoveFile => file st = None /\ is_Some (extractedData st)
            | ClearForm => False
            | SaveSettles backend =>
                is_Some (extractedData st)
                /\ inserted st (SaveSettles backend) = None
            | _ => is_Some (extractedData st)
            end)
  /\ (forall st ev,
        is_Some (analysis (step st ev))
        <-> match ev with
            | ClickAnalyze => is_Some (analysis st) \/ is_Some (file st)
            | AnalysisArrives _ => False
            | _ => is_Some (analysis st)
            end)
  /\ (forall StringToNumber JSON_parse fetch today arguments_fit
        geminiApiKey req resp log d data st lists backend row,
        AnalyzeReceipt.serve StringToNumber JSON_parse fetch today
          arguments_fit geminiApiKey req = (resp, log) ->
        AnalyzeReceipt.body resp
        = AnalyzeReceipt.SuccessBody (AnalyzeReceipt.DObject d) ->
        AnalyzeReceipt.amount_gross d = VNum (of_Z 100) ->
        AnalyzeReceipt.tax_vat d = VNum (of_Z 0) ->
        invoke resp = Some (InvokeBody true (Some data)) ->
        parseFloat (NumberToString (of_Z 100)) = of_Z 100 ->
        parseFloat (NumberToString zero) = zero ->
        (forall n, amount_net data = Some n ->
                   parseFloat (NumberToString n) = n) ->
        is_nan (parseFloat []) = true ->
        analysis st = Some lists -> saving st = None ->
        inserted
          (after st
             [AnalysisArrives (InvokeBody true (Some data)); ClickSave])
          (SaveSettles backend) = Some row ->
        e_amount_gross row = of_Z 100
        /\ e_tax_vat row = zero
        /\ amount_net data = Some (e_amount_net row)
        /\ le (abs (sub (add (e_amount_net row) zero) (of_Z 100))) cent
           = true
        /\ (exists key file http_status text r,
              fetch (AnalyzeReceipt.request_for key file)
              = AnalyzeReceipt.HttpResponse true http_status
                  (AnalyzeReceipt.Candidates (Some text))
              /\ JSON_parse text = Some (AnalyzeReceipt.PObject r)
              /\ (gt (AnalyzeReceipt.difference StringToNumber r) cent
                  = true ->
                  e_amount_net row = of_Z 100)
              /\ (gt (AnalyzeReceipt.difference StringToNumber r) cent
                  = false ->
                  AnalyzeReceipt.amount_net r = VNum (e_amount_net row)))
        /\ source row = AI_EXTRACTED
        /\ status row = PENDING).
Proof.
  split; [| split; [| split; [| split]]].
  - intros st ev row Hrow.
    apply inserted_row in Hrow
      as (backend & draft & user & fileId & -> & Hsaving & ->).
    exists backend, draft. split; [done |]. split; [done |].
    simpl. destruct (d_extractedData draft) as [d |].
    + split; [done |]. split; split; try done; try (intros _; by eexists).
    + split; [done |]. split; split; try done; try (by intros [? ?]).
  - intros st ev draft.
    destruct ev as [l | l | f | | response | | | field value | | backend];
      simpl; auto.
    + unfold handleFileSelect.
      destruct (negb _); [auto |]. destruct (_ <? _); auto.
    + unfold analyzeReceipt.
      destruct (analyzing st); [auto |]. destruct (file st); auto.
    + destruct (analysis st) as [lists |]; [| auto].
      destruct response as [| [|] [data |]]; auto.
    + destruct (file st); auto.
    + unfold uploading, saveExpense.
      destruct (saving st) as [draft0 |] eqn:Hsaving.
      * rewrite bool_decide_eq_true_2 by (by eexists). rewrite Hsaving. auto.
      * rewrite bool_decide_eq_false_2 by (by intros [? ?]).
        destruct (validateForm (formData st)) eqn:Hvalid; simpl.
        -- intros H. inversion H; subst. right. done.
        -- rewrite Hsaving. done.
    + destruct (saving st) as [draft0 |] eqn:Hsaving; [| rewrite Hsaving; auto].
      unfold saveExpense_resumed. simpl. intros H. discriminate.
  - intros st ev.
    destruct ev as [l | l | f | | response | | | field value | | backend];
      simpl; try done.
    + unfold handleFileSelect.
      destruct (negb _); [done |]. by destruct (_ <? _).
    + unfold analyzeReceipt.
      destruct (analyzing st); [done |]. by destruct (file st).
    + destruct (analysis st) as [lists |].
      * destruct response as [| [|] [data |]]; simpl; try done.
        split; [intros _; left; by eexists | intros _; by eexists].
      * destruct response as [| [|] [data |]]; simpl; try done.
        split; [by right | intros [[? ?] | ?]; done].
    + destruct (file st) as [f |]; simpl.
      * split; [by intros [? ?] | by intros [? _]].
      * split; [by split | by intros [_ ?]].
    + unfold uploading, saveExpense.
      destruct (bool_decide _); [done |].
      by destruct (negb (validateForm (formData st))).
    + destruct (saving st) as [draft |]; [| by split; [| intros [? _]]].
      unfold saveExpense_resumed.
      destruct (save_outcome draft backend) as [| row]; simpl.
      * split; [done | by intros [? _]].
      * split; [by intros [? ?] | by intros [_ ?]].
  - intros st ev.
    destruct ev as [l | l | f | | response | | | field value | | backend];
      simpl; try done.
    + unfold handleFileSelect.
      destruct (negb _); [done |]. by destruct (_ <? _).
    + unfold analyzing, analyzeReceipt.
      destruct (analysis st) as [lists |] eqn:Hanalysis.
      * rewrite bool_decide_eq_true_2 by (by eexists). rewrite Hanalysis.
        split; [by left | intros _; by eexists].
      * rewrite bool_decide_eq_false_2 by (by intros [? ?]).
        destruct (file st) as [f |]; simpl.
        -- split; [intros _; right; by eexists | intros _; by eexists].
        -- rewrite Hanalysis.
           split; [by intros [? ?] | intros [[? ?] | [? ?]]; done].
    + destruct (analysis st) as [lists |] eqn:Hanalysis.
      * unfold analyzeReceipt_resumed. simpl. split; [by intros [? ?] | done].
      * rewrite Hanalysis. split; [by intros [? ?] | done].
    + by destruct (file st).
    + unfold uploading, saveExpense.
      destruct (bool_decide _); [done |].
      by destruct (negb (validateForm (formData st))).
    + destruct (saving st) as [draft |]; [| done].
      unfold saveExpense_resumed.
      by destruct (save_outcome draft backend).
  - intros. by eapply receipt_of_100_saved.
Qed.

End Component.

(** **** A receipt of 100.00 *)

Definition ticket : File :=
  {| file_name := "ticket.jpg"; file_type := "image/jpeg"; file_size := 4 |}.

(** What the component gets for [AnalyzeReceipt.receipt_of_100]. *)
Definition lunch (net : number) : ExtractedData :=
  {| vendor := of_string "Bar Pepe";
     expense_date := of_string "2024-05-01";
     amount_gross := Some (of_Z 100);
     tax_vat := Some zero;
     amount_net := Some net;
     currency := of_string "EUR";
     category_suggestion := Some (of_string "Dietas");
     payment_method_guess := of_string "CARD";
     project_code_guess := None;
     notes := None |}.

Definition mounted : State :=
  {| file := None; extractedData := None; formData := empty_form;
     categories := [ {| cat_id := of_string "c-7";
                        cat_name := of_string "Dietas" |} ];
     projectCodes := [];
     analysis := None; saving := None |}.

Definition backend_up : Backend :=
  {| session_user := Some "u-1"; upload_path := Some "receipts/u-1/1.jpg";
     file_row_id := Some "f-1"; expense_insert_ok := true |}.

(** The three numbers of the examples and their texts; nothing else is
    asked of these conversions below. *)
Definition text_of (x : number) : list N :=
  if SFeqb x (of_Z 100) then of_string "100"
  else if is_zero x then of_string "0"
  else if SFeqb x (decimal 99995 3) then of_string "99.995"
  else if is_nan x then of_string "NaN"
  else of_string "?".

Definition number_of (s : list N) : number :=
  if bool_decide (s = of_string "100") then of_Z 100
  else if bool_decide (s = of_string "0") then zero
  else if bool_decide (s = of_string "99.995") then decimal 99995 3
  else NaN.

Definition same_case (s : list N) : list N := s.

Definition lunch_row (net : number) (src : Source) (fileId : option string)
  : ExpenseData :=
  {| employee_id := "u-1";
     e_vendor := of_string "Bar Pepe";
     e_expense_date := of_string "2024-05-01";
     e_amount_net := net;
     e_tax_vat := zero;
     e_amount_gross := of_Z 100;
     e_currency := of_string "EUR";
     e_category_id := of_string "c-7";
     e_project_code_id := None;
     e_payment_method := of_string "CARD";
     e_notes := None;
     receipt_file_id := fileId;
     source := src;
     status := PENDING |}.

(** The upload of the receipt, from the selection of the file to the
    arrival of the answer. *)
Definition analysed (net : number) : list Event :=
  [SelectFile ticket; ClickAnalyze;
   AnalysisArrives (InvokeBody true (Some (lunch net)))].

Example lunch_received :
  invoke (AnalyzeReceipt.run_with
            (AnalyzeReceipt.receipt_of_100 (VNum (of_Z 82)))
            AnalyzeReceipt.ticket).1
  = Some (InvokeBody true (Some (lunch (of_Z 100))))
  /\ invoke (AnalyzeReceipt.run_with
               (AnalyzeReceipt.receipt_of_100 (VNum (decimal 99995 3)))
               AnalyzeReceipt.ticket).1
     = Some (InvokeBody true (Some (lunch (decimal 99995 3)))).
Proof. split; reflexivity. Qed.

Example lunch_saved :
  rows number_of text_of same_case mounted
    (analysed (of_Z 100) ++ [ClickSave; SaveSettles backend_up])
  = [lunch_row (of_Z 100) AI_EXTRACTED (Some "f-1")].
Proof. reflexivity. Qed.

(** The file is removed while the component waits for its analysis: the
    answer still fills the form and sets [extractedData]. *)
Example analysis_outlives_its_file :
  file (after number_of text_of same_case mounted
          [SelectFile ticket; ClickAnalyze; RemoveFile;
           AnalysisArrives (InvokeBody true (Some (lunch (of_Z 100))))])
  = None
  /\ extractedData
       (after number_of text_of same_case mounted
          [SelectFile ticket; ClickAnalyze; RemoveFile;
           AnalysisArrives (InvokeBody true (Some (lunch (of_Z 100))))])
     = Some (lunch (of_Z 100)).
Proof. split; reflexivity. Qed.

(** C8, as stated, fails, and in two ways.  The analysis filled the form,
    the file was then removed, the form still holds what the analysis put
    there, and the row is inserted as MANUAL.  And for a gross amount of
    100 and a VAT of 0 the function leaves a net amount of 99.995 as the
    model gave it, and that is the net amount of the row inserted. *)
Lemma saved_as_manual_and_with_another_net :
  (formData (after number_of text_of same_case mounted
               (analysed (of_Z 100) ++ [RemoveFile]))
   = formData (after number_of text_of same_case mounted (analysed (of_Z 100)))
   /\ f_vendor
        (formData (after number_of text_of same_case mounted
                     (analysed (of_Z 100) ++ [RemoveFile])))
      = vendor (lunch (of_Z 100))
   /\ rows number_of text_of same_case mounted
        (analysed (of_Z 100)
         ++ [RemoveFile; ClickSave; SaveSettles backend_up])
      = [lunch_row (of_Z 100) MANUAL None])
  /\ (invoke (AnalyzeReceipt.run_with
                (AnalyzeReceipt.receipt_of_100 (VNum (decimal 99995 3)))
                AnalyzeReceipt.ticket).1
      = Some (InvokeBody true (Some (lunch (decimal 99995 3))))
      /\ rows number_of text_of same_case mounted
           (analysed (decimal 99995 3)
            ++ [ClickSave; SaveSettles backend_up])
         = [lunch_row (decimal 99995 3) AI_EXTRACTED (Some "f-1")]
      /\ SFeqb (decimal 99995 3) (of_Z 100) = false).
Proof. repeat split; reflexivity. Qed.

Lemma inserted_rows_are_pending_witness :
  (exists backend draft,
     SaveSettles backend_up = SaveSettles backend
     /\ saving (after number_of text_of same_case mounted
                  (analysed (of_Z 100) ++ [ClickSave]))
        = Some draft
     /\ status (lunch_row (of_Z 100) AI_EXTRACTED (Some "f-1")) = PENDING
     /\ (source (lunch_row (of_Z 100) AI_EXTRACTED (Some "f-1"))
         = AI_EXTRACTED
         <-> is_Some (d_extractedData draft))
     /\ (source (lunch_row (of_Z 100) AI_EXTRACTED (Some "f-1")) = MANUAL
         <-> d_extractedData draft = None))
  /\ e_amount_net (lunch_row (decimal 99995 3) AI_EXTRACTED (Some "f-1"))
     = decimal 99995 3
  /\ le (abs (sub (add (decimal 99995 3) zero) (of_Z 100))) cent = true.
Proof.
  split.
  - apply (proj1 (inserted_rows_are_pending number_of text_of same_case)
             (after number_of text_of same_case mounted
                (analysed (of_Z 100) ++ [ClickSave]))
             (SaveSettles backend_up)).
    reflexivity.
  - destruct (proj2 (proj2 (proj2 (proj2
                (inserted_rows_are_pending number_of text_of same_case))))
                AnalyzeReceipt.unused
                (AnalyzeReceipt.parses_to
                   (AnalyzeReceipt.receipt_of_100 (VNum (decimal 99995 3))))
                (AnalyzeReceipt.answers
                   (AnalyzeReceipt.receipt_of_100 (VNum (decimal 99995 3))))
                AnalyzeReceipt.a_day AnalyzeReceipt.roomy (Some "secret")
                (AnalyzeReceipt.post AnalyzeReceipt.ticket)
                {| AnalyzeReceipt.status := 200;
                   AnalyzeReceipt.body :=
                     AnalyzeReceipt.SuccessBody
                       (AnalyzeReceipt.DObject
                          (AnalyzeReceipt.receipt_of_100
                             (VNum (decimal 99995 3)))) |}
                [AnalyzeReceipt.request_for "secret" AnalyzeReceipt.ticket]
                (AnalyzeReceipt.receipt_of_100 (VNum (decimal 99995 3)))
                (lunch (decimal 99995 3))
                (after number_of text_of same_case mounted
                   [SelectFile ticket; ClickAnalyze])
                {| l_categories := categories mounted;
                   l_projectCodes := projectCodes mounted |}
                backend_up
                (lunch_row (decimal 99995 3) AI_EXTRACTED (Some "f-1"))
                eq_refl eq_refl eq_refl eq_refl eq_refl eq_refl eq_refl)
      as (_ & _ & _ & Hle & _).
    + intros n Hn. inversion Hn. reflexivity.
    + reflexivity.
    + reflexivity.
    + reflexivity.
    + reflexivity.
    + split; [reflexivity | exact Hle].
Defined.

End ExpenseUpload.

(** ** The file, from the component to the function *)

Module UploadChecks.

Section SameFile.

Variable StringToNumber : list N -> Js.number.
Variable JSON_parse : list N -> option AnalyzeReceipt.Parsed.
Variable fetch : AnalyzeReceipt.GeminiRequest -> AnalyzeReceipt.FetchResult.
Variable today : list N.
Variable arguments_fit : Z -> bool.

Abbreviation serve :=
  (AnalyzeReceipt.serve StringToNumber JSON_parse fetch today arguments_fit).

(** The file of the component and the file the function reads from the form
    data are the same file. *)
Definition same_file (f : ExpenseUpload.File) (sent : AnalyzeReceipt.File)
  : Prop :=
  ExpenseUpload.file_type f = AnalyzeReceipt.type sent
  /\ ExpenseUpload.file_size f = AnalyzeReceipt.size sent.

(** X16.  The component and the function test the type and the size of a
    file in the same way: the component takes a selected file exactly when
    the validation of the function accepts it, so that the function never
    answers 400 to a request that carries a file the component took. *)
Theorem taken_files_are_never_answered_400 st f sent geminiApiKey req :
  same_file f sent ->
  ExpenseUpload.handleFileSelect st f
  = (if AnalyzeReceipt.valid_file sent
     then ExpenseUpload.with_file st (Some f) else st)
  /\ (AnalyzeReceipt.valid_file sent = true ->
      AnalyzeReceipt.formData req
      = Some (Some (AnalyzeReceipt.FormFile sent)) ->
      AnalyzeReceipt.status (serve geminiApiKey req).1 <> 400).
Proof.
  intros [Htype Hsize]. split.
  - unfold ExpenseUpload.handleFileSelect, AnalyzeReceipt.valid_file,
      AnalyzeReceipt.includes, AnalyzeReceipt.maxSize.
    rewrite Htype, Hsize.
    change ExpenseUpload.allowedTypes with AnalyzeReceipt.allowedTypes.
    destruct (bool_decide (AnalyzeReceipt.type sent
                           ∈ AnalyzeReceipt.allowedTypes)); simpl; [| done].
    by destruct (10 * 1024 * 1024 <? AnalyzeReceipt.size sent).
  - intros Hvalid Hform. unfold AnalyzeReceipt.serve.
    destruct (bool_decide (AnalyzeReceipt.method req = "OPTIONS"));
      [done |].
    destruct geminiApiKey as [key |];
      [| by rewrite AnalyzeReceipt.analyze_no_key].
    destruct (decide (key = "")) as [-> | Hkey];
      [by rewrite AnalyzeReceipt.analyze_empty_key |].
    rewrite (AnalyzeReceipt.analyze_valid _ _ _ _ _ key req sent Hkey Hform
               Hvalid).
    destruct (arguments_fit (AnalyzeReceipt.size sent)); [| done].
    destruct (AnalyzeReceipt.interpret _ _ _ _ _)
      as [[resp | resp | e] log] eqn:Hint; simpl; [| | done].
    + apply AnalyzeReceipt.interpret_next in Hint
        as (http_status & text & parsed & _ & _ & _ & Hfinish).
      apply AnalyzeReceipt.finish_next in Hfinish
        as [(r & d & _ & _ & ->) | (json & _ & ->)]; done.
    + by apply AnalyzeReceipt.interpret_not_return in Hint.
Qed.

End SameFile.

Lemma taken_files_are_never_answered_400_witness :
  ExpenseUpload.handleFileSelect ExpenseUpload.mounted ExpenseUpload.ticket
  = ExpenseUpload.with_file ExpenseUpload.mounted
      (Some ExpenseUpload.ticket)
  /\ AnalyzeReceipt.status
       (AnalyzeReceipt.run_with AnalyzeReceipt.lunch_wrong_net
          AnalyzeReceipt.ticket).1 <> 400.
Proof.
  destruct (taken_files_are_never_answered_400 AnalyzeReceipt.unused
              (AnalyzeReceipt.parses_to AnalyzeReceipt.lunch_wrong_net)
              (AnalyzeReceipt.answers AnalyzeReceipt.lunch_wrong_net)
              AnalyzeReceipt.a_day AnalyzeReceipt.roomy
              ExpenseUpload.mounted ExpenseUpload.ticket
              AnalyzeReceipt.ticket (Some "secret")
              (AnalyzeReceipt.post AnalyzeReceipt.ticket))
    as [Htaken Hanswer].
  - split; reflexivity.
  - split; [exact Htaken |]. apply Hanswer; reflexivity.
Defined.

End UploadChecks.


(** ** The expense list: approval and row-level policies *)

Module Expenses.

Inductive app_role := ADMIN | EMPLOYEE.

Inductive expense_status := PENDING | APPROVED | REJECTED.

#[global] Instance app_role_eq_dec : EqDecision app_role.
Proof. solve_decision. Defined.

#[global] Instance expense_status_eq_dec : EqDecision expense_status.
Proof. solve_decision. Defined.

(** The columns of [public.expenses] that approval reads or writes. *)
Record Expense := {
  id : string;
  employee_id : string;
  status : expense_status;
  approver_id : option string;
  approved_at : option Z;
  rejection_reason : option (list N)
}.

(** Who runs a statement: [auth.uid()], and the [profiles] table that
    [get_current_user_role()] reads. *)
Record Actor := {
  uid : string;
  profiles : gmap string app_role
}.

(** [public.get_current_user_role()]: the role of the profile of the user,
    [NULL] when there is none. *)
Definition get_current_user_role (a : Actor) : option app_role :=
  profiles a !! uid a.

(** A permissive policy [FOR UPDATE]: its [USING] expression and, when it
    has one, its [WITH CHECK] expression. *)
Record Policy := {
  USING : Actor -> Expense -> bool;
  WITH_CHECK : option (Actor -> Expense -> bool)
}.

(** "Users can update their own pending expenses" *)
Definition users_update_own_pending : Policy :=
  {| USING := fun a row =>
       bool_decide (employee_id row = uid a)
       && bool_decide (status row = PENDING);
     WITH_CHECK := None |}.

(** "Admins can update all expenses" *)
Definition admins_update_all : Policy :=
  {| USING := fun a _ =>
       bool_decide (get_current_user_role a = Some ADMIN);
     WITH_CHECK := None |}.

Definition update_policies : list Policy :=
  [users_update_own_pending; admins_update_all].

(** A policy without [WITH CHECK] checks the new row with [USING]. *)
Definition check_of (p : Policy) : Actor -> Expense -> bool :=
  match WITH_CHECK p with
  | Some expression => expression
  | None => USING p
  end.

(** The database lets an [UPDATE] change a row when some policy accepts the
    row as it is and some policy accepts the row as it would become. *)
Definition update_allowed (a : Actor) (old new : Expense) : bool :=
  existsb (fun p => USING p a old) update_policies
  && existsb (fun p => check_of p a new) update_policies.

(** [update(patch).eq('id', expenseId)] run by an actor: the row with that
    id is replaced when the policies allow it, and nothing happens
    otherwise. *)
Definition update_by_id (a : Actor) (expenseId : string)
    (patch : Expense -> Expense) (table : gmap string Expense)
  : gmap string Expense :=
  match table !! expenseId with
  | Some old =>
      if update_allowed a old (patch old) then <[expenseId := patch old]> table
      else table
  | None => table
  end.

(** The profile the page has loaded. *)
Record Profile := { profile_id : string; role : app_role }.

(** The condition under which the list shows the approve and reject buttons
    for a row it has loaded. *)
Definition review_offered (profile : option Profile) (listed : Expense)
  : bool :=
  match profile with
  | Some p => bool_decide (role p = ADMIN)
              && bool_decide (status listed = PENDING)
  | None => false
  end.

Definition approved_by (approver : option string) (now : Z) (e : Expense)
  : Expense :=
  {| id := id e; employee_id := employee_id e; status := APPROVED;
     approver_id := approver; approved_at := Some now;
     rejection_reason := rejection_reason e |}.

Definition rejected_by (approver : option string) (now : Z)
    (reason : list N) (e : Expense) : Expense :=
  {| id := id e; employee_id := employee_id e; status := REJECTED;
     approver_id := approver; approved_at := Some now;
     rejection_reason := Some reason |}.

(** [approveExpense] *)
Definition approveExpense (profile : option Profile) (now : Z) (a : Actor)
    (expenseId : string) (table : gmap string Expense)
  : gmap string Expense :=
  update_by_id a expenseId
    (approved_by (profile_id <$> profile) now) table.

(** [rejectExpense] *)
Definition rejectExpense (profile : option Profile) (now : Z) (a : Actor)
    (selectedExpense : option Expense) (rejectionReason : list N)
    (table : gmap string Expense)
  : gmap string Expense :=
  match selectedExpense with
  | None => table
  | Some selected =>
      if bool_decide (Js.trim rejectionReason = []) then table
      else
        update_by_id a (id selected)
          (rejected_by (profile_id <$> profile) now rejectionReason) table
  end.

Lemma update_allowed_spec a old new :
  update_allowed a old new = true
  <-> (get_current_user_role a = Some ADMIN
       \/ employee_id old = uid a /\ status old = PENDING)
      /\ (get_current_user_role a = Some ADMIN
          \/ employee_id new = uid a /\ status new = PENDING).
Proof.
  unfold update_allowed, update_policies, check_of. simpl.
  rewrite andb_true_iff, !orb_true_iff, !andb_true_iff,
    !bool_decide_eq_true.
  intuition discriminate.
Qed.

Lemma update_by_id_lookup a expenseId patch table :
  update_by_id a expenseId patch table !! expenseId = table !! expenseId
  \/ exists old,
       table !! expenseId = Some old
       /\ update_allowed a old (patch old) = true
       /\ update_by_id a expenseId patch table !! expenseId
          = Some (patch old).
Proof.
  unfold update_by_id.
  destruct (table !! expenseId) as [old |] eqn:Hold; [| by left].
  destruct (update_allowed a old (patch old)) eqn:Hallowed.
  - right. exists old. by rewrite lookup_insert_eq.
  - by left.
Qed.

(** C3, as the code has it.  Under the row policies an update that changes
    the status of an expense is allowed only to an actor whose profile role
    is ADMIN; any other actor can update only a PENDING expense of their own
    and must leave it PENDING and theirs.  An ADMIN is allowed every update,
    whatever the status before and after.  The page offers approval and
    rejection only to an ADMIN profile and only for a row it lists as
    PENDING; approving leaves the row of that id as it was or APPROVED,
    rejecting leaves it as it was or REJECTED, so when the row in the table
    is the row listed the change is PENDING to APPROVED or PENDING to
    REJECTED. *)
Theorem status_changes_need_admin :
  (forall a old new,
     update_allowed a old new = true ->
     status old <> status new ->
     get_current_user_role a = Some ADMIN)
  /\ (forall a old new,
        update_allowed a old new = true ->
        get_current_user_role a <> Some ADMIN ->
        employee_id old = uid a /\ employee_id new = uid a
        /\ status old = PENDING /\ status new = PENDING)
  /\ (forall a old new,
        get_current_user_role a = Some ADMIN ->
        update_allowed a old new = true)
  /\ (forall profile listed,
        review_offered profile listed = true ->
        (exists p, profile = Some p /\ role p = ADMIN)
        /\ status listed = PENDING)
  /\ (forall profile now a expenseId table before,
        table !! expenseId = Some before ->
        exists row,
          approveExpense profile now a expenseId table !! expenseId
          = Some row
          /\ (row = before
              \/ status row = APPROVED
                 /\ get_current_user_role a = Some ADMIN))
  /\ (forall profile now a selected reason table before,
        table !! id selected = Some before ->
        exists row,
          rejectExpense profile now a (Some selected) reason table
            !! id selected = Some row
          /\ (row = before
              \/ status row = REJECTED
                 /\ get_current_user_role a = Some ADMIN)).
Proof.
  split; [| split; [| split; [| split; [| split]]]].
  - intros a old new Hallowed Hchange.
    apply update_allowed_spec in Hallowed as [[? | [_ Ho]] [? | [_ Hn]]];
      try done.
    congruence.
  - intros a old new Hallowed Hrole.
    apply update_allowed_spec in Hallowed as [[? | [? ?]] [? | [? ?]]];
      done.
  - intros a old new Hrole. apply update_allowed_spec. auto.
  - intros [p |] listed; simpl; [| done].
    rewrite andb_true_iff, !bool_decide_eq_true. intros [? ?]. eauto.
  - intros profile now a expenseId table before Hbefore.
    unfold approveExpense.
    destruct (update_by_id_lookup a expenseId
                (approved_by (profile_id <$> profile) now) table)
      as [Hsame | (old & Hold & Hallowed & Hnew)].
    + exists before. rewrite Hsame. auto.
    + eexists. split; [exact Hnew |]. right. split; [done |].
      apply update_allowed_spec in Hallowed as [_ [? | [_ ?]]]; done.
  - intros profile now a selected reason table before Hbefore.
    unfold rejectExpense.
    destruct (bool_decide (Js.trim reason = [])); [eauto |].
    destruct (update_by_id_lookup a (id selected)
                (rejected_by (profile_id <$> profile) now reason) table)
      as [Hsame | (old & Hold & Hallowed & Hnew)].
    + exists before. rewrite Hsame. auto.
    + eexists. split; [exact Hnew |]. right. split; [done |].
      apply update_allowed_spec in Hallowed as [_ [? | [_ ?]]]; done.
Qed.

(** **** An approved expense *)

Definition boss : Actor :=
  {| uid := "u-9";
     profiles := <["u-9" := ADMIN]> (<["u-1" := EMPLOYEE]> ∅) |}.

Definition boss_profile : Profile := {| profile_id := "u-9"; role := ADMIN |}.

Definition taxi (st : expense_status) : Expense :=
  {| id := "e-1"; employee_id := "u-1"; status := st;
     approver_id := None; approved_at := None; rejection_reason := None |}.

(** C3, as stated, fails.  The policies let an ADMIN take an APPROVED
    expense back to PENDING, or on to REJECTED.  And through the page: the
    list still shows as PENDING an expense that has been rejected in the
    meantime, the approve button is there, and the handler turns the
    REJECTED row into an APPROVED one. *)
Lemma approved_is_not_final :
  get_current_user_role boss = Some ADMIN
  /\ update_allowed boss (taxi APPROVED) (taxi PENDING) = true
  /\ update_allowed boss (taxi APPROVED) (taxi REJECTED) = true
  /\ review_offered (Some boss_profile) (taxi PENDING) = true
  /\ status <$> ({[ "e-1" := taxi REJECTED ]} : gmap string Expense) !! "e-1"
     = Some REJECTED
  /\ status <$> approveExpense (Some boss_profile) 5000 boss "e-1"
                  {[ "e-1" := taxi REJECTED ]} !! "e-1"
     = Some APPROVED.
Proof. repeat split; reflexivity. Qed.

Lemma status_changes_need_admin_witness :
  get_current_user_role boss = Some ADMIN.
Proof.
  apply (proj1 status_changes_need_admin boss (taxi PENDING) (taxi APPROVED)).
  - reflexivity.
  - discriminate.
Defined.

End Expenses.


(** ** More on the request-rate limiter: runs and responses *)

Module RateLimiterRuns.
Import RateLimiter.

Definition calls_on (k : string) (calls : list Call) : list Call :=
  filter (fun c => call_key c = k) calls.

Definition let_through (tr : list (Call * RateLimitResult))
  : list (Call * RateLimitResult) :=
  filter (fun cr => limited cr.2 = false) tr.

(** [n] times the same call. *)
Definition again (n : nat) (c : Call) : list Call := replicate n c.

(** A call that opens a window at [t], calls that fill it at its very last
    millisecond, and as many calls as the rule allows one millisecond
    later. *)
Definition boundary_burst (clientIP endpoint : string) (t : Z) : list Call :=
  let rule := config_for endpoint in
  let n := Z.to_nat (maxRequests rule) in
  let at_ ms := {| c_ip := clientIP; c_endpoint := endpoint; c_now := ms |} in
  (at_ t :: again (n - 1) (at_ (t + windowMs rule))
     ++ again n (at_ (t + windowMs rule + 1)))%list.

(** What a call returns, and what it leaves under its key, depends on the
    store through the entry of its key only. *)
Lemma isRateLimited_agree clientIP endpoint now st1 st2 :
  st1 !! getRateLimitKey clientIP endpoint
  = st2 !! getRateLimitKey clientIP endpoint ->
  (isRateLimited clientIP endpoint now st1).1
  = (isRateLimited clientIP endpoint now st2).1
  /\ (isRateLimited clientIP endpoint now st1).2
       !! getRateLimitKey clientIP endpoint
     = (isRateLimited clientIP endpoint now st2).2
         !! getRateLimitKey clientIP endpoint.
Proof.
  intros Hk. unfold isRateLimited. rewrite <- Hk.
  destruct (st1 !! getRateLimitKey clientIP endpoint) as [e |] eqn:H1;
    simpl.
  - destruct (resetTime e <? now); simpl;
      [by rewrite !lookup_insert_eq |].
    destruct (count e <? maxRequests (config_for endpoint)); simpl;
      [by rewrite !lookup_insert_eq | split; congruence].
  - by rewrite !lookup_insert_eq.
Qed.

Lemma isRateLimited_limited clientIP endpoint now st :
  limited (isRateLimited clientIP endpoint now st).1 = true ->
  (isRateLimited clientIP endpoint now st).2 = st
  /\ exists e,
       st !! getRateLimitKey clientIP endpoint = Some e
       /\ now <= resetTime e
       /\ maxRequests (config_for endpoint) <= count e
       /\ res_resetTime (isRateLimited clientIP endpoint now st).1
          = Some (resetTime e).
Proof.
  unfold isRateLimited.
  destruct (st !! getRateLimitKey clientIP endpoint) as [e |]; simpl;
    [| done].
  destruct (resetTime e <? now) eqn:Hexp; simpl; [done |].
  destruct (count e <? maxRequests (config_for endpoint)) eqn:Hc; simpl;
    [done |].
  intros _. split; [done |]. exists e.
  apply Z.ltb_ge in Hexp. apply Z.ltb_ge in Hc. done.
Qed.

Lemma isRateLimited_absent clientIP endpoint now st :
  st !! getRateLimitKey clientIP endpoint = None ->
  isRateLimited clientIP endpoint now st
  = (not_limited,
     <[getRateLimitKey clientIP endpoint
       := {| count := 1;
             resetTime := now + windowMs (config_for endpoint) |}]> st).
Proof. intros H. unfold isRateLimited. by rewrite H. Qed.

Lemma isRateLimited_expired clientIP endpoint now st e :
  st !! getRateLimitKey clientIP endpoint = Some e ->
  resetTime e < now ->
  isRateLimited clientIP endpoint now st
  = (not_limited,
     <[getRateLimitKey clientIP endpoint
       := {| count := 1;
             resetTime := now + windowMs (config_for endpoint) |}]> st).
Proof.
  intros H Hexp. unfold isRateLimited. rewrite H.
  apply Z.ltb_lt in Hexp. by rewrite Hexp.
Qed.

Lemma run_app calls1 calls2 st :
  run (calls1 ++ calls2) st
  = (((run calls1 st).1 ++ (run calls2 (run calls1 st).2).1)%list,
     (run calls2 (run calls1 st).2).2).
Proof.
  revert st. induction calls1 as [| c rest IH]; intros st.
  { simpl. by destruct (run calls2 st). }
  change ((c :: rest) ++ calls2)%list with (c :: (rest ++ calls2))%list.
  rewrite !run_cons. simpl. by rewrite IH.
Qed.

(** Calls that fit in the window and under the maximum are all let
    through, and counted. *)
Lemma run_again_allowed clientIP endpoint now n :
  forall st c R,
    st !! getRateLimitKey clientIP endpoint
    = Some {| count := c; resetTime := R |} ->
    now <= R ->
    c + Z.of_nat n <= maxRequests (config_for endpoint) ->
    run (again n {| c_ip := clientIP; c_endpoint := endpoint;
                    c_now := now |}) st
    = (replicate n ({| c_ip := clientIP; c_endpoint := endpoint;
                       c_now := now |}, not_limited),
       <[getRateLimitKey clientIP endpoint
         := {| count := c + Z.of_nat n; resetTime := R |}]> st).
Proof.
  induction n as [| n IH]; intros st c R Hst Hnow Hmax.
  { simpl. rewrite Z.add_0_r. by rewrite insert_id. }
  unfold again in *. simpl replicate. rewrite run_cons. simpl.
  unfold isRateLimited at 1 2 3. rewrite Hst. simpl.
  destruct (R <? now) eqn:Hexp; [apply Z.ltb_lt in Hexp; lia |].
  destruct (c <? maxRequests (config_for endpoint)) eqn:Hc;
    [| apply Z.ltb_ge in Hc; lia].
  simpl.
  rewrite (IH _ (c + 1) R); [| by rewrite lookup_insert_eq | done | lia].
  simpl. rewrite insert_insert_eq.
  by replace (c + 1 + Z.of_nat n) with (c + Z.of_nat (S n)) by lia.
Qed.

(** X1.  The answers given to the calls for a key are those the calls would
    get without any of the other calls of the run: traffic for other keys
    never changes a decision. *)
Theorem other_keys_never_interfere k calls :
  forall st1 st2,
    st1 !! k = st2 !! k ->
    on_key k (run calls st1).1 = (run (calls_on k calls) st2).1.
Proof.
  induction calls as [| c rest IH]; intros st1 st2 Hk; [done |].
  rewrite run_cons. unfold on_key, calls_on. simpl.
  rewrite !filter_cons. simpl.
  destruct (decide (call_key c = k)) as [Hc | Hc].
  - rewrite run_cons. simpl. subst k.
    destruct (isRateLimited_agree (c_ip c) (c_endpoint c) (c_now c)
                st1 st2 Hk) as [Hres Hst].
    rewrite Hres. f_equal. by apply IH.
  - apply IH. by rewrite isRateLimited_other.
Qed.

(** X2.  A refused call leaves nothing behind: the run without its refused
    calls gives the other calls the same answers and ends in the same
    store. *)
Theorem refused_calls_leave_no_trace calls :
  forall st,
    run (map fst (let_through (run calls st).1)) st
    = (let_through (run calls st).1, (run calls st).2).
Proof.
  induction calls as [| c rest IH]; intros st; [done |].
  rewrite run_cons. simpl. unfold let_through. rewrite filter_cons. simpl.
  destruct (limited (isRateLimited (c_ip c) (c_endpoint c) (c_now c) st).1)
    eqn:Hlim.
  - destruct (isRateLimited_limited _ _ _ _ Hlim) as [Hst _].
    rewrite Hst. rewrite decide_False by done. apply IH.
  - rewrite decide_True by done. simpl map. rewrite run_cons. simpl.
    fold (let_through (run rest
            (isRateLimited (c_ip c) (c_endpoint c) (c_now c) st).2).1).
    by rewrite IH.
Qed.

(** X3.  A fixed window lets a double burst through at its boundary: after
    one call that opens a window, the calls that fill the window at its last
    millisecond and a full allowance of calls one millisecond later are all
    let through, twice the maximum less one within two milliseconds. *)
Theorem boundary_burst_is_let_through clientIP endpoint t st :
  st !! getRateLimitKey clientIP endpoint = None ->
  Forall (fun cr => limited cr.2 = false)
    (run (boundary_burst clientIP endpoint t) st).1
  /\ Z.of_nat (length (run (boundary_burst clientIP endpoint t) st).1)
     = 2 * maxRequests (config_for endpoint)
  /\ Forall (fun c => t + windowMs (config_for endpoint) <= c_now c
                      <= t + windowMs (config_for endpoint) + 1)
       (tail (boundary_burst clientIP endpoint t)).
Proof.
  intros Hst.
  pose proof (maxRequests_bounds endpoint) as Hmax.
  assert (HW : 0 < windowMs (config_for endpoint))
    by (destruct (windowMs_whole_seconds endpoint) as (s & Hs & ->); lia).
  set (N := maxRequests (config_for endpoint)) in *.
  set (W := windowMs (config_for endpoint)) in *.
  set (k := getRateLimitKey clientIP endpoint) in *.
  set (late := {| c_ip := clientIP; c_endpoint := endpoint;
                  c_now := t + W |}).
  set (later := {| c_ip := clientIP; c_endpoint := endpoint;
                   c_now := t + W + 1 |}).
  assert (Hn : Z.to_nat N = S (Z.to_nat N - 1)) by lia.
  assert (Hburst :
    boundary_burst clientIP endpoint t
    = ({| c_ip := clientIP; c_endpoint := endpoint; c_now := t |}
         :: again (Z.to_nat N - 1) late
         ++ later :: again (Z.to_nat N - 1) later)%list).
  { unfold boundary_burst. fold N W late later.
    rewrite Hn at 2. reflexivity. }
  assert (Hrun :
    (run (boundary_burst clientIP endpoint t) st).1
    = (({| c_ip := clientIP; c_endpoint := endpoint; c_now := t |},
        not_limited)
         :: replicate (Z.to_nat N - 1) (late, not_limited)
         ++ (later, not_limited)
         :: replicate (Z.to_nat N - 1) (later, not_limited))%list).
  { rewrite Hburst, run_cons. cbn [c_ip c_endpoint c_now fst snd].
    rewrite (isRateLimited_absent clientIP endpoint t st Hst).
    cbn [fst snd]. fold k W. rewrite run_app.
    rewrite (run_again_allowed clientIP endpoint (t + W) _ _ 1 (t + W));
      [| by rewrite lookup_insert_eq | lia | fold N; lia].
    cbn [fst snd]. f_equal. f_equal. rewrite run_cons.
    cbn [c_ip c_endpoint c_now fst snd later].
    rewrite (isRateLimited_expired clientIP endpoint (t + W + 1) _
               {| count := 1 + Z.of_nat (Z.to_nat N - 1);
                  resetTime := t + W |});
      [| by rewrite lookup_insert_eq | simpl; lia].
    cbn [fst snd]. f_equal.
    rewrite (run_again_allowed clientIP endpoint (t + W + 1) _ _ 1
               (t + W + 1 + W));
      [done | by rewrite lookup_insert_eq | fold W; lia | fold N; lia]. }
  split; [| split].
  - rewrite Hrun. apply Forall_cons. split; [done |].
    apply Forall_app. split; [by apply Forall_replicate |].
    apply Forall_cons. split; [done | by apply Forall_replicate].
  - rewrite Hrun. simpl. rewrite length_app. simpl.
    rewrite !length_replicate. lia.
  - rewrite Hburst. simpl. apply Forall_app. split.
    + apply Forall_replicate. simpl. lia.
    + apply Forall_cons. split; [simpl; lia |].
      apply Forall_replicate. simpl. lia.
Qed.

Lemma limit_header_is_max endpoint :
  limit_header_of endpoint = maxRequests (config_for endpoint).
Proof.
  unfold limit_header_of, config_for.
  by destruct (rateLimitConfig endpoint).
Qed.

(** X4.  The handler answers 429 exactly when the limiter refuses, and 200
    otherwise.  A 429 carries the message and, as X-RateLimit-Limit, the
    maximum of the rule of the pathname, also when that rule is the default
    one; its Retry-After is not negative when the clock reads for the header
    what it read for the check. *)
Theorem refusal_response req clock st :
  (status (serve req clock st).1 = 429
   <-> limited (isRateLimited (clientIP_of req) (pathname req)
                  (t_check clock) st).1 = true)
  /\ (status (serve req clock st).1 = 200
      <-> limited (isRateLimited (clientIP_of req) (pathname req)
                     (t_check clock) st).1 = false)
  /\ (forall msg ra_body ra_header limit reset,
        (serve req clock st).1
        = TooManyRequests msg ra_body ra_header limit reset ->
        msg = Some (message (config_for (pathname req)))
        /\ limit = maxRequests (config_for (pathname req))
        /\ (serve req clock st).2 = st
        /\ (t_header clock = t_check clock -> 0 <= ra_header)).
Proof.
  unfold serve.
  pose proof (isRateLimited_limited (clientIP_of req) (pathname req)
                (t_check clock) st) as Hlim.
  destruct (isRateLimited (clientIP_of req) (pathname req) (t_check clock) st)
    as [res st'] eqn:Hcall.
  simpl in *. destruct (limited res) eqn:Hl; simpl.
  - split; [done |]. split; [done |].
    intros msg ra_body ra_header limit reset Heq.
    destruct (Hlim eq_refl) as [-> (e & He & Hnow & Hmax & Hreset)].
    inversion Heq; subst. clear Heq.
    unfold isRateLimited in Hcall. rewrite He in Hcall.
    destruct (resetTime e <? t_check clock) eqn:Hexp;
      [apply Z.ltb_lt in Hexp; lia |].
    destruct (count e <? maxRequests (config_for (pathname req))) eqn:Hc;
      [apply Z.ltb_lt in Hc; lia |].
    inversion Hcall; subst. simpl.
    split; [done |]. split; [apply limit_header_is_max |].
    split; [done |].
    intros Hsame. rewrite Hsame. unfold retryAfter.
    assert ((- (resetTime e - t_check clock)) / 1000 <= 0)
      by (apply Z.div_le_upper_bound; lia).
    lia.
  - split; [done |]. split; [done |]. intros ? ? ? ? ? Heq. discriminate.
Qed.

Definition plain_request : Request :=
  {| x_forwarded_for := Some "10.0.0.1"; x_real_ip := None;
     path_tail := "auth/signup"; method := "POST";
     remote_addr := "10.0.0.1"; other_headers := [] |}.

Lemma other_keys_never_interfere_witness :
  on_key "203.0.113.7:/auth/signup" (run signup_burst ∅).1
  = (run (calls_on "203.0.113.7:/auth/signup" signup_burst) ∅).1.
Proof.
  apply (other_keys_never_interfere "203.0.113.7:/auth/signup" signup_burst
           ∅ ∅).
  reflexivity.
Defined.

Lemma boundary_burst_is_let_through_witness :
  Forall (fun cr => limited cr.2 = false)
    (run (boundary_burst "203.0.113.7" "/auth/signup" 0) ∅).1
  /\ Z.of_nat (length (run (boundary_burst "203.0.113.7" "/auth/signup" 0)
                         ∅).1)
     = 2 * maxRequests (config_for "/auth/signup")
  /\ Forall (fun c => 0 + windowMs (config_for "/auth/signup") <= c_now c
                      <= 0 + windowMs (config_for "/auth/signup") + 1)
       (tail (boundary_burst "203.0.113.7" "/auth/signup" 0)).
Proof.
  apply (boundary_burst_is_let_through "203.0.113.7" "/auth/signup" 0 ∅).
  reflexivity.
Defined.

Lemma refusal_response_witness :
  Some (message rule_auth_signup)
  = Some (message (config_for (pathname plain_request)))
  /\ 3 = maxRequests (config_for (pathname plain_request))
  /\ (serve plain_request at_one_second spent_store).2 = spent_store
  /\ (t_header at_one_second = t_check at_one_second -> 0 <= 299).
Proof.
  apply (proj2 (proj2 (refusal_response plain_request at_one_second
                         spent_store))
           _ 299 299 3 300000).
  reflexivity.
Defined.

End RateLimiterRuns.

